(** * Stock/bond percentile service: a shallow embedding and its properties

    The development follows the Python sources

    - [backend/services/percentile_service.py]  (class [PercentileService])
    - [backend/api/stocks.py], [backend/api/bonds.py], [backend/api/analysis.py]
    - [backend/api/market.py]
    - [backend/utils/config.py]                 (class [Settings])

    Numbers are read in two ways.  In the real-number reading a Python/NumPy
    float is a rational, or NaN ([float64]), every arithmetic operation is
    exact and the square root is a parameter: it serves for what rounding
    does not disturb (counts, orders, ranges, thresholds).  In the binary64
    reading ([Module Binary64]) a float is an IEEE 754 double and every
    operation rounds as the hardware does: it serves where the last bit
    matters.  Exceptions are explicit ([result]); a [try/except] is a [match]
    on the outcome of the protected block.  A Python [str] is held as its
    UTF-8 encoding. *)

From Stdlib Require Import String Ascii ZArith QArith Qabs Qround Lia Bool Arith List.
From Stdlib Require Import DecimalString Permutation Lqa.
From Stdlib Require Import PrimFloat FloatAxioms SpecFloat.
Import ListNotations.

Set Implicit Arguments.

(** ** Python values *)

(** A float: a finite rational or NaN (infinities never arise here). *)
Inductive float64 : Type :=
| Fin (q : Q)
| NaN.

(** The exception classes the sources raise or can meet. *)
Inductive exn : Type :=
| ValueError (msg : string)
| TypeError (msg : string)
| IndexError
| ZeroDivisionError
| OverflowError
| HTTPException (status_code : nat) (detail : string).

Inductive result (A : Type) : Type :=
| Ok (a : A)
| Raise (e : exn).

Arguments Ok {A} a.
Arguments Raise {A} e.

Definition bind {A B : Type} (m : result A) (k : A -> result B) : result B :=
  match m with
  | Ok a => k a
  | Raise e => Raise e
  end.

Notation "x <- m ;; k" := (bind m (fun x => k))
  (at level 61, m at next level, right associativity).

(** [try: body  except Exception as e: handler e]. *)
Definition try_except {A : Type} (body : result A) (handler : exn -> result A)
  : result A :=
  match body with
  | Ok a => Ok a
  | Raise e => handler e
  end.

(** A [try] whose [except] branch returns a value: the statement is total. *)
Definition try_default {A : Type} (body : result A) (handler : exn -> A) : A :=
  match body with
  | Ok a => a
  | Raise e => handler e
  end.

Fixpoint mapM {A B : Type} (f : A -> result B) (l : list A) : result (list B) :=
  match l with
  | [] => Ok []
  | x :: l' => y <- f x ;; ys <- mapM f l' ;; Ok (y :: ys)
  end.

Definition str_of_nat (n : nat) : string :=
  NilEmpty.string_of_uint (Nat.to_uint n).

(** [str(e)]: the message of a [ValueError] or [TypeError]; Starlette
    renders an [HTTPException] as ["{status_code}: {detail}"]. *)
Definition str (e : exn) : string :=
  match e with
  | ValueError msg => msg
  | TypeError msg => msg
  | IndexError => "single positional indexer is out-of-bounds"
  | ZeroDivisionError => "division by zero"
  | OverflowError => "(34, 'Numerical result out of range')"
  | HTTPException c d => str_of_nat c ++ ": " ++ d
  end%string.

(** ** Float arithmetic *)

Definition Qltb (x y : Q) : bool := negb (Qle_bool y x).

Definition lift2 (f : Q -> Q -> Q) (a b : float64) : float64 :=
  match a, b with
  | Fin x, Fin y => Fin (f x y)
  | _, _ => NaN
  end.

Definition fadd : float64 -> float64 -> float64 := lift2 Qplus.
Definition fsub : float64 -> float64 -> float64 := lift2 Qminus.
Definition fmul : float64 -> float64 -> float64 := lift2 Qmult.

Definition fabs (a : float64) : float64 :=
  match a with
  | Fin x => Fin (Qabs x)
  | NaN => NaN
  end.

(** Comparisons: any comparison with NaN is [False]. *)
Definition flt (a b : float64) : bool :=
  match a, b with
  | Fin x, Fin y => Qltb x y
  | _, _ => false
  end.

Definition fgt (a b : float64) : bool := flt b a.

Definition feqb (a b : float64) : bool :=
  match a, b with
  | Fin x, Fin y => Qeq_bool x y
  | _, _ => false
  end.

(** Python's [a / b] on floats: a zero divisor raises. *)
Definition fdiv (a b : float64) : result float64 :=
  match b with
  | NaN => Ok NaN
  | Fin y =>
      if Qeq_bool y 0 then Raise ZeroDivisionError
      else match a with
           | Fin x => Ok (Fin (x / y)%Q)
           | NaN => Ok NaN
           end
  end.

(** NumPy's division inside pandas reductions: 0/0 is NaN, nothing raises. *)
Definition np_div (a b : Q) : float64 :=
  if Qeq_bool b 0 then NaN else Fin (a / b)%Q.

Definition of_nat (n : nat) : Q := inject_Z (Z.of_nat n).

(** [sum(l)] of a list of floats (the start value is the integer 0). *)
Definition py_sum (l : list float64) : float64 := fold_left fadd l (Fin 0).

(** The builtins [min(a, b)] and [max(a, b)]: the second argument wins only
    when it compares strictly smaller (larger). *)
Definition py_min (a b : float64) : float64 := if flt b a then b else a.
Definition py_max (a b : float64) : float64 := if fgt b a then b else a.

(** [round(x, ndigits)]: round half to even on the decimal scale. *)
Definition round_half_even (q : Q) : Z :=
  let f := Qfloor q in
  let r := (q - inject_Z f)%Q in
  if Qltb r (1 # 2) then f
  else if Qltb (1 # 2) r then (f + 1)%Z
  else if Z.even f then f else (f + 1)%Z.

Definition round_q (ndigits : nat) (q : Q) : Q :=
  let scale := inject_Z (10 ^ Z.of_nat ndigits) in
  (inject_Z (round_half_even (q * scale)) / scale)%Q.

Definition round (x : float64) (ndigits : nat) : float64 :=
  match x with
  | Fin q => Fin (round_q ndigits q)
  | NaN => NaN
  end.

(** ** pandas Series *)

Definition timestamp : Type := Z.

(** A Series: index labels with their values, in order. *)
Definition Series (A : Type) : Type := list (timestamp * A).

Definition values {A : Type} (s : Series A) : list A := map snd s.

(** [s.tail(n)]: the last [n] rows. *)
Definition tail {A : Type} (n : nat) (s : list A) : list A :=
  skipn (length s - n) s.

(** [s.iloc[a:b]] for [0 <= a <= b]. *)
Definition iloc_slice {A : Type} (a b : nat) (s : list A) : list A :=
  firstn (b - a) (skipn a s).

(** [s.iloc[i]] for [0 <= i]. *)
Definition iloc {A : Type} (i : nat) (s : list A) : result A :=
  match nth_error s i with
  | Some x => Ok x
  | None => Raise IndexError
  end.

(** [s.iloc[-1]]. *)
Definition iloc_last {A : Type} (s : list A) : result A :=
  match s with
  | [] => Raise IndexError
  | _ => iloc (length s - 1) s
  end.

(** [s < value]: the boolean mask. *)
Definition lt_mask (s : list Q) (value : Q) : list bool :=
  map (fun x => Qltb x value) s.

Definition count_true (m : list bool) : nat := length (filter (fun b => b) m).

(** [mask.mean()]: the fraction of [True]; NaN on an empty mask. *)
Definition mask_mean (m : list bool) : float64 :=
  np_div (of_nat (count_true m)) (of_nat (length m)).

(** ** Settings (utils/config.py)

    The two sizes are natural numbers. *)

Record Settings : Type := {
  PERCENTILE_WINDOW : nat;
  MIN_DATA_POINTS : nat
}.

Definition settings : Settings :=
  {| PERCENTILE_WINDOW := 252; MIN_DATA_POINTS := 60 |}.

(** ** pandas reductions used by the statistics *)

Fixpoint insert_sorted (x : Q) (l : list Q) : list Q :=
  match l with
  | [] => [x]
  | y :: l' => if Qle_bool x y then x :: l else y :: insert_sorted x l'
  end.

Definition sort_values (l : list Q) : list Q := fold_right insert_sorted [] l.

Definition q_sum (l : list Q) : Q := fold_left Qplus l 0%Q.

(** [s.mean()]. *)
Definition s_mean (l : list Q) : float64 := np_div (q_sum l) (of_nat (length l)).

(** [s.min()] and [s.max()]: NaN on an empty Series. *)
Definition s_min (l : list Q) : float64 :=
  match sort_values l with
  | [] => NaN
  | x :: _ => Fin x
  end.

Definition s_max (l : list Q) : float64 :=
  match rev (sort_values l) with
  | [] => NaN
  | x :: _ => Fin x
  end.

(** [s.quantile(q)], linear interpolation between the two closest ranks. *)
Definition s_quantile (q : Q) (l : list Q) : float64 :=
  match sort_values l with
  | [] => NaN
  | (x0 :: _) as srt =>
      let pos := (of_nat (length l - 1) * q)%Q in
      let lo := Z.to_nat (Qfloor pos) in
      let frac := (pos - inject_Z (Qfloor pos))%Q in
      let a := nth lo srt x0 in
      let b := nth (Nat.min (lo + 1) (length l - 1)) srt x0 in
      Fin (a + (b - a) * frac)%Q
  end.

(** [s.median()]. *)
Definition s_median (l : list Q) : float64 := s_quantile (1 # 2) l.

(** [s.std()]: pandas normalises by N-1 (ddof = 1); with fewer than two
    observations the result is NaN.  [sqrt64] is the square root. *)
Definition s_std (sqrt64 : Q -> Q) (l : list Q) : float64 :=
  match s_mean l with
  | NaN => NaN
  | Fin m =>
      if (length l <=? 1)%nat then NaN
      else Fin (sqrt64 (q_sum (map (fun x => (x - m) * (x - m))%Q l)
                        / of_nat (length l - 1))%Q)
  end.

(** ** The percentile service (services/percentile_service.py) *)

Record Statistics : Type := {
  mean : float64;
  median : float64;
  std : float64;
  min : float64;
  max : float64;
  q25 : float64;
  q75 : float64
}.

(** One row of [historical_percentiles] as the API layer reads it
    ([item["percentile"]]), with its index label. *)
Record HistoryRow : Type := {
  date : timestamp;
  row_percentile : float64
}.

(** The dictionary returned by [get_stock_percentile] and
    [get_bond_percentile]; [current_value] is the key [current_price] of a
    stock and [current_yield] of a bond.  [last_update] (the wall clock) is
    left out.  [statistics] is [None] for the empty dictionary. *)
Record PercentileResult : Type := {
  symbol : string;
  current_value : float64;
  percentile : float64;
  period : string;
  data_points : nat;
  statistics : option Statistics;
  historical_percentiles : list HistoryRow
}.

Record PercentileService : Type := {
  window : nat;
  min_data_points : nat
}.

(** [PercentileService.__init__]. *)
Definition new_service (s : Settings) : PercentileService :=
  {| window := PERCENTILE_WINDOW s; min_data_points := MIN_DATA_POINTS s |}.

(** The global instance. *)
Definition percentile_service : PercentileService := new_service settings.

(** What a caller may pass as [into] to [Series.to_dict]: a mapping class
    such as [dict], or an object that is none, such as a [str]. *)
Inductive into_arg : Type :=
| MappingClass
| Str (s : string).

(** [Series.to_dict(into)] of pandas.  Unlike [DataFrame.to_dict], whose
    first parameter is [orient], a Series takes the class of the mapping to
    build: label and value of every row go into it.  An argument that is no
    mapping class is refused ([pandas.core.common.standardize_mapping]
    raises [TypeError] on the type of the object). *)
Definition to_dict (s : Series float64) (into : into_arg)
  : result (list HistoryRow) :=
  match into with
  | MappingClass =>
      Ok (map (fun r => {| date := fst r; row_percentile := snd r |}) s)
  | Str _ => Raise (TypeError "unsupported type: <class 'str'>")
  end.

Module Service.
Section Methods.

Variable self : PercentileService.
(** The floating-point square root. *)
Variable sqrt64 : Q -> Q.
(** The data sources (yfinance, akshare): a frame of closes, resp. yields,
    or [None]. *)
Variable _get_stock_data : string -> string -> option (Series Q).
Variable _get_bond_data : string -> string -> option (Series Q).

Definition _calculate_percentile (series : Series Q) (value : Q) : float64 :=
  try_default
    (let recent_data :=
       if (window self <=? length series)%nat
       then tail (window self) series
       else series in
     let percentile :=
       fmul (mask_mean (lt_mask (values recent_data) value)) (Fin 100) in
     Ok percentile)
    (fun _ => Fin 50).

Definition _calculate_historical_percentiles (series : Series Q)
  : Series float64 :=
  try_default
    (mapM (fun i =>
             let window_data := iloc_slice (i - window self) i series in
             row <- iloc i series ;;
             let current_value := snd row in
             let percentile :=
               fmul (mask_mean (lt_mask (values window_data) current_value))
                    (Fin 100) in
             Ok (fst row, percentile))
          (seq (window self) (length series - window self)))
    (fun _ => []).

Definition _calculate_statistics (series : Series Q) : option Statistics :=
  try_default
    (let v := values series in
     Ok (Some {| mean := round (s_mean v) 2;
                 median := round (s_median v) 2;
                 std := round (s_std sqrt64 v) 2;
                 min := round (s_min v) 2;
                 max := round (s_max v) 2;
                 q25 := round (s_quantile (1 # 4) v) 2;
                 q75 := round (s_quantile (3 # 4) v) 2 |}))
    (fun _ => None).

Definition insufficient_stock (symbol : string) : string :=
  ("股票 " ++ symbol ++ " 数据不足，无法计算百分位")%string.

Definition insufficient_bond (symbol : string) : string :=
  ("债券 " ++ symbol ++ " 数据不足，无法计算百分位")%string.

(** The dictionary display evaluates its values in order; the last one,
    [historical_percentiles.tail(30).to_dict('records')], passes the string
    ['records'] as [into]. *)
Definition get_stock_percentile (sym per : string) : result PercentileResult :=
  try_except
    (let stock_data := _get_stock_data sym per in
     match stock_data with
     | None => Raise (ValueError (insufficient_stock sym))
     | Some close =>
         if (length close <? min_data_points self)%nat
         then Raise (ValueError (insufficient_stock sym))
         else
           row <- iloc_last close ;;
           let current_price := snd row in
           let p := _calculate_percentile close current_price in
           let hist := _calculate_historical_percentiles close in
           let stats := _calculate_statistics close in
           records <- to_dict (tail 30 hist) (Str "records") ;;
           Ok {| symbol := sym;
                 current_value := round (Fin current_price) 2;
                 percentile := round p 2;
                 period := per;
                 data_points := length close;
                 statistics := stats;
                 historical_percentiles := records |}
     end)
    (fun e => Raise e).

Definition get_bond_percentile (sym per : string) : result PercentileResult :=
  try_except
    (let bond_data := _get_bond_data sym per in
     match bond_data with
     | None => Raise (ValueError (insufficient_bond sym))
     | Some yields =>
         if (length yields <? min_data_points self)%nat
         then Raise (ValueError (insufficient_bond sym))
         else
           row <- iloc_last yields ;;
           let current_yield := snd row in
           let p := _calculate_percentile yields current_yield in
           let hist := _calculate_historical_percentiles yields in
           let stats := _calculate_statistics yields in
           records <- to_dict (tail 30 hist) (Str "records") ;;
           Ok {| symbol := sym;
                 current_value := round (Fin current_yield) 4;
                 percentile := round p 2;
                 period := per;
                 data_points := length yields;
                 statistics := stats;
                 historical_percentiles := records |}
     end)
    (fun e => Raise e).

(** The percentile of the latest value of a series (lines 43-44 of the
    service: [series.iloc[-1]], then [_calculate_percentile]). *)
Definition compute_percentile (series : Series Q) : result float64 :=
  row <- iloc_last series ;;
  Ok (_calculate_percentile series (snd row)).

End Methods.
End Service.

(** ** Python strings and lists in the API layer *)

(** The bytes of a string. *)
Fixpoint chars (s : string) : list ascii :=
  match s with
  | EmptyString => []
  | String c s' => c :: chars s'
  end.

Fixpoint of_chars (l : list ascii) : string :=
  match l with
  | [] => EmptyString
  | c :: l' => String c (of_chars l')
  end.

(** [len(s)] counts code points: in UTF-8, the bytes that are not
    continuation bytes (10xxxxxx). *)
Definition is_continuation (c : ascii) : bool :=
  let n := nat_of_ascii c in (128 <=? n)%nat && (n <? 192)%nat.

Fixpoint py_len (s : string) : nat :=
  match s with
  | EmptyString => 0
  | String c s' => ((if is_continuation c then 0 else 1) + py_len s')%nat
  end.

(** White space as [str.strip()] and [str.isspace()] have it: the 29 code
    points U+0009..000D, U+001C..0020, U+0085, U+00A0, U+1680, U+2000..200A,
    U+2028, U+2029, U+202F, U+205F and U+3000, by the length of their UTF-8
    encoding. *)
Definition space1 (a : ascii) : bool :=
  let n := nat_of_ascii a in
  ((9 <=? n) && (n <=? 13)) || ((28 <=? n) && (n <=? 32)).

(** The two-byte ones: C2 85 and C2 A0. *)
Definition space2 (a b : ascii) : bool :=
  (nat_of_ascii a =? 194)
  && ((nat_of_ascii b =? 133) || (nat_of_ascii b =? 160)).

(** The three-byte ones: E1 9A 80; E2 80 80..8A, E2 80 A8, E2 80 A9,
    E2 80 AF; E2 81 9F; E3 80 80. *)
Definition space3 (a b c : ascii) : bool :=
  let '(x, y, z) := (nat_of_ascii a, nat_of_ascii b, nat_of_ascii c) in
  ((x =? 225) && (y =? 154) && (z =? 128))
  || ((x =? 226) && (y =? 128)
      && (((128 <=? z) && (z <=? 138)) || (z =? 168) || (z =? 169)
          || (z =? 175)))
  || ((x =? 226) && (y =? 129) && (z =? 159))
  || ((x =? 227) && (y =? 128) && (z =? 128)).

(** Dropping the white-space characters a byte sequence starts with.  With
    [backwards] the sequence is read from its end, so that the bytes of a
    character come last byte first. *)
Fixpoint drop_spaces (backwards : bool) (l : list ascii) : list ascii :=
  match l with
  | a :: l1 =>
      if space1 a then drop_spaces backwards l1
      else
        match l1 with
        | b :: l2 =>
            if (if backwards then space2 b a else space2 a b)
            then drop_spaces backwards l2
            else
              match l2 with
              | c :: l3 =>
                  if (if backwards then space3 c b a else space3 a b c)
                  then drop_spaces backwards l3
                  else l
              | [] => l
              end
        | [] => l
        end
  | [] => []
  end.

Definition lstrip (s : string) : string :=
  of_chars (drop_spaces false (chars s)).

Definition rstrip (s : string) : string :=
  of_chars (rev (drop_spaces true (rev (chars s)))).

Definition strip (s : string) : string := rstrip (lstrip s).

(** [s.split(",")]. *)
Fixpoint split_comma (s : string) : list string :=
  match s with
  | EmptyString => [EmptyString]
  | String c s' =>
      if Ascii.eqb c ","%char then EmptyString :: split_comma s'
      else match split_comma s' with
           | w :: ws => String c w :: ws
           | [] => [String c EmptyString]
           end
  end.

Definition nonempty (s : string) : bool :=
  match s with
  | EmptyString => false
  | _ => true
  end.

(** [[s.strip() for s in symbols.split(",") if s.strip()]]. *)
Definition parse_symbols (symbols : string) : list string :=
  map strip (filter (fun s => nonempty (strip s)) (split_comma symbols)).

(** [l[-n:]]: the last [n] items, the whole list when [n] is 0. *)
Definition last_items {A : Type} (n : nat) (l : list A) : list A :=
  if (n =? 0)%nat then l else skipn (length l - n) l.

(** [l[0]] and [l[-1]] of a Python list. *)
Definition getitem_first {A : Type} (l : list A) : result A := iloc 0 l.
Definition getitem_last {A : Type} (l : list A) : result A := iloc_last l.

(** The body [{"success": True, "data": ..., "message": ...}]. *)
Record Response (A : Type) : Type := {
  success : bool;
  data : A;
  message : string
}.

(** An entry [{"symbol": symbol, "error": str(e)}]. *)
Record ErrorEntry : Type := {
  err_symbol : string;
  error : string
}.

Record BatchData : Type := {
  results : list PercentileResult;
  errors : list ErrorEntry;
  total : nat;
  success_count : nat;
  error_count : nat
}.

(** Trend labels: "上升", "下降", "横盘". *)
Inductive direction : Type := Up | Down | Flat.

Definition direction_label (d : direction) : string :=
  match d with
  | Up => "上升"
  | Down => "下降"
  | Flat => "横盘"
  end.

(** [trend_analysis] of the stock and bond routes. *)
Record TrendInfo : Type := {
  trend : direction;
  trend_strength : float64;
  recent_percentiles : list float64;
  current_percentile : float64;
  recommendation : string
}.

(** ** Stock and bond routes (api/stocks.py, api/bonds.py)

    The two files differ in the service operation called, the batch limit,
    the recommendation table and the texts; the section is instantiated
    once for each. *)

(** [f"{days}d" if days <= 365 else "1y"]. *)
Definition trend_period (days : nat) : string :=
  if (days <=? 365)%nat then (str_of_nat days ++ "d")%string else "1y"%string.

Section Routes.

(** [percentile_service.get_stock_percentile], resp. [get_bond_percentile]. *)
Variable service_percentile : string -> string -> result PercentileResult.
Variable batch_limit : nat.
Variable recommend : float64 -> direction -> string.
Variables bad_symbol_msg percentile_failed_msg : string.
Variables no_symbols_msg too_many_msg batch_failed_msg : string.
Variable trend_failed_msg : string.

(** GET /stock/{symbol}/percentile, GET /bond/{symbol}/percentile.
    The [HTTPException] of the format check is raised inside the [try] and
    is not a [ValueError]: the last clause turns it into a 500. *)
Definition route_percentile (sym per : string)
  : result (Response PercentileResult) :=
  match
    (if negb (nonempty sym) || (py_len sym <? 3)%nat
     then Raise (HTTPException 400 bad_symbol_msg)
     else
       r <- service_percentile sym per ;;
       Ok {| success := true; data := r; message := "获取成功" |})
  with
  | Ok resp => Ok resp
  | Raise (ValueError msg) => Raise (HTTPException 400 msg)
  | Raise _ => Raise (HTTPException 500 percentile_failed_msg)
  end.

(** The loop over [symbol_list] with its inner [try/except]. *)
Fixpoint batch_loop (per : string) (symbol_list : list string)
         (res : list PercentileResult) (errs : list ErrorEntry)
  : list PercentileResult * list ErrorEntry :=
  match symbol_list with
  | [] => (res, errs)
  | sym :: rest =>
      match service_percentile sym per with
      | Ok r => batch_loop per rest (res ++ [r]) errs
      | Raise e =>
          batch_loop per rest res
                     (errs ++ [{| err_symbol := sym; error := str e |}])
      end
  end.

Definition batch_message (n_ok n_err : nat) : string :=
  ("批量查询完成，成功: " ++ str_of_nat n_ok ++ ", 失败: "
     ++ str_of_nat n_err)%string.

(** GET /stocks/batch, GET /bonds/batch. *)
Definition route_batch (symbols per : string) : result (Response BatchData) :=
  match
    (let symbol_list := parse_symbols symbols in
     match symbol_list with
     | [] => Raise (HTTPException 400 no_symbols_msg)
     | _ =>
         if (batch_limit <? length symbol_list)%nat
         then Raise (HTTPException 400 too_many_msg)
         else
           let '(res, errs) := batch_loop per symbol_list [] [] in
           Ok {| success := true;
                 data := {| results := res;
                            errors := errs;
                            total := length symbol_list;
                            success_count := length res;
                            error_count := length errs |};
                 message := batch_message (length res) (length errs) |}
     end)
  with
  | Ok resp => Ok resp
  | Raise (HTTPException c d) => Raise (HTTPException c d)
  | Raise _ => Raise (HTTPException 500 batch_failed_msg)
  end.

(** GET /stock/{symbol}/trend, GET /bond/{symbol}/trend. *)
Definition route_trend (sym : string) (days : nat)
  : result (Response (PercentileResult * TrendInfo)) :=
  match
    (let per := trend_period days in
     r <- service_percentile sym per ;;
     let historical_data := historical_percentiles r in
     if (length historical_data <? 7)%nat
     then Raise (HTTPException 400 "数据不足，无法分析趋势")
     else
       let recent := map row_percentile (last_items 7 historical_data) in
       p_last <- getitem_last recent ;;
       p_first <- getitem_first recent ;;
       let tr := if fgt p_last p_first then Up else Down in
       p_last' <- getitem_last recent ;;
       p_first' <- getitem_first recent ;;
       let strength := fabs (fsub p_last' p_first') in
       let trend_analysis :=
         {| trend := tr;
            trend_strength := round strength 2;
            recent_percentiles := recent;
            current_percentile := percentile r;
            recommendation := recommend (percentile r) tr |} in
       Ok {| success := true;
             data := (r, trend_analysis);
             message := "趋势分析完成" |})
  with
  | Ok resp => Ok resp
  | Raise (HTTPException c d) => Raise (HTTPException c d)
  | Raise _ => Raise (HTTPException 500 trend_failed_msg)
  end.

End Routes.

Definition fge (a b : float64) : bool :=
  match a, b with
  | Fin x, Fin y => Qle_bool y x
  | _, _ => false
  end.

Module Stocks.

Definition _generate_recommendation (p : float64) (tr : direction) : string :=
  if fgt p (Fin 80) then
    match tr with
    | Up => "高位继续上涨，注意风险，建议减仓"
    | _ => "高位回落，注意风险，建议观望"
    end
  else if flt p (Fin 20) then
    match tr with
    | Up => "低位反弹，可能存在机会，建议关注"
    | _ => "低位继续下跌，可能存在机会，建议分批建仓"
    end
  else
    match tr with
    | Up => "正常区间上涨，可适度参与"
    | _ => "正常区间下跌，可适度关注"
    end.

Section Handlers.
Variable self : PercentileService.
Variable sqrt64 : Q -> Q.
Variable _get_stock_data : string -> string -> option (Series Q).

Definition get_stock_percentile : string -> string -> _ :=
  route_percentile
    (Service.get_stock_percentile self sqrt64 _get_stock_data)
    "股票代码格式不正确" "获取股票百分位失败".

Definition get_batch_stock_percentiles : string -> string -> _ :=
  route_batch
    (Service.get_stock_percentile self sqrt64 _get_stock_data)
    20 "请提供有效的股票代码" "单次最多查询20只股票"
    "批量获取股票百分位失败".

Definition get_stock_trend : string -> nat -> _ :=
  route_trend
    (Service.get_stock_percentile self sqrt64 _get_stock_data)
    _generate_recommendation "获取股票趋势失败".
End Handlers.

End Stocks.

Module Bonds.

Definition _generate_bond_recommendation (p : float64) (tr : direction)
  : string :=
  if fgt p (Fin 80) then
    match tr with
    | Up => "收益率处于高位且继续上升，债券价格下跌，建议观望"
    | _ => "收益率处于高位但开始回落，债券价格可能反弹，可适度关注"
    end
  else if flt p (Fin 20) then
    match tr with
    | Up => "收益率处于低位且开始上升，债券价格可能下跌，注意风险"
    | _ => "收益率处于低位且继续下降，债券价格上涨，可适度配置"
    end
  else
    match tr with
    | Up => "收益率正常区间上升，债券价格下跌，可适度减仓"
    | _ => "收益率正常区间下降，债券价格上涨，可适度增仓"
    end.

Section Handlers.
Variable self : PercentileService.
Variable sqrt64 : Q -> Q.
Variable _get_bond_data : string -> string -> option (Series Q).

Definition get_bond_percentile : string -> string -> _ :=
  route_percentile
    (Service.get_bond_percentile self sqrt64 _get_bond_data)
    "债券代码格式不正确" "获取债券百分位失败".

Definition get_batch_bond_percentiles : string -> string -> _ :=
  route_batch
    (Service.get_bond_percentile self sqrt64 _get_bond_data)
    10 "请提供有效的债券代码" "单次最多查询10只债券"
    "批量获取债券百分位失败".

Definition get_bond_trend : string -> nat -> _ :=
  route_trend
    (Service.get_bond_percentile self sqrt64 _get_bond_data)
    _generate_bond_recommendation "获取债券趋势失败".
End Handlers.

End Bonds.

(** ** Analysis routes (api/analysis.py) *)

Record CompareItem : Type := {
  item_symbol : string;
  item_type : string;
  item_percentile : float64;
  item_value : float64;
  item_statistics : option Statistics
}.

Record CompareStatistics : Type := {
  average_percentile : float64;
  max_percentile : float64;
  min_percentile : float64;
  range : float64
}.

Record Comparison : Type := {
  cmp_results : list CompareItem;
  cmp_errors : list ErrorEntry;
  cmp_statistics : CompareStatistics;
  recommendations : list string
}.

Record TrendAnalysis : Type := {
  ta_symbol : string;
  asset_type : string;
  ta_current_percentile : float64;
  trend_direction : direction;
  ta_trend_strength : float64;
  volatility : float64;
  ma_7 : float64;
  ma_14 : float64;
  ta_historical_percentiles : list HistoryRow;
  ta_recommendation : string
}.

Record CorrelationAnalysis : Type := {
  asset1 : string * string * float64;
  asset2 : string * string * float64;
  correlation : float64;
  correlation_strength : string;
  interpretation : string;
  corr_recommendation : string
}.

(** The builtins [max(l)] and [min(l)], also with [key=]: the first extreme
    item; an empty argument raises [ValueError]. *)
Definition py_max_by {A : Type} (key : A -> float64) (l : list A) : result A :=
  match l with
  | [] => Raise (ValueError "max() arg is an empty sequence")
  | x :: l' =>
      Ok (fold_left (fun best y => if fgt (key y) (key best) then y else best)
                    l' x)
  end.

Definition py_min_by {A : Type} (key : A -> float64) (l : list A) : result A :=
  match l with
  | [] => Raise (ValueError "min() arg is an empty sequence")
  | x :: l' =>
      Ok (fold_left (fun best y => if flt (key y) (key best) then y else best)
                    l' x)
  end.

(** [l.sort(key=..., reverse=True)]: stable, largest key first. *)
Fixpoint insert_desc {A : Type} (key : A -> float64) (x : A) (l : list A)
  : list A :=
  match l with
  | [] => [x]
  | y :: l' =>
      if fgt (key y) (key x) then y :: insert_desc key x l' else x :: l
  end.

Definition sort_desc {A : Type} (key : A -> float64) (l : list A) : list A :=
  fold_right (insert_desc key) [] l.

Module Analysis.

Definition _generate_comparison_recommendations (res : list CompareItem)
  : result (list string) :=
  match res with
  | [] => Ok []
  | _ =>
      highest <- py_max_by item_percentile res ;;
      lowest <- py_min_by item_percentile res ;;
      let r1 := if fgt (item_percentile highest) (Fin 80)
                then [(item_symbol highest ++ " 处于高位，注意风险")%string]
                else [] in
      let r2 := if flt (item_percentile lowest) (Fin 20)
                then r1 ++ [(item_symbol lowest
                               ++ " 处于低位，可能存在机会")%string]
                else r1 in
      let diff := fsub (item_percentile highest) (item_percentile lowest) in
      Ok (if fgt diff (Fin 50)
          then r2 ++ ["资产间差异较大，可考虑分散投资"%string]
          else r2)
  end.

Definition _generate_trend_recommendation (p : float64) (d : direction)
           (strength : float64) (asset : string) : string :=
  if String.eqb asset "stock" then
    if fgt p (Fin 80) && match d with Up => true | _ => false end
    then "股票处于高位且继续上涨，建议减仓"
    else if flt p (Fin 20) && match d with Down => true | _ => false end
    then "股票处于低位且继续下跌，可考虑分批建仓"
    else if match d with Up => true | _ => false end
            && fgt strength (Fin 20)
    then "股票趋势强劲上涨，可适度参与"
    else if match d with Down => true | _ => false end
            && fgt strength (Fin 20)
    then "股票趋势强劲下跌，注意风险"
    else "股票趋势平稳，可适度关注"
  else
    if fgt p (Fin 80) && match d with Up => true | _ => false end
    then "债券收益率高位上升，价格下跌，建议观望"
    else if flt p (Fin 20) && match d with Down => true | _ => false end
    then "债券收益率低位下降，价格上涨，可考虑配置"
    else "债券趋势平稳，可适度关注".

Section Correlation.
Variable sqrt64 : Q -> Q.

(** [v ** 0.5]; the argument is a product of two sums of squares.  This is
    the real-number reading of the function, as the correlation route uses
    it; [Binary64.Analysis._calculate_correlation] is the same code on
    doubles. *)
Definition pow_half (v : float64) : float64 :=
  match v with
  | Fin q => Fin (sqrt64 q)
  | NaN => NaN
  end.

Definition _calculate_correlation (x y : list float64) : result float64 :=
  if negb (length x =? length y)%nat then Ok (Fin 0)
  else
    let n := length x in
    if (n <? 2)%nat then Ok (Fin 0)
    else
      mean_x <- fdiv (py_sum x) (Fin (of_nat n)) ;;
      mean_y <- fdiv (py_sum y) (Fin (of_nat n)) ;;
      num_terms <- mapM (fun i => xi <- iloc i x ;; yi <- iloc i y ;;
                                  Ok (fmul (fsub xi mean_x)
                                           (fsub yi mean_y)))
                        (seq 0 n) ;;
      let numerator := py_sum num_terms in
      dx_terms <- mapM (fun i => xi <- iloc i x ;;
                                 Ok (fmul (fsub xi mean_x)
                                          (fsub xi mean_x)))
                       (seq 0 n) ;;
      let denominator_x := py_sum dx_terms in
      dy_terms <- mapM (fun i => yi <- iloc i y ;;
                                 Ok (fmul (fsub yi mean_y)
                                          (fsub yi mean_y)))
                       (seq 0 n) ;;
      let denominator_y := py_sum dy_terms in
      if feqb denominator_x (Fin 0) || feqb denominator_y (Fin 0)
      then Ok (Fin 0)
      else
        c <- fdiv numerator (pow_half (fmul denominator_x denominator_y)) ;;
        Ok (py_max (Fin (-1)) (py_min (Fin 1) c)).
End Correlation.

Definition _get_correlation_strength (c : float64) : string :=
  let abs_corr := fabs c in
  if fge abs_corr (Fin (8 # 10)) then "强相关"
  else if fge abs_corr (Fin (5 # 10)) then "中等相关"
  else if fge abs_corr (Fin (3 # 10)) then "弱相关"
  else "几乎无关".

Definition _interpret_correlation (c : float64) : string :=
  if fgt c (Fin (8 # 10)) then "两个资产高度正相关，走势基本一致"
  else if fgt c (Fin (5 # 10)) then "两个资产正相关，走势较为一致"
  else if fgt c (Fin (3 # 10)) then "两个资产弱正相关，走势有一定一致性"
  else if fgt c (Fin (- (3 # 10))) then "两个资产几乎无关，走势独立"
  else if fgt c (Fin (- (5 # 10))) then "两个资产弱负相关，走势有一定反向性"
  else if fgt c (Fin (- (8 # 10))) then "两个资产负相关，走势较为反向"
  else "两个资产高度负相关，走势基本相反".

Definition _generate_correlation_recommendation (c : float64) : string :=
  let abs_corr := fabs c in
  if fgt abs_corr (Fin (8 # 10))
  then "相关性很高，不建议同时持有，可考虑分散投资"
  else if fgt abs_corr (Fin (5 # 10)) then "相关性较高，可适度分散投资"
  else if flt abs_corr (Fin (3 # 10)) then "相关性较低，适合分散投资"
  else "相关性适中，可根据投资策略决定".

Section Handlers.
Variable self : PercentileService.
Variable sqrt64 : Q -> Q.
Variable _get_stock_data : string -> string -> option (Series Q).
Variable _get_bond_data : string -> string -> option (Series Q).

Let stock_percentile :=
  Service.get_stock_percentile self sqrt64 _get_stock_data.
Let bond_percentile :=
  Service.get_bond_percentile self sqrt64 _get_bond_data.

(** One turn of the loop of [compare_assets], inner [try] included. *)
Definition compare_step (asset : string) (sym : string)
  : result CompareItem :=
  if String.eqb asset "stock" then
    r <- stock_percentile sym "1y" ;;
    Ok {| item_symbol := sym; item_type := "stock";
          item_percentile := percentile r;
          item_value := current_value r;
          item_statistics := statistics r |}
  else if String.eqb asset "bond" then
    r <- bond_percentile sym "1y" ;;
    Ok {| item_symbol := sym; item_type := "bond";
          item_percentile := percentile r;
          item_value := current_value r;
          item_statistics := statistics r |}
  else Raise (HTTPException 400 "不支持的资产类型").

Fixpoint compare_loop (asset : string) (symbols : list string)
         (res : list CompareItem) (errs : list ErrorEntry)
  : list CompareItem * list ErrorEntry :=
  match symbols with
  | [] => (res, errs)
  | sym :: rest =>
      match compare_step asset sym with
      | Ok item => compare_loop asset rest (res ++ [item]) errs
      | Raise e =>
          compare_loop asset rest res
                       (errs ++ [{| err_symbol := sym; error := str e |}])
      end
  end.

(** POST /analysis/compare. *)
Definition compare_assets (symbols : list string) (asset : string)
  : result (Response Comparison) :=
  match
    (if (length symbols <? 2)%nat
     then Raise (HTTPException 400 "至少需要2个资产进行比较")
     else if (10 <? length symbols)%nat
     then Raise (HTTPException 400 "最多比较10个资产")
     else
       let '(res0, errs) := compare_loop asset symbols [] [] in
       let res := sort_desc item_percentile res0 in
       let percentiles := map item_percentile res in
       avg_percentile <-
         fdiv (py_sum percentiles) (Fin (of_nat (length percentiles))) ;;
       max_p <- py_max_by (fun p => p) percentiles ;;
       min_p <- py_min_by (fun p => p) percentiles ;;
       recs <- _generate_comparison_recommendations res ;;
       Ok {| success := true;
             data := {| cmp_results := res;
                        cmp_errors := errs;
                        cmp_statistics :=
                          {| average_percentile := round avg_percentile 2;
                             max_percentile := round max_p 2;
                             min_percentile := round min_p 2;
                             range := round (fsub max_p min_p) 2 |};
                        recommendations := recs |};
             message := "比较分析完成" |})
  with
  | Ok resp => Ok resp
  | Raise (HTTPException c d) => Raise (HTTPException c d)
  | Raise _ => Raise (HTTPException 500 "资产比较失败")
  end.

(** The branch on [asset_type] shared by the trend and correlation
    routes. *)
Definition asset_percentile (asset sym per unsupported : string)
  : result PercentileResult :=
  if String.eqb asset "stock" then stock_percentile sym per
  else if String.eqb asset "bond" then bond_percentile sym per
  else Raise (HTTPException 400 unsupported).

(** GET /analysis/trend. *)
Definition analyze_trend (sym asset : string) (days : nat)
  : result (Response TrendAnalysis) :=
  match
    (r <- asset_percentile asset sym (str_of_nat days ++ "d")
                           "不支持的资产类型" ;;
     let historical_data := historical_percentiles r in
     if (length historical_data <? 7)%nat
     then Raise (HTTPException 400 "数据不足，无法分析趋势")
     else
       let percentiles := map row_percentile historical_data in
       let n := length percentiles in
       ma7 <- (if (7 <=? n)%nat
               then fdiv (py_sum (last_items 7 percentiles)) (Fin 7)
               else fdiv (py_sum percentiles) (Fin (of_nat n))) ;;
       ma14 <- (if (14 <=? n)%nat
                then fdiv (py_sum (last_items 14 percentiles)) (Fin 14)
                else Ok ma7) ;;
       p_last <- getitem_last percentiles ;;
       p_first <- getitem_first percentiles ;;
       let strength := fabs (fsub p_last p_first) in
       let dir := if fgt p_last p_first then Up
                  else if flt p_last p_first then Down
                  else Flat in
       moves <- mapM (fun i => a <- iloc i percentiles ;;
                               b <- iloc (i - 1) percentiles ;;
                               Ok (fabs (fsub a b)))
                     (seq 1 (n - 1)) ;;
       vol <- fdiv (py_sum moves) (Fin (of_nat (n - 1))) ;;
       Ok {| success := true;
             data := {| ta_symbol := sym;
                        asset_type := asset;
                        ta_current_percentile := percentile r;
                        trend_direction := dir;
                        ta_trend_strength := round strength 2;
                        volatility := round vol 2;
                        ma_7 := round ma7 2;
                        ma_14 := round ma14 2;
                        ta_historical_percentiles := historical_data;
                        ta_recommendation :=
                          _generate_trend_recommendation
                            (percentile r) dir strength asset |};
             message := "趋势分析完成" |})
  with
  | Ok resp => Ok resp
  | Raise (HTTPException c d) => Raise (HTTPException c d)
  | Raise _ => Raise (HTTPException 500 "趋势分析失败")
  end.

(** The two aligned inputs of [_calculate_correlation]. *)
Definition aligned_percentiles (h1 h2 : list HistoryRow)
  : list float64 * list float64 :=
  let min_length := Nat.min (length h1) (length h2) in
  (map row_percentile (last_items min_length h1),
   map row_percentile (last_items min_length h2)).

(** GET /analysis/correlation. *)
Definition analyze_correlation (symbol1 symbol2 asset1_type asset2_type
                                  : string) (days : nat)
  : result (Response CorrelationAnalysis) :=
  match
    (let per := (str_of_nat days ++ "d")%string in
     data1 <- asset_percentile asset1_type symbol1 per
                               "不支持的资产类型1" ;;
     data2 <- asset_percentile asset2_type symbol2 per
                               "不支持的资产类型2" ;;
     let historical1 := historical_percentiles data1 in
     let historical2 := historical_percentiles data2 in
     if ((length historical1 <? 10) || (length historical2 <? 10))%nat
     then Raise (HTTPException 400 "数据不足，无法计算相关性")
     else
       let '(percentiles1, percentiles2) :=
         aligned_percentiles historical1 historical2 in
       c <- _calculate_correlation sqrt64 percentiles1 percentiles2 ;;
       Ok {| success := true;
             data := {| asset1 := (symbol1, asset1_type, percentile data1);
                        asset2 := (symbol2, asset2_type, percentile data2);
                        correlation := round c 4;
                        correlation_strength :=
                          _get_correlation_strength c;
                        interpretation := _interpret_correlation c;
                        corr_recommendation :=
                          _generate_correlation_recommendation c |};
             message := "相关性分析完成" |})
  with
  | Ok resp => Ok resp
  | Raise (HTTPException c d) => Raise (HTTPException c d)
  | Raise _ => Raise (HTTPException 500 "相关性分析失败")
  end.

End Handlers.

End Analysis.

(** ** The binary64 reading

    IEEE 754 doubles with the kernel's operations, for the two functions
    whose last bit the statements below depend on. *)

Module Binary64.

(** A count as a double: exact below 2^53. *)
Fixpoint of_count (n : nat) : float :=
  match n with
  | O => 0%float
  | S k => (of_count k + 1)%float
  end.

(** [s < value]: a comparison with NaN is [False]. *)
Definition lt_mask (s : list float) (value : float) : list bool :=
  map (fun x => PrimFloat.ltb x value) s.

(** [mask.mean()]: the number of [True] over the number of rows, as
    doubles; 0/0 is NaN. *)
Definition mask_mean (m : list bool) : float :=
  (of_count (count_true m) / of_count (length m))%float.

Module Service.
Section Methods.

Variable self : PercentileService.

Definition _calculate_percentile (series : Series float) (value : float)
  : float :=
  try_default
    (let recent_data :=
       if (window self <=? length series)%nat
       then tail (window self) series
       else series in
     let percentile :=
       (mask_mean (lt_mask (values recent_data) value) * 100)%float in
     Ok percentile)
    (fun _ => 50%float).

(** Lines 43-44 of the service: [series.iloc[-1]], then
    [_calculate_percentile]. *)
Definition compute_percentile (series : Series float) : result float :=
  row <- iloc_last series ;;
  Ok (_calculate_percentile series (snd row)).

End Methods.
End Service.

Module Analysis.

(** [sum(l)]: the additions from left to right, from the integer 0. *)
Definition py_sum (l : list float) : float :=
  fold_left PrimFloat.add l 0%float.

(** [a / b] on floats: a zero divisor, of either sign, raises. *)
Definition fdiv (a b : float) : result float :=
  if PrimFloat.eqb b 0 then Raise ZeroDivisionError else Ok (a / b)%float.

Definition py_min (a b : float) : float := if PrimFloat.ltb b a then b else a.
Definition py_max (a b : float) : float := if PrimFloat.ltb a b then b else a.

Section Correlation.

(** [a ** b] on floats: the [pow] of the C library with the checks of
    [float.__pow__] (an overflow raises [OverflowError]).  Its rounding is
    the library's, so it stays a parameter. *)
Variable pow : float -> float -> result float.

Definition _calculate_correlation (x y : list float) : result float :=
  if negb (length x =? length y)%nat then Ok 0%float
  else
    let n := length x in
    if (n <? 2)%nat then Ok 0%float
    else
      mean_x <- fdiv (py_sum x) (of_count n) ;;
      mean_y <- fdiv (py_sum y) (of_count n) ;;
      num_terms <- mapM (fun i => xi <- iloc i x ;; yi <- iloc i y ;;
                                  Ok ((xi - mean_x) * (yi - mean_y))%float)
                        (seq 0 n) ;;
      let numerator := py_sum num_terms in
      dx_terms <- mapM (fun i => xi <- iloc i x ;;
                                 pow (xi - mean_x)%float 2%float)
                       (seq 0 n) ;;
      let denominator_x := py_sum dx_terms in
      dy_terms <- mapM (fun i => yi <- iloc i y ;;
                                 pow (yi - mean_y)%float 2%float)
                       (seq 0 n) ;;
      let denominator_y := py_sum dy_terms in
      if PrimFloat.eqb denominator_x 0 || PrimFloat.eqb denominator_y 0
      then Ok 0%float
      else
        root <- pow (denominator_x * denominator_y)%float 0.5%float ;;
        c <- fdiv numerator root ;;
        Ok (py_max (-1)%float (py_min 1%float c)).

End Correlation.
End Analysis.

End Binary64.

(** ** The operations in the words of the specification *)

(** The last [min(n, W)] elements of a series. *)
Definition trailing_window {A : Type} (W : nat) (s : list A) : list A :=
  skipn (length s - Nat.min (length s) W) s.

(** The number of elements strictly less than [v]. *)
Definition count_less (v : Q) (l : list Q) : nat :=
  length (filter (fun x => Qltb x v) l).

(** The same count on doubles. *)
Definition count_less_b64 (v : float) (l : list float) : nat :=
  length (filter (fun x => PrimFloat.ltb x v) l).

(** The number of elements greater than or equal to [v]. *)
Definition count_not_less (v : Q) (l : list Q) : nat :=
  length (filter (fun x => Qle_bool v x) l).


(** ** Definitions used by the statements *)

(** The entry of the historical sequence computed for index [i]; [d] is the
    default row of [nth]. *)
Definition history_entry (W : nat) (s : Series Q) (d : timestamp * Q) (i : nat)
  : timestamp * float64 :=
  (fst (nth i s d),
   fmul (mask_mean (lt_mask (iloc_slice (i - W) i (values s))
                            (snd (nth i s d))))
        (Fin 100)).

(** The data source failed, or returned fewer than [min_data_points] rows. *)
Definition insufficient (self : PercentileService) (data : option (Series Q))
  : Prop :=
  match data with
  | None => True
  | Some d => (length d < min_data_points self)%nat
  end.

(** An exception the routes do not re-raise as it is. *)
Definition plain_error (e : exn) : Prop :=
  match e with
  | HTTPException _ _ => False
  | _ => True
  end.

(** The call raised. *)
Definition fails {A : Type} (r : result A) : bool :=
  match r with
  | Raise _ => true
  | Ok _ => false
  end.

(** The results of the symbols that succeed, and the error entries of those
    that fail, each as obtained from that symbol alone. *)
Definition successes_of {A : Type} (f : string -> result A)
           (l : list string) : list A :=
  flat_map (fun s => match f s with Ok r => [r] | Raise _ => [] end) l.

Definition failures_of {A : Type} (f : string -> result A)
           (l : list string) : list ErrorEntry :=
  flat_map (fun s => match f s with
                     | Ok _ => []
                     | Raise e => [{| err_symbol := s; error := str e |}]
                     end) l.

(** The mean of a series. *)
Definition series_mean (xs : list Q) : Q := (q_sum xs / of_nat (length xs))%Q.

(** [a / n] for a positive count [n]. *)
Definition over (a : float64) (n : nat) : float64 :=
  match a with
  | Fin x => Fin (x / of_nat n)%Q
  | NaN => NaN
  end.

(** A rational approximation of the square root: positive on positive
    arguments. *)
Definition sqrt_approx (q : Q) : Q :=
  Z.sqrt (Qnum q * Zpos (Qden q) * 10 ^ 24) # (Qden q * 10 ^ 12).

(** Daily rows: the values with the index labels 0, 1, 2, ... *)
Definition daily {A : Type} (l : list A) : Series A :=
  combine (map Z.of_nat (seq 0 (length l))) l.

(** Closing prices that rise by one each day: 1, 2, ..., n. *)
Definition rising (n : nat) : list Q :=
  map (fun i => inject_Z (Z.of_nat i)) (seq 1 n).

(** A data source that has [rows] for every symbol and period. *)
Definition always (rows : Series Q) : string -> string -> option (Series Q) :=
  fun _ _ => Some rows.

(** A small service: window 5, at least 3 points. *)
Definition small_service : PercentileService :=
  {| window := 5; min_data_points := 3 |}.

(** The example of the specification: the closes 1, 2, ..., 10. *)
Definition ten_days : Series Q := daily (rising 10).

(** Eight days at the same close. *)
Definition flat_days : Series Q := daily (repeat (7 # 2)%Q 8).

(** A source with 12 rows for every symbol but [bad], which has 2. *)
Definition short_for (bad : string) : string -> string -> option (Series Q) :=
  fun sym _ => if String.eqb sym bad
               then Some (daily (rising 2))
               else Some (daily (rising 12)).

(** A source that is down. *)
Definition unavailable : string -> string -> option (Series Q) :=
  fun _ _ => None.

(** A result as a working service operation would return it: seven rows of
    history, all at 100. *)
Definition stub_result (sym per : string) : PercentileResult :=
  {| symbol := sym;
     current_value := Fin 10;
     percentile := Fin 80;
     period := per;
     data_points := 12;
     statistics := None;
     historical_percentiles :=
       map (fun i => {| date := Z.of_nat i; row_percentile := Fin 100 |})
           (seq 0 7) |}.

(** A stand-in for the service operation, to exercise a route on its own:
    it raises the insufficient-data error on [bad] and returns
    [stub_result] on every other symbol. *)
Definition stub_service (bad : string)
  : string -> string -> result PercentileResult :=
  fun sym per =>
    if String.eqb sym bad
    then Raise (ValueError (Service.insufficient_stock sym))
    else Ok (stub_result sym per).

(** The closes 1, 2, ..., 10 as doubles. *)
Definition ten_days_b64 : Series float :=
  daily (map Binary64.of_count (seq 1 10)).

(** 160 closes of which 23 are below the last one: 1, ..., 23, then 136
    times 50, then 30. *)
Definition closes_23_of_160 : Series float :=
  daily (map Binary64.of_count (seq 1 23) ++ repeat 50%float 136
           ++ [30%float]).

(** A stand-in for the C library's [pow] on the two exponents the
    correlation uses: the rounded product for 2, the rounded square root
    otherwise. *)
Definition pow_stand_in (a b : float) : result float :=
  if PrimFloat.eqb b 2 then Ok (a * a)%float else Ok (PrimFloat.sqrt a).

(** ** The market overview of the service (services/percentile_service.py) *)

Definition fle (a b : float64) : bool := fge b a.

(** [d[k] = v] on a dictionary kept in insertion order. *)
Fixpoint dict_set {V : Type} (k : string) (v : V) (d : list (string * V))
  : list (string * V) :=
  match d with
  | [] => [(k, v)]
  | (k', v') :: d' =>
      if String.eqb k k' then (k, v) :: d' else (k', v') :: dict_set k v d'
  end.

(** [np.mean(l)] of a non-empty list. *)
Definition np_mean (l : list float64) : float64 :=
  match py_sum l with
  | Fin s => np_div s (of_nat (length l))
  | NaN => NaN
  end.

(** An entry [{"current_price": ..., "percentile": ...}] of [market_data]. *)
Record IndexQuote : Type := {
  quote_price : float64;
  quote_percentile : float64
}.

Record MarketOverview : Type := {
  market_data : list (string * IndexQuote);
  overview_summary : string
}.

Module MarketService.
Section Methods.

Variable self : PercentileService.
Variable _get_stock_data : string -> string -> option (Series Q).

Definition indices : list string :=
  ["^GSPC"; "^IXIC"; "^DJI"; "000300.SS"; "000001.SS"]%string.

Definition _generate_market_summary (md : list (string * IndexQuote))
  : string :=
  try_default
    (match md with
     | [] => Ok "暂无市场数据"%string
     | _ =>
         let avg_percentile :=
           np_mean (map (fun kv => quote_percentile (snd kv)) md) in
         if fgt avg_percentile (Fin 80) then Ok "市场处于高位，注意风险"%string
         else if flt avg_percentile (Fin 20)
         then Ok "市场处于低位，可能存在机会"%string
         else Ok "市场处于正常区间"%string
     end)
    (fun _ => "市场数据异常"%string).

(** One turn of the loop over the indices, inner [try] included. *)
Definition overview_step (md : list (string * IndexQuote)) (index : string)
  : list (string * IndexQuote) :=
  try_default
    (match _get_stock_data index "1y" with
     | Some close =>
         if (0 <? length close)%nat then
           row <- iloc_last close ;;
           let current_price := snd row in
           let p := Service._calculate_percentile self close current_price in
           Ok (dict_set index
                        {| quote_price := round (Fin current_price) 2;
                           quote_percentile := round p 2 |}
                        md)
         else Ok md
     | None => Ok md
     end)
    (fun _ => md).

Definition get_market_overview : result MarketOverview :=
  try_except
    (let md := fold_left overview_step indices [] in
     Ok {| market_data := md;
           overview_summary := _generate_market_summary md |})
    (fun e => Raise e).

End Methods.
End MarketService.

(** ** Market routes (api/market.py) and the symbol lists (utils/config.py) *)

Definition COMMON_STOCKS : list string :=
  ["000001.SZ"; "000002.SZ"; "000858.SZ"; "002415.SZ"; "600000.SH";
   "600036.SH"; "600519.SH"; "600887.SH"; "000858.SZ"; "002594.SZ"]%string.

Definition COMMON_BONDS : list string :=
  ["019654.SH"; "019668.SH"; "019669.SH"; "019670.SH"; "019671.SH"]%string.

(** An item [{"symbol", "type", "percentile", "value"}] of the heat map, and
    (without its type) of the two lists of the summary. *)
Record MarketItem : Type := {
  mi_symbol : string;
  mi_type : string;
  mi_percentile : float64;
  mi_value : float64
}.

Record MarketSide : Type := {
  side_average : float64;
  side_items : list MarketItem;
  side_sentiment : string
}.

Record MarketSummary : Type := {
  stock_market : MarketSide;
  bond_market : MarketSide;
  overall_sentiment : string
}.

Record Heatmap : Type := {
  high_percentile : list MarketItem;
  medium_percentile : list MarketItem;
  low_percentile : list MarketItem;
  all_data : list MarketItem
}.

Record Opportunity : Type := {
  opp_symbol : string;
  opp_percentile : float64;
  opp_value : float64;
  opp_recommendation : string
}.

Record Opportunities : Type := {
  opp_stocks : list Opportunity;
  opp_bonds : list Opportunity;
  opp_summary : string
}.

(** [for symbol in l: try: <body, which may append> except Exception: log]:
    the items appended, in order. *)
Fixpoint try_each {A : Type} (body : string -> result (list A))
         (l : list string) (acc : list A) : list A :=
  match l with
  | [] => acc
  | sym :: rest =>
      match body sym with
      | Ok items => try_each body rest (acc ++ items)
      | Raise _ => try_each body rest acc
      end
  end.

Module Market.

Definition _generate_market_sentiment (stock_percentile bond_percentile
                                         : float64) : string :=
  if fgt stock_percentile (Fin 80) && fgt bond_percentile (Fin 80)
  then "市场整体处于高位，注意风险"
  else if flt stock_percentile (Fin 20) && flt bond_percentile (Fin 20)
  then "市场整体处于低位，可能存在机会"
  else if fgt stock_percentile (Fin 80) then "股票市场高位，债券市场正常"
  else if flt stock_percentile (Fin 20) then "股票市场低位，可能存在机会"
  else if fgt bond_percentile (Fin 80) then "债券收益率高位，股票市场正常"
  else if flt bond_percentile (Fin 20) then "债券收益率低位，股票市场正常"
  else "市场整体处于正常区间".

Definition _get_percentile_sentiment (p : float64) : string :=
  if fgt p (Fin 80) then "高位"
  else if flt p (Fin 20) then "低位"
  else "正常".

Section Handlers.
Variable self : PercentileService.
Variable sqrt64 : Q -> Q.
Variable _get_stock_data : string -> string -> option (Series Q).
Variable _get_bond_data : string -> string -> option (Series Q).

Let stock_percentile :=
  Service.get_stock_percentile self sqrt64 _get_stock_data.
Let bond_percentile :=
  Service.get_bond_percentile self sqrt64 _get_bond_data.

(** GET /market/overview. *)
Definition get_market_overview : result (Response MarketOverview) :=
  match
    (r <- MarketService.get_market_overview self _get_stock_data ;;
     Ok {| success := true; data := r; message := "获取成功" |})
  with
  | Ok resp => Ok resp
  | Raise _ => Raise (HTTPException 500 "获取市场概览失败")
  end.

Definition stock_item (sym : string) : result (list MarketItem) :=
  r <- stock_percentile sym "1y" ;;
  Ok [{| mi_symbol := sym; mi_type := "stock";
         mi_percentile := percentile r; mi_value := current_value r |}].

Definition bond_item (sym : string) : result (list MarketItem) :=
  r <- bond_percentile sym "1y" ;;
  Ok [{| mi_symbol := sym; mi_type := "bond";
         mi_percentile := percentile r; mi_value := current_value r |}].

(** [sum(r["percentile"] for r in l) / len(l) if l else 50]. *)
Definition average_or_50 (l : list MarketItem) : result float64 :=
  match l with
  | [] => Ok (Fin 50)
  | _ => fdiv (py_sum (map mi_percentile l)) (Fin (of_nat (length l)))
  end.

(** GET /market/summary. *)
Definition get_market_summary : result (Response MarketSummary) :=
  match
    (let stock_results := try_each stock_item (firstn 5 COMMON_STOCKS) [] in
     let bond_results := try_each bond_item (firstn 3 COMMON_BONDS) [] in
     stock_avg_percentile <- average_or_50 stock_results ;;
     bond_avg_percentile <- average_or_50 bond_results ;;
     let market_sentiment :=
       _generate_market_sentiment stock_avg_percentile bond_avg_percentile in
     Ok {| success := true;
           data :=
             {| stock_market :=
                  {| side_average := round stock_avg_percentile 2;
                     side_items := stock_results;
                     side_sentiment :=
                       _get_percentile_sentiment stock_avg_percentile |};
                bond_market :=
                  {| side_average := round bond_avg_percentile 2;
                     side_items := bond_results;
                     side_sentiment :=
                       _get_percentile_sentiment bond_avg_percentile |};
                overall_sentiment := market_sentiment |};
           message := "获取成功" |})
  with
  | Ok resp => Ok resp
  | Raise _ => Raise (HTTPException 500 "获取市场摘要失败")
  end.

(** GET /market/heatmap. *)
Definition get_market_heatmap : result (Response Heatmap) :=
  match
    (let all0 := try_each stock_item COMMON_STOCKS [] in
     let all1 := try_each bond_item COMMON_BONDS all0 in
     let all := sort_desc mi_percentile all1 in
     Ok {| success := true;
           data :=
             {| high_percentile :=
                  filter (fun item => fgt (mi_percentile item) (Fin 80)) all;
                medium_percentile :=
                  filter (fun item => fle (Fin 20) (mi_percentile item)
                                      && fle (mi_percentile item) (Fin 80))
                         all;
                low_percentile :=
                  filter (fun item => flt (mi_percentile item) (Fin 20)) all;
                all_data := all |};
           message := "获取成功" |})
  with
  | Ok resp => Ok resp
  | Raise _ => Raise (HTTPException 500 "获取市场热力图失败")
  end.

Definition stock_opportunity (sym : string) : result (list Opportunity) :=
  r <- stock_percentile sym "1y" ;;
  if flt (percentile r) (Fin 30)
  then Ok [{| opp_symbol := sym; opp_percentile := percentile r;
              opp_value := current_value r;
              opp_recommendation := "低位可能存在投资机会" |}]
  else Ok [].

Definition bond_opportunity (sym : string) : result (list Opportunity) :=
  r <- bond_percentile sym "1y" ;;
  if fgt (percentile r) (Fin 70)
  then Ok [{| opp_symbol := sym; opp_percentile := percentile r;
              opp_value := current_value r;
              opp_recommendation := "收益率较高，可考虑配置" |}]
  else Ok [].

Definition opportunities_summary (stock_count bond_count : nat) : string :=
  if (0 <? stock_count)%nat && (0 <? bond_count)%nat
  then ("发现 " ++ str_of_nat stock_count ++ " 只低位股票和 "
          ++ str_of_nat bond_count ++ " 只高收益债券")%string
  else if (0 <? stock_count)%nat
  then ("发现 " ++ str_of_nat stock_count ++ " 只低位股票")%string
  else if (0 <? bond_count)%nat
  then ("发现 " ++ str_of_nat bond_count ++ " 只高收益债券")%string
  else "当前市场无明显投资机会"%string.

(** GET /market/opportunities. *)
Definition get_market_opportunities : result (Response Opportunities) :=
  match
    (let stocks := try_each stock_opportunity COMMON_STOCKS [] in
     let bonds := try_each bond_opportunity COMMON_BONDS [] in
     Ok {| success := true;
           data := {| opp_stocks := stocks;
                      opp_bonds := bonds;
                      opp_summary :=
                        opportunities_summary (length stocks) (length bonds) |};
           message := "获取成功" |})
  with
  | Ok resp => Ok resp
  | Raise _ => Raise (HTTPException 500 "获取市场投资机会失败")
  end.

End Handlers.
End Market.

(** ** Definitions used by the further statements *)

(** [",".join(l)]. *)
Fixpoint join_comma (l : list string) : string :=
  match l with
  | [] => EmptyString
  | [s] => s
  | s :: rest => (s ++ "," ++ join_comma rest)%string
  end.

(** Whether a byte sequence starts with a white-space character; with
    [backwards] the sequence is read from its end. *)
Definition starts_with_space (backwards : bool) (l : list ascii) : bool :=
  match l with
  | a :: l1 =>
      space1 a
      || match l1 with
         | b :: l2 =>
             (if backwards then space2 b a else space2 a b)
             || match l2 with
                | c :: _ => if backwards then space3 c b a else space3 a b c
                | [] => false
                end
         | [] => false
         end
  | [] => false
  end.

(** A symbol as [parse_symbols] leaves it: not empty, without comma, and
    neither its first nor its last character is white space. *)
Definition clean_symbol (s : string) : Prop :=
  nonempty s = true /\
  ~ In ","%char (chars s) /\
  starts_with_space false (chars s) = false /\
  starts_with_space true (rev (chars s)) = false.

(** A float in [0, 100]. *)
Definition is_percentage (a : float64) : Prop :=
  match a with
  | Fin q => (0 <= q <= 100)%Q
  | NaN => False
  end.

(** The source has at least one row for the index. *)
Definition has_rows (src : string -> string -> option (Series Q))
           (index : string) : bool :=
  match src index "1y"%string with
  | Some d => (0 <? length d)%nat
  | None => false
  end.

(** ** Basic facts *)

Lemma Qltb_lt (x y : Q) : Qltb x y = true <-> (x < y)%Q.
Proof.
  unfold Qltb. rewrite negb_true_iff.
  split; intro H.
  - apply Qnot_le_lt. intro Hle. apply Qle_bool_iff in Hle. congruence.
  - destruct (Qle_bool y x) eqn:E; [|reflexivity].
    apply Qle_bool_iff in E. exfalso. exact (Qlt_not_le _ _ H E).
Qed.

Lemma Qltb_irrefl (x y : Q) : (x == y)%Q -> Qltb x y = false.
Proof.
  intro H. destruct (Qltb x y) eqn:E; [|reflexivity].
  apply Qltb_lt in E. rewrite H in E. exfalso. exact (Qlt_irrefl _ E).
Qed.

Lemma of_nat_nonneg (n : nat) : (0 <= of_nat n)%Q.
Proof.
  unfold of_nat. change 0%Q with (inject_Z 0). rewrite <- Zle_Qle. lia.
Qed.

Lemma of_nat_pos (n : nat) : (1 <= n)%nat -> (0 < of_nat n)%Q.
Proof.
  intro H. unfold of_nat. change 0%Q with (inject_Z 0). rewrite <- Zlt_Qlt. lia.
Qed.

Lemma of_nat_le (a b : nat) : (a <= b)%nat -> (of_nat a <= of_nat b)%Q.
Proof. intro H. unfold of_nat. rewrite <- Zle_Qle. lia. Qed.

Lemma of_nat_eqb_0 (n : nat) : (1 <= n)%nat -> Qeq_bool (of_nat n) 0 = false.
Proof.
  intro H. destruct (Qeq_bool (of_nat n) 0) eqn:E; [|reflexivity].
  apply Qeq_bool_eq in E. pose proof (of_nat_pos H) as P.
  rewrite E in P. exfalso. exact (Qlt_irrefl _ P).
Qed.

Lemma count_true_lt_mask (l : list Q) (v : Q) :
  count_true (lt_mask l v) = count_less v l.
Proof.
  unfold count_true, lt_mask, count_less.
  induction l as [|x l IH]; simpl; [reflexivity|].
  destruct (Qltb x v); simpl; rewrite IH; reflexivity.
Qed.

Lemma count_partition (l : list Q) (v : Q) :
  (count_less v l + count_not_less v l = length l)%nat.
Proof.
  unfold count_less, count_not_less, Qltb.
  induction l as [|x l IH]; simpl; [reflexivity|].
  destruct (Qle_bool v x); simpl; lia.
Qed.

Lemma count_less_le (l : list Q) (v : Q) : (count_less v l <= length l)%nat.
Proof. pose proof (count_partition l v). lia. Qed.

Lemma mask_mean_fraction (l : list Q) (v : Q) :
  (1 <= length l)%nat ->
  mask_mean (lt_mask l v) = Fin (of_nat (count_less v l) / of_nat (length l))%Q.
Proof.
  intro H. unfold mask_mean, np_div.
  rewrite count_true_lt_mask.
  unfold lt_mask at 1 2. rewrite length_map.
  rewrite of_nat_eqb_0 by exact H. reflexivity.
Qed.

(** A fraction [100 * k / m] with [k <= m] is a percentage. *)
Lemma percentage_bounds (k m : nat) :
  (k <= m)%nat -> (1 <= m)%nat ->
  (0 <= 100 * of_nat k / of_nat m <= 100)%Q.
Proof.
  intros Hk Hm. pose proof (of_nat_pos Hm) as Pm.
  pose proof (of_nat_nonneg k) as Pk. pose proof (of_nat_le Hk) as Pkm.
  split.
  - apply Qle_shift_div_l; [exact Pm|]. rewrite Qmult_0_l.
    apply Qmult_le_0_compat; [discriminate | exact Pk].
  - apply Qle_shift_div_r; [exact Pm|].
    apply Qmult_le_l; [reflexivity | exact Pkm].
Qed.

Lemma values_length {A : Type} (s : Series A) : length (values s) = length s.
Proof. unfold values. apply length_map. Qed.

Lemma values_skipn {A : Type} (n : nat) (s : Series A) :
  values (skipn n s) = skipn n (values s).
Proof. unfold values. symmetry. apply skipn_map. Qed.

Lemma values_firstn {A : Type} (n : nat) (s : Series A) :
  values (firstn n s) = firstn n (values s).
Proof. unfold values. symmetry. apply firstn_map. Qed.

Lemma last_values {A : Type} (s : Series A) (r : timestamp * A) :
  last (values s) (snd r) = snd (last s r).
Proof.
  unfold values. induction s as [|x s IH]; [reflexivity|].
  destruct s as [|y s]; [reflexivity|]. exact IH.
Qed.

Lemma iloc_last_ok {A : Type} (s : list A) (d : A) :
  (1 <= length s)%nat -> iloc_last s = Ok (last s d).
Proof.
  intro H. destruct s as [|x s]; [simpl in H; lia|].
  unfold iloc_last, iloc.
  assert (E : nth_error (x :: s) (length (x :: s) - 1)
              = Some (last (x :: s) d)).
  { generalize dependent x. induction s as [|y s IH]; intros x _.
    - reflexivity.
    - specialize (IH y ltac:(simpl; lia)).
      simpl length in *. replace (S (S (length s)) - 1)%nat
        with (S (S (length s) - 1))%nat by lia.
      simpl nth_error. simpl last in *. exact IH. }
  rewrite E. reflexivity.
Qed.

(** ** The percentile of the latest value *)

Lemma calculate_percentile_window (self : PercentileService)
      (s : Series Q) (v : Q) :
  Service._calculate_percentile self s v
  = fmul (mask_mean (lt_mask (trailing_window (window self) (values s)) v))
         (Fin 100).
Proof.
  unfold Service._calculate_percentile, try_default, trailing_window, tail.
  rewrite values_length.
  destruct (window self <=? length s)%nat eqn:E.
  - apply Nat.leb_le in E. rewrite Nat.min_r by exact E.
    rewrite values_skipn. reflexivity.
  - apply Nat.leb_gt in E. rewrite Nat.min_l by lia.
    rewrite Nat.sub_diag. reflexivity.
Qed.

Lemma trailing_window_length {A : Type} (W : nat) (l : list A) :
  length (trailing_window W l) = Nat.min (length l) W.
Proof. unfold trailing_window. rewrite length_skipn. lia. Qed.

Lemma in_trailing_window_last {A : Type} (W : nat) (l : list A) (d : A) :
  (1 <= W)%nat -> (1 <= length l)%nat -> In (last l d) (trailing_window W l).
Proof.
  intros HW Hl. unfold trailing_window.
  set (k := (length l - Nat.min (length l) W)%nat).
  assert (Hk : (k < length l)%nat) by (unfold k; lia).
  clearbody k. revert k Hk.
  induction l as [|x l IH]; intros k Hk; [simpl in Hk; lia|].
  destruct k as [|k].
  - simpl skipn. destruct l as [|y l]; [left; reflexivity|].
    right. specialize (IH ltac:(simpl; lia) 0%nat ltac:(simpl; lia)).
    simpl skipn in IH. exact IH.
  - simpl skipn. simpl in Hk.
    destruct l as [|y l]; [simpl in Hk; lia|].
    change (last (x :: y :: l) d) with (last (y :: l) d).
    apply IH; simpl in *; lia.
Qed.

Lemma count_less_strict (v : Q) (l : list Q) :
  In v l -> (count_less v l < length l)%nat.
Proof.
  intro H. pose proof (count_partition l v) as P.
  assert (1 <= count_not_less v l)%nat; [|lia].
  unfold count_not_less. clear P.
  induction l as [|x l IH]; [contradiction|].
  simpl. destruct H as [->|H].
  - assert (E : Qle_bool v v = true) by (apply Qle_bool_iff; apply Qle_refl).
    rewrite E. simpl. lia.
  - specialize (IH H). destruct (Qle_bool v x); simpl; lia.
Qed.

(** The binary64 reading of the same function. *)

Lemma SFltb_irrefl (x : spec_float) : SFltb x x = false.
Proof.
  unfold SFltb, SFcompare. destruct x as [b|b| |b m e]; try reflexivity.
  - destruct b; reflexivity.
  - rewrite Z.compare_refl, Pos.compare_refl. destruct b; reflexivity.
Qed.

(** No double is below itself (NaN included). *)
Lemma ltb_irrefl (x : float) : PrimFloat.ltb x x = false.
Proof. rewrite ltb_spec. apply SFltb_irrefl. Qed.

Lemma count_true_lt_mask_b64 (l : list float) (v : float) :
  count_true (Binary64.lt_mask l v) = count_less_b64 v l.
Proof.
  unfold count_true, Binary64.lt_mask, count_less_b64.
  induction l as [|x l IH]; simpl; [reflexivity|].
  destruct (PrimFloat.ltb x v); simpl; rewrite IH; reflexivity.
Qed.

Lemma count_less_b64_strict (v : float) (l : list float) :
  In v l -> (count_less_b64 v l < length l)%nat.
Proof.
  unfold count_less_b64. induction l as [|x l IH]; [contradiction|].
  intros [->|H]; simpl.
  - rewrite ltb_irrefl. pose proof (filter_length_le (fun x => PrimFloat.ltb x v) l).
    lia.
  - specialize (IH H). destruct (PrimFloat.ltb x v); simpl; lia.
Qed.

Lemma calculate_percentile_window_b64 (self : PercentileService)
      (s : Series float) (v : float) :
  Binary64.Service._calculate_percentile self s v
  = (Binary64.of_count
       (count_less_b64 v (trailing_window (window self) (values s)))
     / Binary64.of_count (Nat.min (length s) (window self)) * 100)%float.
Proof.
  unfold Binary64.Service._calculate_percentile, try_default,
    Binary64.mask_mean.
  rewrite count_true_lt_mask_b64.
  unfold Binary64.lt_mask. rewrite length_map.
  unfold trailing_window, tail. rewrite !values_length.
  destruct (window self <=? length s)%nat eqn:E.
  - apply Nat.leb_le in E. rewrite Nat.min_r by exact E.
    rewrite values_skipn, length_skipn.
    replace (length s - (length s - window self))%nat with (window self)
      by lia.
    reflexivity.
  - apply Nat.leb_gt in E. rewrite Nat.min_l by lia.
    rewrite Nat.sub_diag. reflexivity.
Qed.

(** C1 (amended): for a positive window and a non-empty series, the
    percentile of the last value [v] is the double [(k / m) * 100]: the
    fraction is taken first, then multiplied by 100, each operation rounding
    once, where [m = min(n, W)] is the size of the trailing window and [k]
    the number of its elements strictly below [v].  The value [v] itself is
    in the window and never counted, so [k < m].  In the real-number reading
    the value is [(k / m) * 100], it lies in [0, 100], and the elements
    greater than or equal to [v], hence those equal to [v], are not
    counted. *)
Theorem compute_percentile_fraction_times_100 (self : PercentileService) :
  (1 <= window self)%nat ->
  (forall s : Series float,
      (1 <= length s)%nat ->
      exists v : float,
        getitem_last (values s) = Ok v /\
        let m := Nat.min (length s) (window self) in
        let recent := trailing_window (window self) (values s) in
        let k := count_less_b64 v recent in
        length recent = m /\
        Binary64.Service.compute_percentile self s
        = Ok (Binary64.of_count k / Binary64.of_count m * 100)%float /\
        (k < m)%nat) /\
  (forall s : Series Q,
      (1 <= length s)%nat ->
      exists (v p : Q),
        getitem_last (values s) = Ok v /\
        Service.compute_percentile self s = Ok (Fin p) /\
        let m := Nat.min (length s) (window self) in
        let recent := trailing_window (window self) (values s) in
        let k := count_less v recent in
        length recent = m /\
        (p == of_nat k / of_nat m * 100)%Q /\
        (0 <= p <= 100)%Q /\
        (k + count_not_less v recent = m)%nat /\
        (k < m)%nat /\
        (forall x, x == v -> Qltb x v = false)).
Proof.
  intro HW. split.
  - intros s Hn.
    destruct s as [|r0 s0] eqn:Es; [simpl in Hn; lia|]. rewrite <- Es in *.
    set (row := last s r0).
    assert (Hlen : length (trailing_window (window self) (values s))
                   = Nat.min (length s) (window self)).
    { rewrite trailing_window_length, values_length. reflexivity. }
    exists (snd row).
    split.
    { unfold getitem_last. rewrite (iloc_last_ok (values s) (snd r0)).
      - unfold row. rewrite last_values. reflexivity.
      - rewrite values_length. exact Hn. }
    cbv zeta. split; [exact Hlen|]. split.
    { unfold Binary64.Service.compute_percentile.
      rewrite (iloc_last_ok s r0 Hn). cbn [bind]. fold row.
      rewrite calculate_percentile_window_b64. reflexivity. }
    rewrite <- Hlen. apply count_less_b64_strict.
    unfold row. rewrite <- last_values.
    apply in_trailing_window_last; [exact HW|].
    rewrite values_length. exact Hn.
  - intros s Hn.
    destruct s as [|r0 s0] eqn:Es; [simpl in Hn; lia|]. rewrite <- Es in *.
    set (row := last s r0).
    set (m := Nat.min (length s) (window self)).
    assert (Hm : (1 <= m)%nat) by (unfold m; lia).
    assert (Hlen : length (trailing_window (window self) (values s)) = m).
    { rewrite trailing_window_length, values_length. reflexivity. }
    exists (snd row).
    exists (of_nat (count_less (snd row)
                      (trailing_window (window self) (values s)))
            / of_nat m * 100)%Q.
    split.
    { unfold getitem_last. rewrite (iloc_last_ok (values s) (snd r0)).
      - unfold row. rewrite last_values. reflexivity.
      - rewrite values_length. exact Hn. }
    split.
    { unfold Service.compute_percentile.
      rewrite (iloc_last_ok s r0 Hn). simpl bind. fold row.
      rewrite calculate_percentile_window.
      rewrite mask_mean_fraction by (rewrite Hlen; exact Hm).
      rewrite Hlen. reflexivity. }
    cbv zeta. fold m.
    assert (Hnz : ~ (of_nat m == 0)%Q).
    { intro E. pose proof (of_nat_pos Hm) as P. rewrite E in P.
      exact (Qlt_irrefl _ P). }
    assert (Heq : (of_nat (count_less (snd row)
                             (trailing_window (window self) (values s)))
                   / of_nat m * 100
                   == 100 * of_nat (count_less (snd row)
                                      (trailing_window (window self)
                                                       (values s)))
                      / of_nat m)%Q).
    { field. exact Hnz. }
    split; [exact Hlen|].
    split; [apply Qeq_refl|].
    split.
    { rewrite Heq. apply percentage_bounds; [|exact Hm].
      rewrite <- Hlen. apply count_less_le. }
    split.
    { rewrite <- Hlen. apply count_partition. }
    split.
    { rewrite <- Hlen. apply count_less_strict.
      unfold row. rewrite <- last_values.
      apply in_trailing_window_last; [exact HW|].
      rewrite values_length. exact Hn. }
    intros x Hx. apply Qltb_irrefl. exact Hx.
Qed.

(** The claim as first stated, exactly [100 * k / min(n, W)], at 160 closes
    of which 23 are below the last one (default settings, so the window is
    the whole series): the formula is 14.375, a double, while the function
    returns the double just below it, which prints as 14.374999999999998. *)
Lemma percentile_23_of_160_is_below_the_formula :
  Nat.min (length closes_23_of_160) (window percentile_service) = 160%nat /\
  count_less_b64 30%float
    (trailing_window (window percentile_service) (values closes_23_of_160))
  = 23%nat /\
  (100 * 23 / 160)%float = 14.375%float /\
  Binary64.Service.compute_percentile percentile_service closes_23_of_160
  = Ok (23 / 160 * 100)%float /\
  PrimFloat.eqb (23 / 160 * 100) 14.375 = false /\
  PrimFloat.ltb (23 / 160 * 100) 14.375 = true.
Proof. vm_compute. repeat split. Qed.

(** ** The historical percentile sequence *)

Lemma mapM_ok {A B : Type} (f : A -> result B) (g : A -> B) (l : list A) :
  (forall x, In x l -> f x = Ok (g x)) -> mapM f l = Ok (map g l).
Proof.
  induction l as [|x l IH]; intro H; [reflexivity|].
  simpl. rewrite (H x (or_introl eq_refl)). simpl.
  rewrite IH by (intros y Hy; apply H; right; exact Hy). reflexivity.
Qed.

Lemma iloc_ok {A : Type} (i : nat) (l : list A) (d : A) :
  (i < length l)%nat -> iloc i l = Ok (nth i l d).
Proof.
  intro H. unfold iloc. rewrite (nth_error_nth' l d H). reflexivity.
Qed.

Lemma values_iloc_slice {A : Type} (a b : nat) (s : Series A) :
  values (iloc_slice a b s) = iloc_slice a b (values s).
Proof. unfold iloc_slice. rewrite values_firstn, values_skipn. reflexivity. Qed.

(** The loop never raises: the sequence is the list of its entries. *)
Lemma historical_percentiles_entries (self : PercentileService)
      (s : Series Q) (d : timestamp * Q) :
  Service._calculate_historical_percentiles self s
  = map (history_entry (window self) s d)
        (seq (window self) (length s - window self)).
Proof.
  unfold Service._calculate_historical_percentiles.
  rewrite (mapM_ok _ (history_entry (window self) s d)); [reflexivity|].
  intros i Hi. apply in_seq in Hi.
  rewrite (iloc_ok s d) by lia. simpl.
  unfold history_entry. rewrite values_iloc_slice. reflexivity.
Qed.

Lemma iloc_slice_window_length {A : Type} (W i : nat) (l : list A) :
  (W <= i <= length l)%nat -> length (iloc_slice (i - W) i l) = W.
Proof.
  intro H. unfold iloc_slice. rewrite length_firstn, length_skipn. lia.
Qed.



(** ** Constant series *)

Lemma count_less_constant (c v : Q) (l : list Q) :
  (forall x, In x l -> x == c)%Q -> (v == c)%Q -> count_less v l = 0%nat.
Proof.
  intros H Hv. unfold count_less.
  induction l as [|x l IH]; [reflexivity|].
  simpl. rewrite Qltb_irrefl.
  - apply IH. intros y Hy. apply H. right. exact Hy.
  - rewrite Hv. apply H. left. reflexivity.
Qed.

Lemma In_skipn {A : Type} (n : nat) (l : list A) (x : A) :
  In x (skipn n l) -> In x l.
Proof.
  revert l. induction n as [|n IH]; intros l H; [exact H|].
  destruct l as [|y l]; [exact H|]. right. apply IH. exact H.
Qed.

Lemma In_firstn {A : Type} (n : nat) (l : list A) (x : A) :
  In x (firstn n l) -> In x l.
Proof.
  revert l. induction n as [|n IH]; intros l H; [contradiction|].
  destruct l as [|y l]; [exact H|].
  destruct H as [->|H]; [left; reflexivity | right; apply IH; exact H].
Qed.

Lemma In_last {A : Type} (l : list A) (d : A) :
  (1 <= length l)%nat -> In (last l d) l.
Proof.
  induction l as [|x l IH]; intro H; [simpl in H; lia|].
  destruct l as [|y l]; [left; reflexivity|].
  right. apply IH. simpl. lia.
Qed.

Lemma In_values_snd {A : Type} (s : Series A) (r : timestamp * A) :
  In r s -> In (snd r) (values s).
Proof. intro H. unfold values. apply in_map. exact H. Qed.

(** C8: on a series of [n >= W] values all equal to [c] (with [W]
    positive), the percentile of the latest value is 0, and the historical
    sequence has its [n - W] entries, one for each index from [W] to [n-1],
    every one of them 0: no element is strictly less than a value equal to
    it. *)
Theorem constant_series_percentile_zero (self : PercentileService)
        (s : Series Q) (c : Q) :
  (1 <= window self)%nat ->
  (window self <= length s)%nat ->
  (forall x, In x (values s) -> x == c)%Q ->
  let h := Service._calculate_historical_percentiles self s in
  (exists p, Service.compute_percentile self s = Ok (Fin p) /\ (p == 0)%Q) /\
  length h = (length s - window self)%nat /\
  (forall i, (window self <= i < length s)%nat ->
             exists t v p,
               nth_error s i = Some (t, v) /\
               nth_error h (i - window self) = Some (t, Fin p) /\
               (p == 0)%Q) /\
  (forall row, In row h -> exists p, snd row = Fin p /\ (p == 0)%Q).
Proof.
  intros HW Hn Hc. cbv zeta.
  destruct s as [|d s0] eqn:Es; [simpl in Hn; lia|].
  rewrite <- Es in *. assert (Hs : (1 <= length s)%nat) by lia. clear Es.
  assert (Hentry : forall i, (window self <= i < length s)%nat ->
                     exists p, snd (history_entry (window self) s d i) = Fin p
                               /\ (p == 0)%Q).
  { intros i Hi.
    exists (of_nat 0 / of_nat (window self) * 100)%Q.
    split.
    + unfold history_entry. simpl snd.
      assert (Hlen : length (iloc_slice (i - window self) i (values s))
                     = window self).
      { apply iloc_slice_window_length. rewrite values_length. lia. }
      rewrite mask_mean_fraction by (rewrite Hlen; exact HW).
      rewrite Hlen. rewrite (@count_less_constant c); [reflexivity| |].
      * intros x Hx. apply Hc. unfold iloc_slice in Hx.
        apply In_firstn in Hx. apply In_skipn in Hx. exact Hx.
      * apply Hc. apply In_values_snd. apply nth_In. lia.
    + unfold of_nat at 1. simpl Z.of_nat. unfold Qdiv.
      rewrite Qmult_0_l, Qmult_0_l. reflexivity. }
  split.
  - exists (of_nat 0 / of_nat (Nat.min (length s) (window self)) * 100)%Q.
    split.
    + unfold Service.compute_percentile.
      rewrite (iloc_last_ok s d Hs). simpl bind.
      rewrite calculate_percentile_window.
      rewrite mask_mean_fraction
        by (rewrite trailing_window_length, values_length; lia).
      rewrite (@count_less_constant c).
      * rewrite trailing_window_length, values_length. reflexivity.
      * intros x Hx. apply Hc. unfold trailing_window in Hx.
        apply In_skipn in Hx. exact Hx.
      * apply Hc. apply In_values_snd. apply In_last. exact Hs.
    + unfold of_nat at 1. simpl Z.of_nat. unfold Qdiv.
      rewrite Qmult_0_l, Qmult_0_l. reflexivity.
  - rewrite (historical_percentiles_entries self s d).
    split; [rewrite length_map, length_seq; reflexivity|].
    split.
    + intros i Hi. destruct (Hentry i Hi) as (p & Hp & Hz).
      exists (fst (nth i s d)), (snd (nth i s d)), p.
      split.
      { rewrite (nth_error_nth' s d) by lia.
        rewrite <- surjective_pairing. reflexivity. }
      split; [|exact Hz].
      rewrite nth_error_map.
      rewrite (nth_error_nth' _ 0%nat) by (rewrite length_seq; lia).
      rewrite seq_nth by lia.
      replace (window self + (i - window self))%nat with i by lia.
      simpl option_map. rewrite <- Hp. unfold history_entry. reflexivity.
    + intros row Hrow.
      apply in_map_iff in Hrow. destruct Hrow as (i & <- & Hi).
      apply in_seq in Hi. apply Hentry. lia.
Qed.

(** ** What the service answers *)

Lemma symbol_accepted (sym : string) :
  (3 <= py_len sym)%nat ->
  negb (nonempty sym) || (py_len sym <? 3)%nat = false.
Proof.
  intro H. destruct sym as [|c sym]; [simpl in H; lia|].
  simpl nonempty. simpl negb. simpl orb. apply Nat.ltb_ge. exact H.
Qed.

Lemma stock_insufficient (self : PercentileService) (sqrt64 : Q -> Q)
      (src : string -> string -> option (Series Q)) (sym per : string) :
  insufficient self (src sym per) ->
  Service.get_stock_percentile self sqrt64 src sym per
  = Raise (ValueError (Service.insufficient_stock sym)).
Proof.
  unfold insufficient, Service.get_stock_percentile. intro H.
  destruct (src sym per) as [d|]; [|reflexivity].
  apply Nat.ltb_lt in H. rewrite H. reflexivity.
Qed.

Lemma bond_insufficient (self : PercentileService) (sqrt64 : Q -> Q)
      (src : string -> string -> option (Series Q)) (sym per : string) :
  insufficient self (src sym per) ->
  Service.get_bond_percentile self sqrt64 src sym per
  = Raise (ValueError (Service.insufficient_bond sym)).
Proof.
  unfold insufficient, Service.get_bond_percentile. intro H.
  destruct (src sym per) as [d|]; [|reflexivity].
  apply Nat.ltb_lt in H. rewrite H. reflexivity.
Qed.

(** With enough rows the dictionary of the result is never completed: its
    last value is [Series.to_dict('records')]. *)
Lemma stock_sufficient (self : PercentileService) (sqrt64 : Q -> Q)
      (src : string -> string -> option (Series Q)) (sym per : string)
      (d : Series Q) :
  src sym per = Some d ->
  (min_data_points self <= length d)%nat ->
  (1 <= length d)%nat ->
  Service.get_stock_percentile self sqrt64 src sym per
  = Raise (TypeError "unsupported type: <class 'str'>").
Proof.
  intros E HM Hn. unfold Service.get_stock_percentile. rewrite E.
  apply Nat.ltb_ge in HM. rewrite HM.
  destruct d as [|r0 d0] eqn:Ed; [simpl in Hn; lia|]. rewrite <- Ed in *.
  rewrite (iloc_last_ok d r0 Hn). reflexivity.
Qed.

Lemma bond_sufficient (self : PercentileService) (sqrt64 : Q -> Q)
      (src : string -> string -> option (Series Q)) (sym per : string)
      (d : Series Q) :
  src sym per = Some d ->
  (min_data_points self <= length d)%nat ->
  (1 <= length d)%nat ->
  Service.get_bond_percentile self sqrt64 src sym per
  = Raise (TypeError "unsupported type: <class 'str'>").
Proof.
  intros E HM Hn. unfold Service.get_bond_percentile. rewrite E.
  apply Nat.ltb_ge in HM. rewrite HM.
  destruct d as [|r0 d0] eqn:Ed; [simpl in Hn; lia|]. rewrite <- Ed in *.
  rewrite (iloc_last_ok d r0 Hn). reflexivity.
Qed.

Lemma insufficient_dec (self : PercentileService) (data : option (Series Q)) :
  insufficient self data \/
  exists d, data = Some d /\ (min_data_points self <= length d)%nat.
Proof.
  destruct data as [d|]; [|left; exact I].
  destruct (Nat.lt_ge_cases (length d) (min_data_points self)) as [H|H].
  - left. exact H.
  - right. exists d. split; [reflexivity | exact H].
Qed.

(** Whatever the source returns, the service raises: [ValueError] without
    enough rows, [IndexError] on an empty frame that passed the size check,
    [TypeError] otherwise. *)
Lemma stock_raises (self : PercentileService) (sqrt64 : Q -> Q)
      (src : string -> string -> option (Series Q)) (sym per : string) :
  exists e,
    Service.get_stock_percentile self sqrt64 src sym per = Raise e /\
    plain_error e.
Proof.
  destruct (insufficient_dec self (src sym per)) as [H|(d & E & HM)].
  - rewrite (stock_insufficient self sqrt64 src sym per H).
    eexists. split; [reflexivity | exact I].
  - destruct d as [|r0 d0] eqn:Ed.
    + unfold Service.get_stock_percentile. rewrite E.
      apply Nat.ltb_ge in HM. rewrite HM.
      eexists. split; [reflexivity | exact I].
    + rewrite (@stock_sufficient self sqrt64 src sym per d); subst d;
        try assumption; [|simpl; lia].
      eexists. split; [reflexivity | exact I].
Qed.

Lemma bond_raises (self : PercentileService) (sqrt64 : Q -> Q)
      (src : string -> string -> option (Series Q)) (sym per : string) :
  exists e,
    Service.get_bond_percentile self sqrt64 src sym per = Raise e /\
    plain_error e.
Proof.
  destruct (insufficient_dec self (src sym per)) as [H|(d & E & HM)].
  - rewrite (bond_insufficient self sqrt64 src sym per H).
    eexists. split; [reflexivity | exact I].
  - destruct d as [|r0 d0] eqn:Ed.
    + unfold Service.get_bond_percentile. rewrite E.
      apply Nat.ltb_ge in HM. rewrite HM.
      eexists. split; [reflexivity | exact I].
    + rewrite (@bond_sufficient self sqrt64 src sym per d); subst d;
        try assumption; [|simpl; lia].
      eexists. split; [reflexivity | exact I].
Qed.

Lemma stock_fails (self : PercentileService) (sqrt64 : Q -> Q)
      (src : string -> string -> option (Series Q)) (sym per : string) :
  fails (Service.get_stock_percentile self sqrt64 src sym per) = true.
Proof.
  destruct (stock_raises self sqrt64 src sym per) as (e & -> & _).
  reflexivity.
Qed.

Lemma bond_fails (self : PercentileService) (sqrt64 : Q -> Q)
      (src : string -> string -> option (Series Q)) (sym per : string) :
  fails (Service.get_bond_percentile self sqrt64 src sym per) = true.
Proof.
  destruct (bond_raises self sqrt64 src sym per) as (e & -> & _).
  reflexivity.
Qed.

(** ** Insufficient data *)

(** C3: when the data source fails or returns fewer than [MIN_DATA_POINTS]
    rows, [get_stock_percentile] and [get_bond_percentile] raise the
    "insufficient data" [ValueError], and the routes (for a symbol of at
    least 3 characters, which passes their format check) answer 400 with
    that message.  The path is its own: the error is raised before
    [_calculate_percentile], where the fallback 50.0 lives, is called, and
    with enough rows the operations do not raise it: what they raise then is
    a [TypeError], which the routes answer with 500. *)
Theorem insufficient_data_is_client_error
        (self : PercentileService) (sqrt64 : Q -> Q)
        (src : string -> string -> option (Series Q)) (sym per : string) :
  (insufficient self (src sym per) ->
   Service.get_stock_percentile self sqrt64 src sym per
   = Raise (ValueError (Service.insufficient_stock sym)) /\
   Service.get_bond_percentile self sqrt64 src sym per
   = Raise (ValueError (Service.insufficient_bond sym)) /\
   ((3 <= py_len sym)%nat ->
    Stocks.get_stock_percentile self sqrt64 src sym per
    = Raise (HTTPException 400 (Service.insufficient_stock sym)) /\
    Bonds.get_bond_percentile self sqrt64 src sym per
    = Raise (HTTPException 400 (Service.insufficient_bond sym)))) /\
  (forall d : Series Q,
     src sym per = Some d ->
     (min_data_points self <= length d)%nat ->
     (1 <= length d)%nat ->
     (exists msg,
         Service.get_stock_percentile self sqrt64 src sym per
         = Raise (TypeError msg) /\
         Service.get_bond_percentile self sqrt64 src sym per
         = Raise (TypeError msg)) /\
     ((3 <= py_len sym)%nat ->
      Stocks.get_stock_percentile self sqrt64 src sym per
      = Raise (HTTPException 500 "获取股票百分位失败") /\
      Bonds.get_bond_percentile self sqrt64 src sym per
      = Raise (HTTPException 500 "获取债券百分位失败"))).
Proof.
  split.
  - intro H.
    pose proof (stock_insufficient self sqrt64 src sym per H) as Hs.
    pose proof (bond_insufficient self sqrt64 src sym per H) as Hb.
    split; [exact Hs|]. split; [exact Hb|].
    intro Hsym. split.
    + unfold Stocks.get_stock_percentile, route_percentile.
      rewrite (symbol_accepted sym Hsym), Hs. reflexivity.
    + unfold Bonds.get_bond_percentile, route_percentile.
      rewrite (symbol_accepted sym Hsym), Hb. reflexivity.
  - intros d E HM Hn.
    pose proof (@stock_sufficient self sqrt64 src sym per d E HM Hn) as Hs.
    pose proof (@bond_sufficient self sqrt64 src sym per d E HM Hn) as Hb.
    split.
    + eexists. split; [exact Hs | exact Hb].
    + intro Hsym. split.
      * unfold Stocks.get_stock_percentile, route_percentile.
        rewrite (symbol_accepted sym Hsym), Hs. reflexivity.
      * unfold Bonds.get_bond_percentile, route_percentile.
        rewrite (symbol_accepted sym Hsym), Hb. reflexivity.
Qed.

(** ** Batches *)

Lemma successes_of_length {A : Type} (f : string -> result A)
      (l : list string) :
  length (successes_of f l)
  = (length l - length (filter (fun s => fails (f s)) l))%nat.
Proof.
  assert (H : (length (successes_of f l)
               + length (filter (fun s => fails (f s)) l) = length l)%nat).
  { induction l as [|s l IH]; [reflexivity|].
    simpl. destruct (f s); simpl; lia. }
  lia.
Qed.

Lemma failures_of_symbols {A : Type} (f : string -> result A)
      (l : list string) :
  map err_symbol (failures_of f l) = filter (fun s => fails (f s)) l.
Proof.
  induction l as [|s l IH]; [reflexivity|].
  simpl. destruct (f s); simpl; rewrite IH; reflexivity.
Qed.

Lemma failures_of_length {A : Type} (f : string -> result A)
      (l : list string) :
  length (failures_of f l) = length (filter (fun s => fails (f s)) l).
Proof. rewrite <- failures_of_symbols. symmetry. apply length_map. Qed.

Lemma batch_loop_collects (service : string -> string -> result PercentileResult)
      (per : string) (l : list string)
      (res : list PercentileResult) (errs : list ErrorEntry) :
  batch_loop service per l res errs
  = (res ++ successes_of (fun s => service s per) l,
     errs ++ failures_of (fun s => service s per) l).
Proof.
  revert res errs. induction l as [|s l IH]; intros res errs.
  - simpl. rewrite !app_nil_r. reflexivity.
  - simpl. destruct (service s per) as [r|e]; rewrite IH, <- app_assoc;
      reflexivity.
Qed.

(** A batch within the limit answers with the collected lists. *)
Lemma route_batch_ok (service : string -> string -> result PercentileResult)
      (limit : nat) (m1 m2 m3 symbols per : string) :
  let l := parse_symbols symbols in
  (1 <= length l <= limit)%nat ->
  exists resp,
    route_batch service limit m1 m2 m3 symbols per = Ok resp /\
    success resp = true /\
    results (data resp) = successes_of (fun s => service s per) l /\
    errors (data resp) = failures_of (fun s => service s per) l /\
    total (data resp) = length l /\
    success_count (data resp) = length (results (data resp)) /\
    error_count (data resp) = length (errors (data resp)).
Proof.
  intros l H. unfold route_batch. fold l.
  destruct l as [|s l'] eqn:El; [simpl in H; lia|]. rewrite <- El in *.
  assert (E : (limit <? length l)%nat = false) by (apply Nat.ltb_ge; lia).
  rewrite E. rewrite batch_loop_collects. simpl app.
  eexists. split; [reflexivity|]. simpl. repeat split; reflexivity.
Qed.

(** C9: a batch of [m] symbols within the route's limit succeeds as a
    whole, whatever the percentile operation does on each symbol: with [k]
    symbols on which it fails, the result list holds the [m - k] results of
    the other symbols, each the one that symbol yields on its own, in
    request order, and the error list holds [k] entries, keyed by the
    failing symbols in request order.  The two routes are this loop around
    [get_stock_percentile] (limit 20) and [get_bond_percentile] (limit 10);
    with these operations every symbol is one that fails, so the result
    list is empty and the error list has [m] entries. *)
Theorem batch_partial_success
        (service : string -> string -> result PercentileResult)
        (limit : nat) (no_symbols too_many failed : string)
        (self : PercentileService) (sqrt64 : Q -> Q)
        (stocks bonds : string -> string -> option (Series Q))
        (symbols per : string) :
  let l := parse_symbols symbols in
  let m := length l in
  ((1 <= m <= limit)%nat ->
   let one := fun s => service s per in
   let k := length (filter (fun s => fails (one s)) l) in
   exists resp,
     route_batch service limit no_symbols too_many failed symbols per
     = Ok resp /\
     success resp = true /\
     results (data resp) = successes_of one l /\
     errors (data resp) = failures_of one l /\
     map err_symbol (errors (data resp)) = filter (fun s => fails (one s)) l /\
     length (results (data resp)) = (m - k)%nat /\
     length (errors (data resp)) = k /\
     total (data resp) = m /\
     success_count (data resp) = (m - k)%nat /\
     error_count (data resp) = k) /\
  Stocks.get_batch_stock_percentiles self sqrt64 stocks symbols per
  = route_batch (Service.get_stock_percentile self sqrt64 stocks) 20
                "请提供有效的股票代码" "单次最多查询20只股票"
                "批量获取股票百分位失败" symbols per /\
  Bonds.get_batch_bond_percentiles self sqrt64 bonds symbols per
  = route_batch (Service.get_bond_percentile self sqrt64 bonds) 10
                "请提供有效的债券代码" "单次最多查询10只债券"
                "批量获取债券百分位失败" symbols per /\
  ((1 <= m <= 20)%nat ->
   exists resp,
     Stocks.get_batch_stock_percentiles self sqrt64 stocks symbols per
     = Ok resp /\
     success resp = true /\
     results (data resp) = [] /\
     map err_symbol (errors (data resp)) = l /\
     success_count (data resp) = 0%nat /\
     error_count (data resp) = m) /\
  ((1 <= m <= 10)%nat ->
   exists resp,
     Bonds.get_batch_bond_percentiles self sqrt64 bonds symbols per
     = Ok resp /\
     success resp = true /\
     results (data resp) = [] /\
     map err_symbol (errors (data resp)) = l /\
     success_count (data resp) = 0%nat /\
     error_count (data resp) = m).
Proof.
  cbv zeta.
  assert (Hempty : forall (svc : string -> string -> result PercentileResult),
             (forall s, fails (svc s per) = true) ->
             successes_of (fun s => svc s per) (parse_symbols symbols) = [] /\
             filter (fun s => fails (svc s per)) (parse_symbols symbols)
             = parse_symbols symbols).
  { intros svc Hall. induction (parse_symbols symbols) as [|s l [IH1 IH2]].
    - split; reflexivity.
    - simpl. pose proof (Hall s) as Hs. rewrite Hs.
      destruct (svc s per); [discriminate|].
      simpl. split; [exact IH1 | rewrite IH2; reflexivity]. }
  split; [|split; [reflexivity|split; [reflexivity|split]]]; intro H.
  - destruct (@route_batch_ok service limit no_symbols too_many failed
                              symbols per H)
      as (resp & E & Hs & Hr & He & Ht & Hsc & Hec).
    exists resp.
    rewrite Hsc, Hec, Hr, He, failures_of_symbols, successes_of_length,
      failures_of_length.
    repeat split; assumption.
  - destruct (@route_batch_ok
                (Service.get_stock_percentile self sqrt64 stocks) 20%nat
                "请提供有效的股票代码" "单次最多查询20只股票"
                "批量获取股票百分位失败" symbols per H)
      as (resp & E & Hs & Hr & He & Ht & Hsc & Hec).
    destruct (Hempty (Service.get_stock_percentile self sqrt64 stocks)
                     (fun s => stock_fails self sqrt64 stocks s per))
      as (H1 & H2).
    exists resp. unfold Stocks.get_batch_stock_percentiles.
    rewrite Hsc, Hec, Hr, He, failures_of_symbols, failures_of_length,
      H1, H2.
    repeat split; assumption.
  - destruct (@route_batch_ok
                (Service.get_bond_percentile self sqrt64 bonds) 10%nat
                "请提供有效的债券代码" "单次最多查询10只债券"
                "批量获取债券百分位失败" symbols per H)
      as (resp & E & Hs & Hr & He & Ht & Hsc & Hec).
    destruct (Hempty (Service.get_bond_percentile self sqrt64 bonds)
                     (fun s => bond_fails self sqrt64 bonds s per))
      as (H1 & H2).
    exists resp. unfold Bonds.get_batch_bond_percentiles.
    rewrite Hsc, Hec, Hr, He, failures_of_symbols, failures_of_length,
      H1, H2.
    repeat split; assumption.
Qed.

(** ** Comparing assets when every symbol fails *)

Lemma compare_loop_all_fail (self : PercentileService) (sqrt64 : Q -> Q)
      (stocks bonds : string -> string -> option (Series Q))
      (asset : string) (symbols : list string)
      (res : list CompareItem) (errs : list ErrorEntry) :
  (forall s, In s symbols ->
             fails (Analysis.compare_step self sqrt64 stocks bonds asset s)
             = true) ->
  Analysis.compare_loop self sqrt64 stocks bonds asset symbols res errs
  = (res,
     errs ++ failures_of (Analysis.compare_step self sqrt64 stocks bonds asset)
                         symbols).
Proof.
  revert errs. induction symbols as [|s l IH]; intros errs H.
  - simpl. rewrite app_nil_r. reflexivity.
  - simpl.
    pose proof (H s (or_introl eq_refl)) as Hs.
    destruct (Analysis.compare_step self sqrt64 stocks bonds asset s)
      as [item|e]; [discriminate|].
    rewrite IH by (intros y Hy; apply H; right; exact Hy).
    rewrite <- app_assoc. reflexivity.
Qed.

(** C10: in [compare_assets], when a request of 2 to 10 symbols has every
    symbol fail, the result list is empty, the average divides the sum of
    the percentiles by the length 0 of that list, which raises
    [ZeroDivisionError], and the route answers 500; no response carrying the
    error list is returned. *)
Theorem compare_assets_all_fail_is_500
        (self : PercentileService) (sqrt64 : Q -> Q)
        (stocks bonds : string -> string -> option (Series Q))
        (symbols : list string) (asset : string) :
  (2 <= length symbols <= 10)%nat ->
  (forall s, In s symbols ->
             fails (Analysis.compare_step self sqrt64 stocks bonds asset s)
             = true) ->
  fst (Analysis.compare_loop self sqrt64 stocks bonds asset symbols [] [])
  = [] /\
  length (snd (Analysis.compare_loop self sqrt64 stocks bonds asset
                                     symbols [] []))
  = length symbols /\
  fdiv (py_sum (map item_percentile (sort_desc item_percentile [])))
       (Fin (of_nat (length (map item_percentile
                                 (sort_desc item_percentile [])))))
  = Raise ZeroDivisionError /\
  py_max_by (fun p : float64 => p) []
  = Raise (ValueError "max() arg is an empty sequence") /\
  py_min_by (fun p : float64 => p) []
  = Raise (ValueError "min() arg is an empty sequence") /\
  Analysis.compare_assets self sqrt64 stocks bonds symbols asset
  = Raise (HTTPException 500 "资产比较失败") /\
  (forall resp,
      Analysis.compare_assets self sqrt64 stocks bonds symbols asset
      <> Ok resp).
Proof.
  intros Hlen Hall.
  pose proof (compare_loop_all_fail self sqrt64 stocks bonds asset symbols
                                    [] [] Hall) as Hloop.
  assert (Hroute : Analysis.compare_assets self sqrt64 stocks bonds
                                           symbols asset
                   = Raise (HTTPException 500 "资产比较失败")).
  { unfold Analysis.compare_assets.
    assert (E1 : (length symbols <? 2)%nat = false)
      by (apply Nat.ltb_ge; lia).
    assert (E2 : (10 <? length symbols)%nat = false)
      by (apply Nat.ltb_ge; lia).
    rewrite E1, E2, Hloop. reflexivity. }
  split; [rewrite Hloop; reflexivity|].
  split.
  { rewrite Hloop. simpl snd. rewrite failures_of_length.
    clear Hloop Hroute Hlen.
    induction symbols as [|s l IH]; [reflexivity|].
    simpl. rewrite (Hall s (or_introl eq_refl)). simpl.
    rewrite IH by (intros y Hy; apply Hall; right; exact Hy). reflexivity. }
  split; [reflexivity|].
  split; [reflexivity|].
  split; [reflexivity|].
  split; [exact Hroute|].
  intros resp E. rewrite Hroute in E. discriminate.
Qed.

(** ** Correlation *)

Lemma fold_fadd_Fin (qs : list Q) (a : Q) :
  fold_left fadd (map Fin qs) (Fin a) = Fin (fold_left Qplus qs a).
Proof.
  revert a. induction qs as [|q qs IH]; intro a; [reflexivity|].
  simpl. apply IH.
Qed.

Lemma py_sum_Fin (qs : list Q) : py_sum (map Fin qs) = Fin (q_sum qs).
Proof. apply fold_fadd_Fin. Qed.

Lemma fdiv_count (a : float64) (n : nat) :
  (1 <= n)%nat -> fdiv a (Fin (of_nat n)) = Ok (over a n).
Proof.
  intro H. unfold fdiv, over. rewrite (of_nat_eqb_0 H).
  destruct a; reflexivity.
Qed.


(** ** Trend *)

Lemma last_items_length {A : Type} (n : nat) (l : list A) :
  (1 <= n <= length l)%nat -> length (last_items n l) = n.
Proof.
  intro H. unfold last_items.
  assert (E : (n =? 0)%nat = false) by (apply Nat.eqb_neq; lia).
  rewrite E, length_skipn. lia.
Qed.

(** A failure of the service that is no [HTTPException] reaches the last
    [except] clause of the trend routes. *)
Lemma route_trend_raises
      (service : string -> string -> result PercentileResult)
      (recommend : float64 -> direction -> string) (msg sym : string)
      (days : nat) (e : exn) :
  service sym (trend_period days) = Raise e ->
  plain_error e ->
  route_trend service recommend msg sym days = Raise (HTTPException 500 msg).
Proof.
  intros Hs He. unfold route_trend. cbv zeta. rewrite Hs. cbn [bind].
  destruct e; try reflexivity. contradiction.
Qed.

Lemma analyze_trend_raises
      (self : PercentileService) (sqrt64 : Q -> Q)
      (stocks bonds : string -> string -> option (Series Q))
      (sym asset : string) (days : nat) (e : exn) :
  Analysis.asset_percentile self sqrt64 stocks bonds asset sym
                            (str_of_nat days ++ "d") "不支持的资产类型"
  = Raise e ->
  plain_error e ->
  Analysis.analyze_trend self sqrt64 stocks bonds sym asset days
  = Raise (HTTPException 500 "趋势分析失败").
Proof.
  intros Hs He. unfold Analysis.analyze_trend. rewrite Hs. cbn [bind].
  destruct e; try reflexivity. contradiction.
Qed.

(** C5: no trend operation of the program reports a direction or a
    strength.  Whatever the settings, the data source, the symbol and the
    number of days, the stock trend route and the trend-analysis route (on a
    stock and on a bond) answer 500: the service call they start with
    raises ([ValueError] without enough rows, [TypeError] from
    [Series.to_dict('records')] with them), and their last [except] clause
    turns that into their own 500. *)
Theorem trend_routes_answer_500
        (self : PercentileService) (sqrt64 : Q -> Q)
        (stocks bonds : string -> string -> option (Series Q))
        (sym : string) (days : nat) :
  Stocks.get_stock_trend self sqrt64 stocks sym days
  = Raise (HTTPException 500 "获取股票趋势失败") /\
  Analysis.analyze_trend self sqrt64 stocks bonds sym "stock" days
  = Raise (HTTPException 500 "趋势分析失败") /\
  Analysis.analyze_trend self sqrt64 stocks bonds sym "bond" days
  = Raise (HTTPException 500 "趋势分析失败").
Proof.
  split; [|split].
  - destruct (stock_raises self sqrt64 stocks sym (trend_period days))
      as (e & He & Hp).
    unfold Stocks.get_stock_trend.
    exact (route_trend_raises _ _ _ _ _ He Hp).
  - destruct (stock_raises self sqrt64 stocks sym (str_of_nat days ++ "d"))
      as (e & He & Hp).
    exact (@analyze_trend_raises self sqrt64 stocks bonds sym "stock" days e
             He Hp).
  - destruct (bond_raises self sqrt64 bonds sym (str_of_nat days ++ "d"))
      as (e & He & Hp).
    exact (@analyze_trend_raises self sqrt64 stocks bonds sym "bond" days e
             He Hp).
Qed.

(** ** Statistics *)

Lemma s_std_single (sqrt64 : Q -> Q) (v : Q) : s_std sqrt64 [v] = NaN.
Proof. unfold s_std. destruct (s_mean [v]); reflexivity. Qed.

Lemma s_mean_finite (l : list Q) :
  (1 <= length l)%nat -> s_mean l = Fin (q_sum l / of_nat (length l))%Q.
Proof.
  intro H. unfold s_mean, np_div. rewrite (of_nat_eqb_0 H). reflexivity.
Qed.

Lemma s_std_sample (sqrt64 : Q -> Q) (l : list Q) :
  (2 <= length l)%nat ->
  s_std sqrt64 l
  = Fin (sqrt64 (q_sum (map (fun x => (x - series_mean l) * (x - series_mean l))
                            l)
                 / of_nat (length l - 1)))%Q.
Proof.
  intro H. unfold s_std. rewrite s_mean_finite by lia.
  assert (E : (length l <=? 1)%nat = false) by (apply Nat.leb_gt; lia).
  rewrite E. reflexivity.
Qed.

(** C6, counterexample: on the one-point series [5] the standard deviation
    returned is NaN, not 0. *)
Lemma single_point_std_is_nan :
  option_map std (Service._calculate_statistics sqrt_approx (daily [5%Q]))
  = Some NaN /\
  ~ (exists st q,
        Service._calculate_statistics sqrt_approx (daily [5%Q]) = Some st /\
        std st = Fin q /\ (q == 0)%Q).
Proof.
  split; [reflexivity|].
  intros (st & q & E & Hstd & _).
  vm_compute in E. inversion E; subst st. discriminate Hstd.
Qed.

(** C6, amended: [_calculate_statistics] never raises and returns the seven
    statistics of the entire series, rounded to 2 digits; the standard
    deviation is the sample one (N-1 denominator); for a series of length 1
    it is NaN, and the minimum and maximum are the single value. *)
Theorem statistics_whole_series_std_nan_on_single_point
        (sqrt64 : Q -> Q) (s : Series Q) :
  exists st,
    Service._calculate_statistics sqrt64 s = Some st /\
    mean st = round (s_mean (values s)) 2 /\
    median st = round (s_median (values s)) 2 /\
    std st = round (s_std sqrt64 (values s)) 2 /\
    min st = round (s_min (values s)) 2 /\
    max st = round (s_max (values s)) 2 /\
    q25 st = round (s_quantile (1 # 4) (values s)) 2 /\
    q75 st = round (s_quantile (3 # 4) (values s)) 2 /\
    (length s = 1%nat ->
     std st = NaN /\
     exists v, values s = [v] /\
               min st = Fin (round_q 2 v) /\ max st = Fin (round_q 2 v)) /\
    ((2 <= length s)%nat ->
     std st
     = Fin (round_q 2
              (sqrt64
                 (q_sum (map (fun x => (x - series_mean (values s))
                                       * (x - series_mean (values s)))
                             (values s))
                  / of_nat (length s - 1))))%Q).
Proof.
  eexists. split; [reflexivity|]. cbn [mean median std min max q25 q75].
  repeat (split; [reflexivity|]).
  split.
  - intro H. destruct s as [|[t v] [|r s]]; try discriminate H.
    split; [reflexivity|]. exists v. repeat split; reflexivity.
  - intro H. rewrite s_std_sample by (rewrite values_length; exact H).
    rewrite values_length. reflexivity.
Qed.

(** ** The history handed on by the service *)







(** ** The theorems at concrete inputs *)

Lemma compute_percentile_fraction_times_100_witness :
  (1 <= window small_service)%nat /\
  (1 <= length ten_days_b64)%nat /\
  (1 <= length ten_days)%nat /\
  Binary64.Service.compute_percentile small_service ten_days_b64
  = Ok (4 / 5 * 100)%float /\
  exists v p,
    getitem_last (values ten_days) = Ok v /\
    Service.compute_percentile small_service ten_days = Ok (Fin p) /\
    (p == of_nat (count_less v (trailing_window 5 (values ten_days)))
          / of_nat 5 * 100)%Q /\
    (0 <= p <= 100)%Q.
Proof.
  assert (H1 : (1 <= window small_service)%nat) by (simpl; lia).
  assert (H2 : (1 <= length ten_days_b64)%nat) by (simpl; lia).
  assert (H3 : (1 <= length ten_days)%nat) by (simpl; lia).
  split; [exact H1|]. split; [exact H2|]. split; [exact H3|].
  destruct (compute_percentile_fraction_times_100 small_service H1)
    as (Hb & Hq).
  split.
  - destruct (Hb ten_days_b64 H2) as (v & Hv & _ & Hc & _).
    vm_compute in Hv. injection Hv as <-. exact Hc.
  - destruct (Hq ten_days H3) as (v & p & Hv & Hc & _ & Hp & Hr & _).
    exists v, p. split; [exact Hv|]. split; [exact Hc|].
    split; [exact Hp | exact Hr].
Defined.


Lemma constant_series_percentile_zero_witness :
  (1 <= window small_service)%nat /\
  (window small_service <= length flat_days)%nat /\
  (exists p, Service.compute_percentile small_service flat_days = Ok (Fin p) /\
             (p == 0)%Q) /\
  length (Service._calculate_historical_percentiles small_service flat_days)
  = 3%nat /\
  (exists t v p,
      nth_error flat_days 7 = Some (t, v) /\
      nth_error (Service._calculate_historical_percentiles
                   small_service flat_days) 2 = Some (t, Fin p) /\
      (p == 0)%Q).
Proof.
  assert (H1 : (1 <= window small_service)%nat) by (simpl; lia).
  assert (H2 : (window small_service <= length flat_days)%nat) by (simpl; lia).
  split; [exact H1|]. split; [exact H2|].
  destruct (@constant_series_percentile_zero small_service flat_days (7 # 2)
              H1 H2) as (Hp & Hlen & Hentry & _).
  { intros x Hx. simpl in Hx.
    repeat (destruct Hx as [<-|Hx]; [reflexivity|]). contradiction. }
  split; [exact Hp|]. split; [exact Hlen|].
  exact (Hentry 7%nat ltac:(simpl; lia)).
Defined.

Lemma insufficient_data_is_client_error_witness :
  insufficient small_service (short_for "000002.SZ" "000002.SZ" "1y") /\
  (3 <= py_len "000002.SZ")%nat /\
  Stocks.get_stock_percentile small_service sqrt_approx
                              (short_for "000002.SZ") "000002.SZ" "1y"
  = Raise (HTTPException 400 (Service.insufficient_stock "000002.SZ")) /\
  Bonds.get_bond_percentile small_service sqrt_approx
                            (short_for "000002.SZ") "000002.SZ" "1y"
  = Raise (HTTPException 400 (Service.insufficient_bond "000002.SZ")) /\
  (min_data_points small_service <= length (daily (rising 12)))%nat /\
  Stocks.get_stock_percentile small_service sqrt_approx
                              (short_for "000002.SZ") "600519.SH" "1y"
  = Raise (HTTPException 500 "获取股票百分位失败").
Proof.
  assert (H1 : insufficient small_service
                            (short_for "000002.SZ" "000002.SZ" "1y"))
    by (simpl; lia).
  assert (H2 : (3 <= py_len "000002.SZ")%nat) by (simpl; lia).
  assert (H3 : (min_data_points small_service
                <= length (daily (rising 12)))%nat) by (simpl; lia).
  split; [exact H1|]. split; [exact H2|].
  destruct (insufficient_data_is_client_error
              small_service sqrt_approx (short_for "000002.SZ")
              "000002.SZ" "1y") as (Hbad & _).
  destruct (Hbad H1) as (_ & _ & Hapi). destruct (Hapi H2) as (Hs & Hb).
  split; [exact Hs|]. split; [exact Hb|]. split; [exact H3|].
  destruct (insufficient_data_is_client_error
              small_service sqrt_approx (short_for "000002.SZ")
              "600519.SH" "1y") as (_ & Hgood).
  destruct (Hgood (daily (rising 12)) eq_refl H3 ltac:(simpl; lia))
    as (_ & Hroute).
  exact (proj1 (Hroute ltac:(simpl; lia))).
Defined.


(** C5 at a concrete input: the default settings and 259 closes rising by
    one each day, enough rows for the service. *)
Lemma trend_of_rising_prices_is_500 :
  (min_data_points percentile_service <= 259)%nat /\
  Stocks.get_stock_trend percentile_service sqrt_approx
                         (always (daily (rising 259))) "600519.SH" 30
  = Raise (HTTPException 500 "获取股票趋势失败") /\
  Analysis.analyze_trend percentile_service sqrt_approx
                         (always (daily (rising 259))) unavailable
                         "600519.SH" "stock" 30
  = Raise (HTTPException 500 "趋势分析失败").
Proof.
  split; [simpl; lia|].
  destruct (trend_routes_answer_500
              percentile_service sqrt_approx (always (daily (rising 259)))
              unavailable "600519.SH" 30) as (Hs & Ha & _).
  split; [exact Hs | exact Ha].
Defined.

Lemma statistics_single_point_witness :
  length (daily [5%Q]) = 1%nat /\
  exists st,
    Service._calculate_statistics sqrt_approx (daily [5%Q]) = Some st /\
    std st = NaN /\
    min st = Fin (round_q 2 5) /\
    max st = Fin (round_q 2 5).
Proof.
  assert (H1 : length (daily [5%Q]) = 1%nat) by reflexivity.
  split; [exact H1|].
  destruct (statistics_whole_series_std_nan_on_single_point
              sqrt_approx (daily [5%Q]))
    as (st & Hst & _ & _ & _ & _ & _ & _ & _ & Hone & _).
  exists st. split; [exact Hst|].
  destruct (Hone H1) as (Hnan & v & Hv & Hmin & Hmax).
  injection Hv as <-.
  split; [exact Hnan|]. split; [exact Hmin | exact Hmax].
Defined.


Lemma batch_partial_success_witness :
  (1 <= length (parse_symbols "000001.SZ, 000002.SZ, 600519.SH") <= 20)%nat /\
  (exists resp,
      route_batch (stub_service "000002.SZ") 20
                  "请提供有效的股票代码" "单次最多查询20只股票"
                  "批量获取股票百分位失败"
                  "000001.SZ, 000002.SZ, 600519.SH" "1y" = Ok resp /\
      success resp = true /\
      results (data resp)
      = [stub_result "000001.SZ" "1y"; stub_result "600519.SH" "1y"] /\
      map err_symbol (errors (data resp)) = ["000002.SZ"%string]) /\
  (exists resp,
      Stocks.get_batch_stock_percentiles
        small_service sqrt_approx (short_for "000002.SZ")
        "000001.SZ, 000002.SZ, 600519.SH" "1y" = Ok resp /\
      success resp = true /\
      results (data resp) = [] /\
      map err_symbol (errors (data resp))
      = ["000001.SZ"; "000002.SZ"; "600519.SH"]%string).
Proof.
  assert (H : (1 <= length (parse_symbols "000001.SZ, 000002.SZ, 600519.SH")
               <= 20)%nat) by (simpl; lia).
  split; [exact H|].
  destruct (batch_partial_success
              (stub_service "000002.SZ") 20
              "请提供有效的股票代码" "单次最多查询20只股票"
              "批量获取股票百分位失败"
              small_service sqrt_approx (short_for "000002.SZ")
              unavailable "000001.SZ, 000002.SZ, 600519.SH" "1y")
    as (Hany & _ & _ & Hstock & _).
  split.
  - destruct (Hany H) as (resp & E & Hs & Hr & _ & Hk & _).
    exists resp. split; [exact E|]. split; [exact Hs|].
    split; [rewrite Hr; reflexivity | rewrite Hk; reflexivity].
  - destruct (Hstock H) as (resp & E & Hs & Hr & Hk & _).
    exists resp. split; [exact E|]. split; [exact Hs|].
    split; [exact Hr | exact Hk].
Defined.

Lemma compare_assets_all_fail_is_500_witness :
  (2 <= length ["000001.SZ"; "600519.SH"]%string <= 10)%nat /\
  (forall s, In s ["000001.SZ"; "600519.SH"]%string ->
             fails (Analysis.compare_step small_service sqrt_approx
                                          unavailable unavailable "stock" s)
             = true) /\
  Analysis.compare_assets small_service sqrt_approx
                          unavailable unavailable
                          ["000001.SZ"; "600519.SH"]%string "stock"
  = Raise (HTTPException 500 "资产比较失败").
Proof.
  assert (H1 : (2 <= length ["000001.SZ"; "600519.SH"]%string <= 10)%nat)
    by (simpl; lia).
  assert (H2 : forall s, In s ["000001.SZ"; "600519.SH"]%string ->
                         fails (Analysis.compare_step
                                  small_service sqrt_approx
                                  unavailable unavailable "stock" s) = true).
  { intros s [<-|[<-|[]]]; reflexivity. }
  split; [exact H1|]. split; [exact H2|].
  destruct (@compare_assets_all_fail_is_500
              small_service sqrt_approx unavailable unavailable
              ["000001.SZ"; "600519.SH"]%string "stock" H1 H2)
    as (_ & _ & _ & _ & _ & Hroute & _).
  exact Hroute.
Defined.

(** ** Rounding keeps a percentage a percentage *)

Lemma round_half_even_between (a b : Z) (x : Q) :
  (inject_Z a <= x <= inject_Z b)%Q ->
  (a <= round_half_even x <= b)%Z.
Proof.
  intros [Ha Hb]. unfold round_half_even.
  assert (Hfa : (a <= Qfloor x)%Z).
  { rewrite <- (Qfloor_Z a). apply Qfloor_resp_le. exact Ha. }
  assert (Hfb : (Qfloor x <= b)%Z).
  { rewrite <- (Qfloor_Z b). apply Qfloor_resp_le. exact Hb. }
  destruct (Qltb (x - inject_Z (Qfloor x)) (1 # 2)) eqn:E1; [lia|].
  assert (Hlt : (Qfloor x < b)%Z).
  { destruct (Z.eq_dec (Qfloor x) b) as [Heq|Hne]; [|lia].
    exfalso.
    assert (Hx : (x - inject_Z (Qfloor x) <= 0)%Q).
    { rewrite Heq. apply (Qplus_le_l _ _ (inject_Z b)). ring_simplify.
      exact Hb. }
    assert (Habs : Qltb (x - inject_Z (Qfloor x)) (1 # 2) = true).
    { apply Qltb_lt. apply (Qle_lt_trans _ 0); [exact Hx | reflexivity]. }
    congruence. }
  destruct (Qltb (1 # 2) (x - inject_Z (Qfloor x))); [lia|].
  destruct (Z.even (Qfloor x)); lia.
Qed.

Lemma round_q_percentage (ndigits : nat) (q : Q) :
  (0 <= q <= 100)%Q -> (0 <= round_q ndigits q <= 100)%Q.
Proof.
  intros [H0 H100]. unfold round_q.
  set (s := (10 ^ Z.of_nat ndigits)%Z).
  assert (Hs : (0 < s)%Z) by (unfold s; apply Z.pow_pos_nonneg; lia).
  assert (Hsq : (0 < inject_Z s)%Q)
    by (change 0%Q with (inject_Z 0); rewrite <- Zlt_Qlt; exact Hs).
  assert (Hr : (0 <= round_half_even (q * inject_Z s) <= 100 * s)%Z).
  { apply round_half_even_between. split.
    - change (inject_Z 0) with 0%Q.
      apply Qmult_le_0_compat; [exact H0 | apply Qlt_le_weak; exact Hsq].
    - rewrite inject_Z_mult. apply Qmult_le_r; [exact Hsq | exact H100]. }
  destruct Hr as [Hr0 Hr1]. split.
  - apply Qle_shift_div_l; [exact Hsq|]. rewrite Qmult_0_l.
    change 0%Q with (inject_Z 0). rewrite <- Zle_Qle. exact Hr0.
  - apply Qle_shift_div_r; [exact Hsq|].
    change 100%Q with (inject_Z 100). rewrite <- inject_Z_mult, <- Zle_Qle.
    exact Hr1.
Qed.

Lemma round_percentage (a : float64) (ndigits : nat) :
  is_percentage a -> is_percentage (round a ndigits).
Proof.
  destruct a as [q|]; simpl; [|trivial]. apply round_q_percentage.
Qed.

(** ** The percentile of an arbitrary value *)

Lemma count_less_monotone (v w : Q) (l : list Q) :
  (v <= w)%Q -> (count_less v l <= count_less w l)%nat.
Proof.
  intro H. unfold count_less.
  induction l as [|x l IH]; simpl; [lia|].
  destruct (Qltb x v) eqn:E.
  - assert (E' : Qltb x w = true).
    { apply Qltb_lt. apply Qltb_lt in E. apply (Qlt_le_trans _ v); assumption. }
    rewrite E'. simpl. lia.
  - destruct (Qltb x w); simpl; lia.
Qed.

Lemma calculate_percentile_value (self : PercentileService)
      (s : Series Q) (v : Q) :
  (1 <= window self)%nat -> (1 <= length s)%nat ->
  Service._calculate_percentile self s v
  = Fin (of_nat (count_less v (trailing_window (window self) (values s)))
         / of_nat (Nat.min (length s) (window self)) * 100)%Q.
Proof.
  intros HW Hn. rewrite calculate_percentile_window.
  rewrite mask_mean_fraction
    by (rewrite trailing_window_length, values_length; lia).
  rewrite trailing_window_length, values_length. reflexivity.
Qed.

Lemma fraction_percentage (k m : nat) :
  (k <= m)%nat -> (1 <= m)%nat -> (0 <= of_nat k / of_nat m * 100 <= 100)%Q.
Proof.
  intros Hk Hm.
  assert (E : (of_nat k / of_nat m * 100 == 100 * of_nat k / of_nat m)%Q).
  { field. intro H0. pose proof (of_nat_pos Hm) as P. rewrite H0 in P.
    exact (Qlt_irrefl _ P). }
  rewrite E. apply percentage_bounds; assumption.
Qed.

Lemma calculate_percentile_is_percentage (self : PercentileService)
      (s : Series Q) (v : Q) :
  (1 <= window self)%nat -> (1 <= length s)%nat ->
  is_percentage (Service._calculate_percentile self s v).
Proof.
  intros HW Hn. rewrite calculate_percentile_value by assumption.
  simpl. apply fraction_percentage; [|lia].
  rewrite <- (values_length s), <- trailing_window_length.
  apply count_less_le.
Qed.

(** X1: for a non-empty series and a positive window, the percentile of any
    value (not only the latest one) is a number in [0, 100], it is
    non-decreasing in the value, it is 0 for a value not above the window's
    minimum and 100 for a value above every element of the window. *)
Theorem calculate_percentile_monotone (self : PercentileService)
        (s : Series Q) (v w : Q) :
  (1 <= window self)%nat ->
  (1 <= length s)%nat ->
  (v <= w)%Q ->
  exists p q,
    Service._calculate_percentile self s v = Fin p /\
    Service._calculate_percentile self s w = Fin q /\
    (0 <= p)%Q /\ (p <= q)%Q /\ (q <= 100)%Q /\
    ((forall x, In x (trailing_window (window self) (values s)) -> v <= x)%Q ->
     p == 0)%Q /\
    ((forall x, In x (trailing_window (window self) (values s)) -> x < w)%Q ->
     q == 100)%Q.
Proof.
  intros HW Hn Hvw.
  set (recent := trailing_window (window self) (values s)).
  set (m := Nat.min (length s) (window self)).
  assert (Hm : (1 <= m)%nat) by (unfold m; lia).
  assert (Hlen : length recent = m).
  { unfold recent. rewrite trailing_window_length, values_length.
    reflexivity. }
  assert (Hmpos : (0 < of_nat m)%Q) by (apply of_nat_pos; exact Hm).
  assert (Hmnz : ~ (of_nat m == 0)%Q).
  { intro E. rewrite E in Hmpos. exact (Qlt_irrefl _ Hmpos). }
  exists (of_nat (count_less v recent) / of_nat m * 100)%Q.
  exists (of_nat (count_less w recent) / of_nat m * 100)%Q.
  split; [apply calculate_percentile_value; assumption|].
  split; [apply calculate_percentile_value; assumption|].
  assert (Hkv : (count_less v recent <= m)%nat)
    by (rewrite <- Hlen; apply count_less_le).
  assert (Hkw : (count_less w recent <= m)%nat)
    by (rewrite <- Hlen; apply count_less_le).
  split; [apply (fraction_percentage Hkv Hm)|].
  split.
  { apply Qmult_le_compat_r; [|discriminate].
    apply Qmult_le_compat_r.
    - apply of_nat_le. apply count_less_monotone. exact Hvw.
    - apply Qlt_le_weak. apply Qinv_lt_0_compat. exact Hmpos. }
  split; [apply (fraction_percentage Hkw Hm)|].
  split.
  - intro Hmin.
    assert (E : count_less v recent = 0%nat).
    { unfold count_less. clear -Hmin. induction recent as [|x l IH];
        [reflexivity|]. simpl.
      assert (Ex : Qltb x v = false).
      { unfold Qltb. apply negb_false_iff. apply Qle_bool_iff.
        apply Hmin. left. reflexivity. }
      rewrite Ex. apply IH. intros y Hy. apply Hmin. right. exact Hy. }
    rewrite E. unfold of_nat at 1. simpl Z.of_nat. unfold Qdiv.
    rewrite !Qmult_0_l. reflexivity.
  - intro Hmax.
    assert (E : count_less w recent = m).
    { rewrite <- Hlen. unfold count_less. clear -Hmax.
      induction recent as [|x l IH]; [reflexivity|]. simpl.
      assert (Ex : Qltb x w = true)
        by (apply Qltb_lt; apply Hmax; left; reflexivity).
      rewrite Ex. simpl. f_equal. apply IH.
      intros y Hy. apply Hmax. right. exact Hy. }
    rewrite E. field. exact Hmnz.
Qed.

(** ** A new maximum *)






(** ** The service never returns *)

(** X3: [get_stock_percentile] and [get_bond_percentile] return no result,
    whatever the settings, the data source, the symbol and the period.
    Without enough rows they raise the insufficient-data [ValueError]; with
    enough rows (and at least one) they raise the [TypeError] of
    [Series.to_dict('records')]; an empty frame that passes the size check
    (possible only when [min_data_points] is 0) raises [IndexError]. *)
Theorem service_never_returns
        (self : PercentileService) (sqrt64 : Q -> Q)
        (src : string -> string -> option (Series Q)) (sym per : string) :
  (forall r, Service.get_stock_percentile self sqrt64 src sym per <> Ok r) /\
  (forall r, Service.get_bond_percentile self sqrt64 src sym per <> Ok r) /\
  (insufficient self (src sym per) ->
   Service.get_stock_percentile self sqrt64 src sym per
   = Raise (ValueError (Service.insufficient_stock sym)) /\
   Service.get_bond_percentile self sqrt64 src sym per
   = Raise (ValueError (Service.insufficient_bond sym))) /\
  (forall d, src sym per = Some d ->
             (min_data_points self <= length d)%nat ->
             ((1 <= length d)%nat ->
              Service.get_stock_percentile self sqrt64 src sym per
              = Raise (TypeError "unsupported type: <class 'str'>") /\
              Service.get_bond_percentile self sqrt64 src sym per
              = Raise (TypeError "unsupported type: <class 'str'>")) /\
             (d = [] ->
              Service.get_stock_percentile self sqrt64 src sym per
              = Raise IndexError /\
              Service.get_bond_percentile self sqrt64 src sym per
              = Raise IndexError)).
Proof.
  split.
  { intros r E. destruct (stock_raises self sqrt64 src sym per) as (e & He & _).
    rewrite He in E. discriminate. }
  split.
  { intros r E. destruct (bond_raises self sqrt64 src sym per) as (e & He & _).
    rewrite He in E. discriminate. }
  split.
  { intro H. split; [apply stock_insufficient | apply bond_insufficient];
      exact H. }
  intros d E HM. split.
  - intro Hn. split.
    + exact (@stock_sufficient self sqrt64 src sym per d E HM Hn).
    + exact (@bond_sufficient self sqrt64 src sym per d E HM Hn).
  - intros ->. apply Nat.ltb_ge in HM.
    unfold Service.get_stock_percentile, Service.get_bond_percentile.
    rewrite E, HM. split; reflexivity.
Qed.

(** ** Parsing the list of symbols of a batch *)

Lemma chars_of_chars (l : list ascii) : chars (of_chars l) = l.
Proof. induction l as [|c l IH]; [reflexivity|]. simpl. rewrite IH. reflexivity. Qed.

Lemma of_chars_chars (s : string) : of_chars (chars s) = s.
Proof. induction s as [|c s IH]; [reflexivity|]. simpl. rewrite IH. reflexivity. Qed.

(** What [drop_spaces] leaves is the end of the sequence. *)
Lemma drop_spaces_suffix (bw : bool) (l : list ascii) :
  exists w, l = w ++ drop_spaces bw l.
Proof.
  remember (length l) as n eqn:Hn. revert l Hn.
  induction n as [n IH] using (well_founded_induction lt_wf). intros l Hn.
  destruct l as [|a l1]; [exists []; reflexivity|].
  cbn [drop_spaces]. destruct (space1 a).
  { destruct (IH (length l1) ltac:(subst; simpl; lia) l1 eq_refl) as (w & Hw).
    exists (a :: w). simpl. f_equal. exact Hw. }
  destruct l1 as [|b l2]; [exists []; reflexivity|].
  destruct (if bw then space2 b a else space2 a b).
  { destruct (IH (length l2) ltac:(subst; simpl; lia) l2 eq_refl) as (w & Hw).
    exists (a :: b :: w). simpl. do 2 f_equal. exact Hw. }
  destruct l2 as [|c l3]; [exists []; reflexivity|].
  destruct (if bw then space3 c b a else space3 a b c).
  { destruct (IH (length l3) ltac:(subst; simpl; lia) l3 eq_refl) as (w & Hw).
    exists (a :: b :: c :: w). simpl. do 3 f_equal. exact Hw. }
  exists []. reflexivity.
Qed.

(** What [drop_spaces] leaves starts with no white-space character. *)
Lemma drop_spaces_clean (bw : bool) (l : list ascii) :
  starts_with_space bw (drop_spaces bw l) = false.
Proof.
  remember (length l) as n eqn:Hn. revert l Hn.
  induction n as [n IH] using (well_founded_induction lt_wf). intros l Hn.
  destruct l as [|a l1]; [reflexivity|].
  cbn [drop_spaces]. destruct (space1 a) eqn:E1.
  { apply (IH (length l1)); [subst; simpl; lia | reflexivity]. }
  destruct l1 as [|b l2].
  { cbn [starts_with_space]. rewrite E1. reflexivity. }
  destruct (if bw then space2 b a else space2 a b) eqn:E2.
  { apply (IH (length l2)); [subst; simpl; lia | reflexivity]. }
  destruct l2 as [|c l3].
  { cbn [starts_with_space]. rewrite E1, E2. reflexivity. }
  destruct (if bw then space3 c b a else space3 a b c) eqn:E3.
  { apply (IH (length l3)); [subst; simpl; lia | reflexivity]. }
  cbn [starts_with_space]. rewrite E1, E2, E3. reflexivity.
Qed.

Lemma drop_spaces_id (bw : bool) (l : list ascii) :
  starts_with_space bw l = false -> drop_spaces bw l = l.
Proof.
  destruct l as [|a l1]; [reflexivity|].
  cbn [starts_with_space drop_spaces].
  destruct (space1 a); [discriminate|]. cbn [orb].
  destruct l1 as [|b l2]; [reflexivity|].
  destruct (if bw then space2 b a else space2 a b); [discriminate|].
  cbn [orb]. destruct l2 as [|c l3]; [reflexivity|].
  destruct (if bw then space3 c b a else space3 a b c); [discriminate|].
  reflexivity.
Qed.

Lemma starts_with_space_app (bw : bool) (l w : list ascii) :
  starts_with_space bw l = true -> starts_with_space bw (l ++ w) = true.
Proof.
  destruct l as [|a l1]; [discriminate|].
  cbn [starts_with_space app].
  destruct (space1 a); [reflexivity|]. cbn [orb].
  destruct l1 as [|b l2]; [discriminate|]. cbn [app].
  destruct (if bw then space2 b a else space2 a b); [reflexivity|].
  cbn [orb]. destruct l2 as [|c l3]; [discriminate|]. cbn [app].
  trivial.
Qed.

Lemma In_drop_spaces (bw : bool) (l : list ascii) (x : ascii) :
  In x (drop_spaces bw l) -> In x l.
Proof.
  intro H. destruct (drop_spaces_suffix bw l) as (w & Hw).
  rewrite Hw. apply in_or_app. right. exact H.
Qed.

Lemma chars_strip_bytes (s : string) :
  chars (strip s)
  = rev (drop_spaces true (rev (drop_spaces false (chars s)))).
Proof. unfold strip, rstrip, lstrip. rewrite !chars_of_chars. reflexivity. Qed.

Lemma chars_strip (s : string) (x : ascii) :
  In x (chars (strip s)) -> In x (chars s).
Proof.
  rewrite chars_strip_bytes. intro H. apply in_rev in H.
  apply In_drop_spaces in H. apply in_rev in H.
  apply In_drop_spaces in H. exact H.
Qed.

(** A stripped string has no white-space character at either end. *)
Lemma strip_ends (s : string) :
  starts_with_space false (chars (strip s)) = false /\
  starts_with_space true (rev (chars (strip s))) = false.
Proof.
  rewrite chars_strip_bytes.
  set (u := drop_spaces false (chars s)).
  split.
  - destruct (starts_with_space
                false (rev (drop_spaces true (rev u)))) eqn:E; [|reflexivity].
    destruct (drop_spaces_suffix true (rev u)) as (w & Hw).
    assert (Hu : u = rev (drop_spaces true (rev u)) ++ rev w).
    { rewrite <- rev_app_distr, <- Hw, rev_involutive. reflexivity. }
    pose proof (starts_with_space_app false _ (rev w) E) as H.
    rewrite <- Hu in H. unfold u in H. rewrite drop_spaces_clean in H.
    discriminate H.
  - rewrite rev_involutive. apply drop_spaces_clean.
Qed.

Lemma strip_clean (s : string) :
  starts_with_space false (chars s) = false ->
  starts_with_space true (rev (chars s)) = false ->
  strip s = s.
Proof.
  intros H1 H2. unfold strip, rstrip, lstrip.
  rewrite (drop_spaces_id _ _ H1), chars_of_chars.
  rewrite (drop_spaces_id _ _ H2), rev_involutive.
  apply of_chars_chars.
Qed.

Lemma split_comma_pieces (s : string) :
  Forall (fun w => ~ In ","%char (chars w)) (split_comma s).
Proof.
  induction s as [|c s IH]; [repeat constructor; simpl; tauto|].
  simpl. destruct (Ascii.eqb c ",") eqn:E.
  - constructor; [simpl; tauto | exact IH].
  - destruct (split_comma s) as [|w ws].
    + repeat constructor. simpl. intros [H|[]]. subst c.
      rewrite Ascii.eqb_refl in E. discriminate E.
    + inversion IH as [|? ? Hw Hws]; subst. constructor; [|exact Hws].
      simpl. intros [H|H]; [|exact (Hw H)]. subst c.
      rewrite Ascii.eqb_refl in E. discriminate E.
Qed.

(** X5: every symbol that [parse_symbols] extracts from the request is
    non-empty, contains no comma, and neither starts nor ends with a
    white-space character (any of the 29 that [str.strip()] removes); so
    empty fields and fields of blanks never reach the service. *)
Theorem parse_symbols_clean (symbols : string) :
  Forall clean_symbol (parse_symbols symbols).
Proof.
  unfold parse_symbols. apply Forall_forall. intros s Hs.
  apply in_map_iff in Hs. destruct Hs as (w & <- & Hw).
  apply filter_In in Hw. destruct Hw as (Hin & Hne).
  split; [exact Hne|]. split.
  - intro Hc. apply chars_strip in Hc.
    pose proof (split_comma_pieces symbols) as Hall.
    rewrite Forall_forall in Hall. exact (Hall w Hin Hc).
  - apply strip_ends.
Qed.

Lemma split_comma_clean (s : string) :
  ~ In ","%char (chars s) -> split_comma s = [s].
Proof.
  induction s as [|c s IH]; [reflexivity|].
  simpl. intro H.
  destruct (Ascii.eqb c ",") eqn:E.
  - apply Ascii.eqb_eq in E. exfalso. apply H. left. exact E.
  - rewrite IH by (intro Hc; apply H; right; exact Hc). reflexivity.
Qed.

Lemma split_comma_app (s t : string) :
  ~ In ","%char (chars s) ->
  split_comma (s ++ String "," t) = s :: split_comma t.
Proof.
  induction s as [|c s IH]; intro H.
  - reflexivity.
  - simpl. destruct (Ascii.eqb c ",") eqn:E.
    + apply Ascii.eqb_eq in E. exfalso. apply H. left. exact E.
    + rewrite IH by (intro Hc; apply H; right; exact Hc). reflexivity.
Qed.

Lemma split_comma_join (l : list string) :
  l <> [] ->
  Forall (fun s => ~ In ","%char (chars s)) l ->
  split_comma (join_comma l) = l.
Proof.
  induction l as [|s l IH]; intros Hne H; [contradiction|].
  inversion H as [|? ? Hs Hl]; subst.
  destruct l as [|s' l'].
  - simpl. apply split_comma_clean. exact Hs.
  - change (join_comma (s :: s' :: l'))
      with (s ++ String "," (join_comma (s' :: l')))%string.
    rewrite split_comma_app by exact Hs.
    rewrite IH; [reflexivity | discriminate | exact Hl].
Qed.

(** X6: round trip.  Joining clean symbols (non-empty, without comma, with
    no white-space character at either end) with commas and parsing the
    string gives the symbols back, in order and with their repetitions. *)
Theorem parse_symbols_join (l : list string) :
  Forall clean_symbol l -> parse_symbols (join_comma l) = l.
Proof.
  intro H. unfold parse_symbols.
  destruct l as [|s0 l0] eqn:El; [reflexivity|]. rewrite <- El in *.
  rewrite split_comma_join.
  - clear El. induction l as [|s l IH]; [reflexivity|].
    inversion H as [|? ? (Hne & _ & H1 & H2) Hl]; subst.
    pose proof (strip_clean s H1 H2) as Hst.
    simpl. rewrite Hst, Hne. simpl. rewrite Hst. f_equal. apply IH. exact Hl.
  - rewrite El. discriminate.
  - apply Forall_forall. intros s Hs. rewrite Forall_forall in H.
    destruct (H s Hs) as (_ & Hc & _). exact Hc.
Qed.

(** ** Status codes of the stock and bond routes *)

Lemma symbol_rejected (sym : string) :
  (py_len sym < 3)%nat ->
  negb (nonempty sym) || (py_len sym <? 3)%nat = true.
Proof.
  intro H. apply orb_true_iff. right. apply Nat.ltb_lt. exact H.
Qed.

(** X7: the two percentile routes never answer with a result.  A symbol of
    fewer than 3 characters (code points) is answered 500 with the generic
    failure text, whatever the data source holds: the 400 of the format
    check is raised inside the [try] and caught by the last [except]
    clause.  A longer symbol is answered 400 with the message of the
    service when the source has too few rows, and 500 otherwise. *)
Theorem percentile_routes_never_succeed
        (self : PercentileService) (sqrt64 : Q -> Q)
        (src : string -> string -> option (Series Q)) (sym per : string) :
  ((py_len sym < 3)%nat ->
   Stocks.get_stock_percentile self sqrt64 src sym per
   = Raise (HTTPException 500 "获取股票百分位失败") /\
   Bonds.get_bond_percentile self sqrt64 src sym per
   = Raise (HTTPException 500 "获取债券百分位失败")) /\
  ((3 <= py_len sym)%nat ->
   (insufficient self (src sym per) ->
    Stocks.get_stock_percentile self sqrt64 src sym per
    = Raise (HTTPException 400 (Service.insufficient_stock sym)) /\
    Bonds.get_bond_percentile self sqrt64 src sym per
    = Raise (HTTPException 400 (Service.insufficient_bond sym))) /\
   (~ insufficient self (src sym per) ->
    Stocks.get_stock_percentile self sqrt64 src sym per
    = Raise (HTTPException 500 "获取股票百分位失败") /\
    Bonds.get_bond_percentile self sqrt64 src sym per
    = Raise (HTTPException 500 "获取债券百分位失败"))) /\
  (forall resp,
      Stocks.get_stock_percentile self sqrt64 src sym per <> Ok resp /\
      Bonds.get_bond_percentile self sqrt64 src sym per <> Ok resp).
Proof.
  assert (Hshort : (py_len sym < 3)%nat ->
                   Stocks.get_stock_percentile self sqrt64 src sym per
                   = Raise (HTTPException 500 "获取股票百分位失败") /\
                   Bonds.get_bond_percentile self sqrt64 src sym per
                   = Raise (HTTPException 500 "获取债券百分位失败")).
  { intro H. unfold Stocks.get_stock_percentile, Bonds.get_bond_percentile,
      route_percentile.
    rewrite (symbol_rejected sym H). split; reflexivity. }
  assert (Hbad : (3 <= py_len sym)%nat ->
                 insufficient self (src sym per) ->
                 Stocks.get_stock_percentile self sqrt64 src sym per
                 = Raise (HTTPException 400 (Service.insufficient_stock sym))
                 /\
                 Bonds.get_bond_percentile self sqrt64 src sym per
                 = Raise (HTTPException 400 (Service.insufficient_bond sym))).
  { intros H Hi. unfold Stocks.get_stock_percentile,
      Bonds.get_bond_percentile, route_percentile.
    rewrite (symbol_accepted sym H).
    rewrite (stock_insufficient self sqrt64 src sym per Hi).
    rewrite (bond_insufficient self sqrt64 src sym per Hi).
    split; reflexivity. }
  assert (Hgood : (3 <= py_len sym)%nat ->
                  ~ insufficient self (src sym per) ->
                  Stocks.get_stock_percentile self sqrt64 src sym per
                  = Raise (HTTPException 500 "获取股票百分位失败") /\
                  Bonds.get_bond_percentile self sqrt64 src sym per
                  = Raise (HTTPException 500 "获取债券百分位失败")).
  { intros H Hi. unfold Stocks.get_stock_percentile,
      Bonds.get_bond_percentile, route_percentile.
    rewrite (symbol_accepted sym H).
    destruct (insufficient_dec self (src sym per)) as [Hx|(d & E & HM)];
      [contradiction|].
    destruct d as [|r0 d0] eqn:Ed.
    - unfold Service.get_stock_percentile, Service.get_bond_percentile.
      apply Nat.ltb_ge in HM. rewrite E, HM. split; reflexivity.
    - rewrite <- Ed in *.
      assert (Hn : (1 <= length d)%nat) by (rewrite Ed; simpl; lia).
      rewrite (@stock_sufficient self sqrt64 src sym per d E HM Hn).
      rewrite (@bond_sufficient self sqrt64 src sym per d E HM Hn).
      split; reflexivity. }
  split; [exact Hshort|]. split; [intro H; split; [apply Hbad | apply Hgood];
                                  exact H|].
  intro resp.
  destruct (Nat.lt_ge_cases (py_len sym) 3) as [H|H].
  - destruct (Hshort H) as (-> & ->). split; discriminate.
  - destruct (insufficient_dec self (src sym per)) as [Hi|(d & E & HM)].
    + destruct (Hbad H Hi) as (-> & ->). split; discriminate.
    + assert (Hi : ~ insufficient self (src sym per)).
      { rewrite E. simpl. lia. }
      destruct (Hgood H Hi) as (-> & ->). split; discriminate.
Qed.

Lemma route_batch_cases
      (service : string -> string -> result PercentileResult)
      (limit : nat) (m1 m2 m3 symbols per : string) :
  let l := parse_symbols symbols in
  (l = [] ->
   route_batch service limit m1 m2 m3 symbols per
   = Raise (HTTPException 400 m1)) /\
  ((limit < length l)%nat ->
   route_batch service limit m1 m2 m3 symbols per
   = Raise (HTTPException 400 m2)) /\
  (forall d, route_batch service limit m1 m2 m3 symbols per
             <> Raise (HTTPException 500 d)).
Proof.
  cbv zeta. unfold route_batch.
  destruct (parse_symbols symbols) as [|s l'].
  - split; [reflexivity|]. split; [simpl; lia|]. intro d. discriminate.
  - split; [discriminate|]. split.
    + intro H. apply Nat.ltb_lt in H. rewrite H. reflexivity.
    + intro d. destruct (limit <? length (s :: l'))%nat; [discriminate|].
      destruct (batch_loop service per (s :: l') [] []) as [res errs].
      discriminate.
Qed.

(** X8: a batch request whose symbol string holds no symbol (it is empty, or
    made of commas and blanks) is answered 400, and so is one with more than
    20 stocks or more than 10 bonds; in both cases before any symbol is
    looked up.  The batch routes never answer 500. *)
Theorem batch_request_rejected
        (self : PercentileService) (sqrt64 : Q -> Q)
        (stocks bonds : string -> string -> option (Series Q))
        (symbols per : string) :
  let l := parse_symbols symbols in
  (l = [] ->
   Stocks.get_batch_stock_percentiles self sqrt64 stocks symbols per
   = Raise (HTTPException 400 "请提供有效的股票代码") /\
   Bonds.get_batch_bond_percentiles self sqrt64 bonds symbols per
   = Raise (HTTPException 400 "请提供有效的债券代码")) /\
  ((20 < length l)%nat ->
   Stocks.get_batch_stock_percentiles self sqrt64 stocks symbols per
   = Raise (HTTPException 400 "单次最多查询20只股票")) /\
  ((10 < length l)%nat ->
   Bonds.get_batch_bond_percentiles self sqrt64 bonds symbols per
   = Raise (HTTPException 400 "单次最多查询10只债券")) /\
  (forall d,
      Stocks.get_batch_stock_percentiles self sqrt64 stocks symbols per
      <> Raise (HTTPException 500 d) /\
      Bonds.get_batch_bond_percentiles self sqrt64 bonds symbols per
      <> Raise (HTTPException 500 d)).
Proof.
  cbv zeta.
  destruct (@route_batch_cases
              (Service.get_stock_percentile self sqrt64 stocks) 20%nat
              "请提供有效的股票代码" "单次最多查询20只股票"
              "批量获取股票百分位失败" symbols per) as (S1 & S2 & S3).
  destruct (@route_batch_cases
              (Service.get_bond_percentile self sqrt64 bonds) 10%nat
              "请提供有效的债券代码" "单次最多查询10只债券"
              "批量获取债券百分位失败" symbols per) as (B1 & B2 & B3).
  split; [intro H; split; [exact (S1 H) | exact (B1 H)]|].
  split; [exact S2|]. split; [exact B2|].
  intro d. split; [exact (S3 d) | exact (B3 d)].
Qed.

(** ** The body of the trend routes *)

Lemma getitem_first_ok {A : Type} (l : list A) (d : A) :
  (1 <= length l)%nat -> getitem_first l = Ok (nth 0 l d).
Proof. intro H. unfold getitem_first. apply iloc_ok. lia. Qed.

Lemma getitem_last_ok {A : Type} (l : list A) (d : A) :
  (1 <= length l)%nat -> getitem_last l = Ok (last l d).
Proof. intro H. unfold getitem_last. apply iloc_last_ok. exact H. Qed.

(** X9: the code of the stock and bond trend routes around the service
    operation they call, for any behaviour of that operation.  A failure of
    the operation that is no [HTTPException] is answered 500.  A result
    with fewer than 7 rows of history is answered 400.  A result with at
    least 7 rows is answered with that result and a trend computed on its
    last 7 percentiles: the direction is "up" when the last is strictly
    greater than the first and "down" otherwise, never "flat", so equal
    ends are reported "down"; the strength is [|last - first|] rounded to 2
    digits.  The two routes are this code around [get_stock_percentile] and
    [get_bond_percentile]. *)
Theorem trend_route_body_is_two_way
        (service : string -> string -> result PercentileResult)
        (recommend : float64 -> direction -> string) (msg sym : string)
        (days : nat) :
  (forall e,
      service sym (trend_period days) = Raise e ->
      plain_error e ->
      route_trend service recommend msg sym days
      = Raise (HTTPException 500 msg)) /\
  (forall r,
      service sym (trend_period days) = Ok r ->
      let recent :=
        map row_percentile (last_items 7 (historical_percentiles r)) in
      ((length (historical_percentiles r) < 7)%nat ->
       route_trend service recommend msg sym days
       = Raise (HTTPException 400 "数据不足，无法分析趋势")) /\
      ((7 <= length (historical_percentiles r))%nat ->
       exists resp,
         route_trend service recommend msg sym days = Ok resp /\
         fst (data resp) = r /\
         recent_percentiles (snd (data resp)) = recent /\
         length recent = 7%nat /\
         trend (snd (data resp)) <> Flat /\
         (forall p_first p_last : Q,
             getitem_first recent = Ok (Fin p_first) ->
             getitem_last recent = Ok (Fin p_last) ->
             trend (snd (data resp))
             = (if Qltb p_first p_last then Up else Down) /\
             ((p_last == p_first)%Q -> trend (snd (data resp)) = Down) /\
             trend_strength (snd (data resp))
             = round (Fin (Qabs (p_last - p_first))) 2))) /\
  (forall (self : PercentileService) (sqrt64 : Q -> Q)
          (src : string -> string -> option (Series Q)),
      Stocks.get_stock_trend self sqrt64 src sym days
      = route_trend (Service.get_stock_percentile self sqrt64 src)
                    Stocks._generate_recommendation "获取股票趋势失败"
                    sym days /\
      Bonds.get_bond_trend self sqrt64 src sym days
      = route_trend (Service.get_bond_percentile self sqrt64 src)
                    Bonds._generate_bond_recommendation "获取债券趋势失败"
                    sym days).
Proof.
  split.
  { intros e He Hp. exact (route_trend_raises _ _ _ _ _ He Hp). }
  split; [|intros; split; reflexivity].
  intros r Hs. cbv zeta. split.
  - intro Hlen. unfold route_trend. cbv zeta. rewrite Hs. cbn [bind].
    apply Nat.ltb_lt in Hlen. rewrite Hlen. reflexivity.
  - intro Hlen. unfold route_trend. cbv zeta. rewrite Hs. cbn [bind].
    assert (E : (length (historical_percentiles r) <? 7)%nat = false)
      by (apply Nat.ltb_ge; exact Hlen).
    rewrite E.
    set (recent := map row_percentile
                       (last_items 7 (historical_percentiles r))).
    assert (Hrec : length recent = 7%nat).
    { unfold recent. rewrite length_map. apply last_items_length. lia. }
    rewrite (getitem_last_ok recent NaN) by lia.
    rewrite (getitem_first_ok recent NaN) by lia. cbn [bind].
    eexists. split; [reflexivity|]. cbn [data fst snd recent_percentiles
                                          trend trend_strength].
    split; [reflexivity|]. split; [reflexivity|]. split; [exact Hrec|].
    split.
    { destruct (fgt (last recent NaN) (nth 0 recent NaN)); discriminate. }
    intros p_first p_last Hf Hl.
    injection Hf as Hf. injection Hl as Hl. rewrite Hf, Hl.
    cbn [fgt flt fsub lift2 fabs].
    split; [reflexivity|]. split; [|reflexivity].
    intro H. rewrite Qltb_irrefl by (symmetry; exact H). reflexivity.
Qed.

(** ** The analysis routes: asset types and sizes *)



(** ** The analysis routes on a stock or a bond *)

Lemma compare_step_fails (self : PercentileService) (sqrt64 : Q -> Q)
      (stocks bonds : string -> string -> option (Series Q))
      (asset sym : string) :
  fails (Analysis.compare_step self sqrt64 stocks bonds asset sym) = true.
Proof.
  unfold Analysis.compare_step.
  destruct (String.eqb asset "stock").
  - destruct (stock_raises self sqrt64 stocks sym "1y") as (e & -> & _).
    reflexivity.
  - destruct (String.eqb asset "bond"); [|reflexivity].
    destruct (bond_raises self sqrt64 bonds sym "1y") as (e & -> & _).
    reflexivity.
Qed.

(** X12: the correlation route on a first asset that is a stock or a bond
    answers 500, whatever the second asset, the settings, the data and the
    number of days: the service call for the first asset raises, and the
    last [except] clause of the route answers. *)
Theorem correlation_route_answers_500
        (self : PercentileService) (sqrt64 : Q -> Q)
        (stocks bonds : string -> string -> option (Series Q))
        (s1 s2 t1 t2 : string) (days : nat) :
  t1 = "stock"%string \/ t1 = "bond"%string ->
  Analysis.analyze_correlation self sqrt64 stocks bonds s1 s2 t1 t2 days
  = Raise (HTTPException 500 "相关性分析失败").
Proof.
  intro Ht. unfold Analysis.analyze_correlation. cbv zeta.
  unfold Analysis.asset_percentile at 1.
  destruct Ht as [->| ->]; cbn [String.eqb Ascii.eqb Bool.eqb].
  - destruct (stock_raises self sqrt64 stocks s1 (str_of_nat days ++ "d"))
      as (e & -> & Hp).
    cbn [bind]. destruct e; try reflexivity. contradiction.
  - destruct (bond_raises self sqrt64 bonds s1 (str_of_nat days ++ "d"))
      as (e & -> & Hp).
    cbn [bind]. destruct e; try reflexivity. contradiction.
Qed.

(** X13: the comparison route never answers with a comparison.  Fewer than
    2 symbols and more than 10 are answered 400; a request of 2 to 10
    symbols is answered 500 for every asset type: each symbol fails (the
    service raises, or the type is refused) and is recorded as an error,
    the result list stays empty, and the average divides by its length. *)
Theorem compare_route_never_succeeds
        (self : PercentileService) (sqrt64 : Q -> Q)
        (stocks bonds : string -> string -> option (Series Q))
        (symbols : list string) (asset : string) :
  ((length symbols < 2)%nat ->
   Analysis.compare_assets self sqrt64 stocks bonds symbols asset
   = Raise (HTTPException 400 "至少需要2个资产进行比较")) /\
  ((10 < length symbols)%nat ->
   Analysis.compare_assets self sqrt64 stocks bonds symbols asset
   = Raise (HTTPException 400 "最多比较10个资产")) /\
  ((2 <= length symbols <= 10)%nat ->
   Analysis.compare_loop self sqrt64 stocks bonds asset symbols [] []
   = ([], failures_of (Analysis.compare_step self sqrt64 stocks bonds asset)
                      symbols) /\
   map err_symbol
       (failures_of (Analysis.compare_step self sqrt64 stocks bonds asset)
                    symbols) = symbols /\
   Analysis.compare_assets self sqrt64 stocks bonds symbols asset
   = Raise (HTTPException 500 "资产比较失败")) /\
  (forall resp,
      Analysis.compare_assets self sqrt64 stocks bonds symbols asset
      <> Ok resp).
Proof.
  assert (H1 : (length symbols < 2)%nat ->
               Analysis.compare_assets self sqrt64 stocks bonds symbols asset
               = Raise (HTTPException 400 "至少需要2个资产进行比较")).
  { intro H. unfold Analysis.compare_assets.
    apply Nat.ltb_lt in H. rewrite H. reflexivity. }
  assert (H2 : (10 < length symbols)%nat ->
               Analysis.compare_assets self sqrt64 stocks bonds symbols asset
               = Raise (HTTPException 400 "最多比较10个资产")).
  { intro H. unfold Analysis.compare_assets.
    assert (E : (length symbols <? 2)%nat = false)
      by (apply Nat.ltb_ge; lia).
    apply Nat.ltb_lt in H. rewrite E, H. reflexivity. }
  assert (Hloop : Analysis.compare_loop self sqrt64 stocks bonds asset
                                        symbols [] []
                  = ([], failures_of (Analysis.compare_step
                                        self sqrt64 stocks bonds asset)
                                     symbols)).
  { apply (compare_loop_all_fail self sqrt64 stocks bonds asset symbols [] []).
    intros s _. apply compare_step_fails. }
  assert (H3 : (2 <= length symbols <= 10)%nat ->
               Analysis.compare_assets self sqrt64 stocks bonds symbols asset
               = Raise (HTTPException 500 "资产比较失败")).
  { intro H. unfold Analysis.compare_assets.
    assert (E1 : (length symbols <? 2)%nat = false)
      by (apply Nat.ltb_ge; lia).
    assert (E2 : (10 <? length symbols)%nat = false)
      by (apply Nat.ltb_ge; lia).
    rewrite E1, E2, Hloop. reflexivity. }
  split; [exact H1|]. split; [exact H2|]. split.
  - intro H. split; [exact Hloop|]. split; [|exact (H3 H)].
    rewrite failures_of_symbols.
    clear. induction symbols as [|s l IH]; [reflexivity|].
    simpl. rewrite compare_step_fails. rewrite IH. reflexivity.
  - intros resp E.
    destruct (Nat.lt_ge_cases (length symbols) 2) as [Ha|Ha].
    { rewrite (H1 Ha) in E. discriminate. }
    destruct (Nat.lt_ge_cases 10 (length symbols)) as [Hb|Hb].
    { rewrite (H2 Hb) in E. discriminate. }
    rewrite (H3 (conj Ha Hb)) in E. discriminate.
Qed.

(** ** The market routes *)

Lemma average_or_50_ok (l : list MarketItem) :
  exists a, Market.average_or_50 l = Ok a /\ (l = [] -> a = Fin 50).
Proof.
  destruct l as [|x l].
  - exists (Fin 50). split; [reflexivity | reflexivity].
  - unfold Market.average_or_50. rewrite fdiv_count by (simpl; lia).
    eexists. split; [reflexivity | discriminate].
Qed.

Lemma try_each_all_fail {A : Type} (body : string -> result (list A))
      (l : list string) (acc : list A) :
  (forall s, In s l -> fails (body s) = true) -> try_each body l acc = acc.
Proof.
  revert acc. induction l as [|s l IH]; intros acc H; [reflexivity|].
  simpl. pose proof (H s (or_introl eq_refl)) as Hs.
  destruct (body s); [discriminate|].
  apply IH. intros y Hy. apply H. right. exact Hy.
Qed.

(** X14: the heat map is always empty.  The route answers success with no
    item in any of its four lists, whatever the settings and the data:
    every one of the 15 service calls raises and is skipped by the
    [except] clause of its loop. *)
Theorem heatmap_is_empty
        (self : PercentileService) (sqrt64 : Q -> Q)
        (stocks bonds : string -> string -> option (Series Q)) :
  Market.get_market_heatmap self sqrt64 stocks bonds
  = Ok {| success := true;
          data := {| high_percentile := [];
                     medium_percentile := [];
                     low_percentile := [];
                     all_data := [] |};
          message := "获取成功" |}.
Proof.
  unfold Market.get_market_heatmap. cbv zeta.
  assert (Hs : try_each (Market.stock_item self sqrt64 stocks)
                        COMMON_STOCKS [] = []).
  { apply try_each_all_fail. intros s _. unfold Market.stock_item.
    destruct (stock_raises self sqrt64 stocks s "1y") as (e & -> & _).
    reflexivity. }
  rewrite Hs.
  assert (Hb : try_each (Market.bond_item self sqrt64 bonds)
                        COMMON_BONDS [] = []).
  { apply try_each_all_fail. intros s _. unfold Market.bond_item.
    destruct (bond_raises self sqrt64 bonds s "1y") as (e & -> & _).
    reflexivity. }
  rewrite Hb. reflexivity.
Qed.

(** X15: the market-summary route always succeeds: the averages are guarded
    against an empty list.  When none of the first 5 common stocks (first 3
    common bonds) is served, that side's average is 50 and its sentiment is
    "正常" (normal). *)
Theorem market_summary_never_fails
        (self : PercentileService) (sqrt64 : Q -> Q)
        (stocks bonds : string -> string -> option (Series Q)) :
  exists resp,
    Market.get_market_summary self sqrt64 stocks bonds = Ok resp /\
    success resp = true /\
    ((forall s, In s (firstn 5 COMMON_STOCKS) ->
                fails (Service.get_stock_percentile self sqrt64 stocks s "1y")
                = true) ->
     side_items (stock_market (data resp)) = [] /\
     side_average (stock_market (data resp)) = round (Fin 50) 2 /\
     side_sentiment (stock_market (data resp)) = "正常"%string) /\
    ((forall s, In s (firstn 3 COMMON_BONDS) ->
                fails (Service.get_bond_percentile self sqrt64 bonds s "1y")
                = true) ->
     side_items (bond_market (data resp)) = [] /\
     side_average (bond_market (data resp)) = round (Fin 50) 2 /\
     side_sentiment (bond_market (data resp)) = "正常"%string).
Proof.
  unfold Market.get_market_summary. cbv zeta.
  set (sr := try_each (Market.stock_item self sqrt64 stocks)
                      (firstn 5 COMMON_STOCKS) []).
  set (br := try_each (Market.bond_item self sqrt64 bonds)
                      (firstn 3 COMMON_BONDS) []).
  destruct (average_or_50_ok sr) as (sa & Hsa & Hs0).
  destruct (average_or_50_ok br) as (ba & Hba & Hb0).
  rewrite Hsa, Hba. cbn [bind].
  eexists. split; [reflexivity|].
  cbn [success data stock_market bond_market side_items side_average
       side_sentiment].
  split; [reflexivity|]. split.
  - intro Hall.
    assert (E : sr = []).
    { unfold sr. apply try_each_all_fail. intros s Hs.
      specialize (Hall s Hs). unfold Market.stock_item.
      destruct (Service.get_stock_percentile self sqrt64 stocks s "1y");
        [discriminate | reflexivity]. }
    rewrite (Hs0 E). split; [exact E|]. split; reflexivity.
  - intro Hall.
    assert (E : br = []).
    { unfold br. apply try_each_all_fail. intros s Hs.
      specialize (Hall s Hs). unfold Market.bond_item.
      destruct (Service.get_bond_percentile self sqrt64 bonds s "1y");
        [discriminate | reflexivity]. }
    rewrite (Hb0 E). split; [exact E|]. split; reflexivity.
Qed.

(** X16: the overall sentiment agrees with the two per-market sentiments: it
    is "市场整体处于正常区间" (both normal) exactly when the stock sentiment
    and the bond sentiment are both "正常"; it says "整体处于高位" exactly when
    both are "高位" and "整体处于低位" exactly when both are "低位". *)
Theorem market_sentiment_consistent (stock_p bond_p : float64) :
  (Market._generate_market_sentiment stock_p bond_p
   = "市场整体处于正常区间"%string <->
   Market._get_percentile_sentiment stock_p = "正常"%string /\
   Market._get_percentile_sentiment bond_p = "正常"%string) /\
  (Market._generate_market_sentiment stock_p bond_p
   = "市场整体处于高位，注意风险"%string <->
   Market._get_percentile_sentiment stock_p = "高位"%string /\
   Market._get_percentile_sentiment bond_p = "高位"%string) /\
  (Market._generate_market_sentiment stock_p bond_p
   = "市场整体处于低位，可能存在机会"%string <->
   Market._get_percentile_sentiment stock_p = "低位"%string /\
   Market._get_percentile_sentiment bond_p = "低位"%string).
Proof.
  unfold Market._generate_market_sentiment, Market._get_percentile_sentiment.
  assert (Hex : forall a : float64,
             fgt a (Fin 80) = true -> flt a (Fin 20) = false).
  { intros [q|]; simpl; [|discriminate]. intro H.
    apply Qltb_lt in H. unfold Qltb. apply negb_false_iff.
    apply Qle_bool_iff. apply Qlt_le_weak.
    apply (Qlt_trans _ 80); [reflexivity | exact H]. }
  destruct (fgt stock_p (Fin 80)) eqn:S1;
    destruct (flt stock_p (Fin 20)) eqn:S2;
    destruct (fgt bond_p (Fin 80)) eqn:B1;
    destruct (flt bond_p (Fin 20)) eqn:B2;
    try (rewrite (Hex _ S1) in S2; discriminate S2);
    try (rewrite (Hex _ B1) in B2; discriminate B2);
    simpl;
    (split; [|split]);
    (split; [intro H; try discriminate H; split; reflexivity
            | intros [H1 H2]; try discriminate H1; try discriminate H2;
              reflexivity]).
Qed.

(** ** The market overview *)

Lemma dict_set_keys {V : Type} (k : string) (v : V) (d : list (string * V)) :
  ~ In k (map fst d) -> map fst (dict_set k v d) = map fst d ++ [k].
Proof.
  induction d as [|[k' v'] d IH]; intro H; [reflexivity|].
  simpl. destruct (String.eqb k k') eqn:E.
  - apply String.eqb_eq in E. exfalso. apply H. left. symmetry. exact E.
  - simpl. f_equal. apply IH. intro Hk. apply H. right. exact Hk.
Qed.

Lemma dict_set_values {V : Type} (P : V -> Prop) (k : string) (v : V)
      (d : list (string * V)) :
  P v -> Forall (fun kv => P (snd kv)) d ->
  Forall (fun kv => P (snd kv)) (dict_set k v d).
Proof.
  intros Hv. induction d as [|[k' v'] d IH]; intro H.
  - repeat constructor. exact Hv.
  - inversion H as [|? ? Hh Ht]; subst. simpl.
    destruct (String.eqb k k').
    + constructor; [exact Hv | exact Ht].
    + constructor; [exact Hh | apply IH; exact Ht].
Qed.

Lemma overview_step_keys (self : PercentileService)
      (src : string -> string -> option (Series Q))
      (md : list (string * IndexQuote)) (index : string) :
  ~ In index (map fst md) ->
  map fst (MarketService.overview_step self src md index)
  = map fst md ++ (if has_rows src index then [index] else []).
Proof.
  intro H. unfold MarketService.overview_step, has_rows.
  destruct (src index "1y"%string) as [d|];
    [|simpl; rewrite app_nil_r; reflexivity].
  destruct (0 <? length d)%nat eqn:E;
    [|simpl; rewrite app_nil_r; reflexivity].
  apply Nat.ltb_lt in E.
  rewrite (iloc_last_ok d (0%Z, 0%Q)) by lia. simpl.
  apply dict_set_keys. exact H.
Qed.

Lemma overview_loop_keys (self : PercentileService)
      (src : string -> string -> option (Series Q))
      (l : list string) (md : list (string * IndexQuote)) :
  NoDup l -> (forall k, In k l -> ~ In k (map fst md)) ->
  map fst (fold_left (MarketService.overview_step self src) l md)
  = map fst md ++ filter (has_rows src) l.
Proof.
  revert md. induction l as [|k l IH]; intros md Hnd Hdis.
  - simpl. rewrite app_nil_r. reflexivity.
  - inversion Hnd as [|? ? Hk Hl]; subst. simpl fold_left.
    rewrite IH; [|exact Hl|].
    + rewrite overview_step_keys by (apply Hdis; left; reflexivity).
      rewrite <- app_assoc. simpl filter.
      destruct (has_rows src k); reflexivity.
    + intros k' Hk' Hin.
      rewrite overview_step_keys in Hin by (apply Hdis; left; reflexivity).
      apply in_app_or in Hin. destruct Hin as [Hin|Hin].
      * exact (Hdis k' (or_intror Hk') Hin).
      * destruct (has_rows src k); [|contradiction].
        destruct Hin as [<-|[]]. exact (Hk Hk').
Qed.

Lemma overview_loop_percentages (self : PercentileService)
      (src : string -> string -> option (Series Q))
      (l : list string) (md : list (string * IndexQuote)) :
  (1 <= window self)%nat ->
  Forall (fun kv => is_percentage (quote_percentile (snd kv))) md ->
  Forall (fun kv => is_percentage (quote_percentile (snd kv)))
         (fold_left (MarketService.overview_step self src) l md).
Proof.
  intro HW. revert md. induction l as [|k l IH]; intros md H; [exact H|].
  simpl. apply IH. unfold MarketService.overview_step.
  destruct (src k "1y"%string) as [d|]; [|exact H].
  destruct (0 <? length d)%nat eqn:E; [|exact H].
  apply Nat.ltb_lt in E.
  rewrite (iloc_last_ok d (0%Z, 0%Q)) by lia. simpl.
  apply (dict_set_values
           (fun q => is_percentage (quote_percentile q))); [|exact H].
  simpl. apply round_percentage.
  apply calculate_percentile_is_percentage; [exact HW | lia].
Qed.

(** X17: the market overview of the service never raises and lists, in the
    order of its five indices, exactly those for which the source returns at
    least one row: [min_data_points] is not checked here, so an index that
    [get_stock_percentile] rejects as insufficient is still listed.  For a
    positive window every listed percentile is in [0, 100]. *)
Theorem market_overview_lists_every_index_with_rows
        (self : PercentileService)
        (src : string -> string -> option (Series Q)) :
  exists ov,
    MarketService.get_market_overview self src = Ok ov /\
    map fst (market_data ov)
    = filter (has_rows src) MarketService.indices /\
    (forall index,
        In index (map fst (market_data ov)) <->
        In index MarketService.indices /\
        exists d, src index "1y"%string = Some d /\ (1 <= length d)%nat) /\
    ((1 <= window self)%nat ->
     Forall (fun kv => is_percentage (quote_percentile (snd kv)))
            (market_data ov)).
Proof.
  unfold MarketService.get_market_overview, try_except. cbv zeta.
  eexists. split; [reflexivity|]. cbn [market_data].
  assert (Hkeys :
            map fst (fold_left (MarketService.overview_step self src)
                               MarketService.indices [])
            = filter (has_rows src) MarketService.indices).
  { rewrite overview_loop_keys; [reflexivity | | intros k _ []].
    unfold MarketService.indices.
    repeat (constructor;
            [simpl; intro H;
             repeat (destruct H as [H|H]; [discriminate H|]); exact H|]).
    constructor. }
  split; [exact Hkeys|]. split.
  - intro index. rewrite Hkeys, filter_In. unfold has_rows.
    split.
    + intros (Hin & Hrows). split; [exact Hin|].
      destruct (src index "1y"%string) as [d|]; [|discriminate Hrows].
      exists d. split; [reflexivity|]. apply Nat.ltb_lt in Hrows. lia.
    + intros (Hin & d & Hd & Hn). split; [exact Hin|].
      rewrite Hd. apply Nat.ltb_lt. lia.
  - intro HW. apply overview_loop_percentages; [exact HW | constructor].
Qed.

(** ** Investment opportunities *)

Lemma q_sum_snoc (l : list Q) (x : Q) : q_sum (l ++ [x]) = (q_sum l + x)%Q.
Proof. unfold q_sum. rewrite fold_left_app. reflexivity. Qed.

(** X20: the opportunities route always answers that there is none: both
    lists are empty and the summary reads that the market shows no clear
    opportunity, whatever the settings and the data, because every service
    call raises and is skipped. *)
Theorem market_opportunities_are_none
        (self : PercentileService) (sqrt64 : Q -> Q)
        (stocks bonds : string -> string -> option (Series Q)) :
  Market.get_market_opportunities self sqrt64 stocks bonds
  = Ok {| success := true;
          data := {| opp_stocks := [];
                     opp_bonds := [];
                     opp_summary := "当前市场无明显投资机会" |};
          message := "获取成功" |}.
Proof.
  unfold Market.get_market_opportunities. cbv zeta.
  assert (Hs : try_each (Market.stock_opportunity self sqrt64 stocks)
                        COMMON_STOCKS [] = []).
  { apply try_each_all_fail. intros s _. unfold Market.stock_opportunity.
    destruct (stock_raises self sqrt64 stocks s "1y") as (e & -> & _).
    reflexivity. }
  assert (Hb : try_each (Market.bond_opportunity self sqrt64 bonds)
                        COMMON_BONDS [] = []).
  { apply try_each_all_fail. intros s _. unfold Market.bond_opportunity.
    destruct (bond_raises self sqrt64 bonds s "1y") as (e & -> & _).
    reflexivity. }
  rewrite Hs, Hb. reflexivity.
Qed.

(** ** The summary of the market overview *)

Lemma fold_fadd_NaN (l : list float64) : fold_left fadd l NaN = NaN.
Proof. induction l as [|a l IH]; [reflexivity | exact IH]. Qed.

Lemma fold_fadd_finite (l : list float64) (a : float64) (s : Q) :
  fold_left fadd l a = Fin s -> exists qs, l = map Fin qs.
Proof.
  revert a. induction l as [|x l IH]; intros a H.
  - exists []. reflexivity.
  - simpl in H. destruct x as [q|].
    + destruct (IH _ H) as (qs & ->). exists (q :: qs). reflexivity.
    + destruct a; simpl in H; rewrite fold_fadd_NaN in H; discriminate.
Qed.

Lemma of_nat_succ (n : nat) : (of_nat (S n) == of_nat n + 1)%Q.
Proof.
  unfold of_nat. rewrite Nat2Z.inj_succ, <- Z.add_1_r, inject_Z_plus.
  reflexivity.
Qed.

Lemma q_sum_le (c : Q) (l : list Q) :
  Forall (fun q => q <= c)%Q l -> (q_sum l <= of_nat (length l) * c)%Q.
Proof.
  induction l as [|x l IH] using rev_ind; intro H.
  - simpl. unfold q_sum, of_nat. simpl. ring_simplify. apply Qle_refl.
  - apply Forall_app in H. destruct H as [Hl Hx]. inversion Hx; subst.
    rewrite q_sum_snoc, length_app. simpl length.
    replace (length l + 1)%nat with (S (length l)) by lia.
    rewrite of_nat_succ.
    setoid_replace ((of_nat (length l) + 1) * c)%Q
      with (of_nat (length l) * c + c)%Q by ring.
    apply Qplus_le_compat; [apply IH; exact Hl | assumption].
Qed.

Lemma q_sum_ge (c : Q) (l : list Q) :
  Forall (fun q => c <= q)%Q l -> (of_nat (length l) * c <= q_sum l)%Q.
Proof.
  induction l as [|x l IH] using rev_ind; intro H.
  - simpl. unfold q_sum, of_nat. simpl. ring_simplify. apply Qle_refl.
  - apply Forall_app in H. destruct H as [Hl Hx]. inversion Hx; subst.
    rewrite q_sum_snoc, length_app. simpl length.
    replace (length l + 1)%nat with (S (length l)) by lia.
    rewrite of_nat_succ.
    setoid_replace ((of_nat (length l) + 1) * c)%Q
      with (of_nat (length l) * c + c)%Q by ring.
    apply Qplus_le_compat; [apply IH; exact Hl | assumption].
Qed.

(** A mean above [c] needs an element above [c], a mean below [c] an element
    below [c]. *)
Lemma mean_above (c : Q) (l : list Q) :
  (1 <= length l)%nat ->
  (c < q_sum l / of_nat (length l))%Q -> exists q, In q l /\ (c < q)%Q.
Proof.
  intros Hn H.
  destruct (Forall_Exists_dec (fun q => q <= c)%Q
              (fun q => match Qlt_le_dec c q with
                        | left A => right (Qlt_not_le _ _ A)
                        | right B => left B
                        end) l) as [F|E].
  - exfalso. apply q_sum_le in F.
    apply (Qlt_not_le _ _ H). apply Qle_shift_div_r.
    + apply of_nat_pos. exact Hn.
    + setoid_replace (c * of_nat (length l))%Q
        with (of_nat (length l) * c)%Q by ring.
      exact F.
  - apply Exists_exists in E. destruct E as (q & Hq & Hc).
    exists q. split; [exact Hq | apply Qnot_le_lt; exact Hc].
Qed.

Lemma mean_below (c : Q) (l : list Q) :
  (1 <= length l)%nat ->
  (q_sum l / of_nat (length l) < c)%Q -> exists q, In q l /\ (q < c)%Q.
Proof.
  intros Hn H.
  destruct (Forall_Exists_dec (fun q => c <= q)%Q
              (fun q => match Qlt_le_dec q c with
                        | left A => right (Qlt_not_le _ _ A)
                        | right B => left B
                        end) l) as [F|E].
  - exfalso. apply q_sum_ge in F.
    apply (Qlt_not_le _ _ H). apply Qle_shift_div_l.
    + apply of_nat_pos. exact Hn.
    + setoid_replace (c * of_nat (length l))%Q
        with (of_nat (length l) * c)%Q by ring.
      exact F.
  - apply Exists_exists in E. destruct E as (q & Hq & Hc).
    exists q. split; [exact Hq | apply Qnot_le_lt; exact Hc].
Qed.

Lemma np_mean_finite (l : list float64) (m : Q) :
  (1 <= length l)%nat ->
  np_mean l = Fin m ->
  exists qs, l = map Fin qs /\ m = (q_sum qs / of_nat (length qs))%Q.
Proof.
  intros Hn H. unfold np_mean in H.
  destruct (py_sum l) as [s|] eqn:E; [|discriminate].
  destruct (fold_fadd_finite _ _ E) as (qs & ->).
  rewrite py_sum_Fin in E. inversion E; subst s.
  rewrite length_map in *. unfold np_div in H.
  rewrite (of_nat_eqb_0 Hn) in H. inversion H.
  exists qs. split; reflexivity.
Qed.

(** X21: the summary line of the market overview.  It reads that there is no
    market data exactly when the dictionary is empty, and it is never the
    text of the exception handler.  The high (low) text is answered only when
    the mean of the percentiles is above 80 (below 20), so only when at
    least one index is itself above 80 (below 20); with one NaN percentile
    the normal text is answered. *)
Theorem market_summary_needs_an_extreme_index
        (md : list (string * IndexQuote)) :
  let s := MarketService._generate_market_summary md in
  (s = "暂无市场数据"%string <-> md = []) /\
  s <> "市场数据异常"%string /\
  (s = "市场处于高位，注意风险"%string ->
   exists kv, In kv md /\ fgt (quote_percentile (snd kv)) (Fin 80) = true) /\
  (s = "市场处于低位，可能存在机会"%string ->
   exists kv, In kv md /\ flt (quote_percentile (snd kv)) (Fin 20) = true) /\
  ((exists kv, In kv md /\ quote_percentile (snd kv) = NaN) ->
   s = "市场处于正常区间"%string).
Proof.
  cbv zeta. unfold MarketService._generate_market_summary.
  destruct md as [|kv0 md0].
  { simpl. split; [split; reflexivity|]. split; [discriminate|].
    split; [discriminate|]. split; [discriminate|].
    intros (kv & [] & _). }
  set (md := kv0 :: md0).
  set (ps := map (fun kv => quote_percentile (snd kv)) md).
  assert (Hn : (1 <= length ps)%nat) by (unfold ps, md; simpl; lia).
  assert (Hex : forall (P : Q -> Prop) (test : float64 -> bool) qs,
             ps = map Fin qs ->
             (forall q, P q -> test (Fin q) = true) ->
             (exists q, In q qs /\ P q) ->
             exists kv, In kv md /\ test (quote_percentile (snd kv)) = true).
  { intros P test qs Hqs Ht (q & Hq & HP).
    assert (Hin : In (Fin q) ps) by (rewrite Hqs; apply in_map; exact Hq).
    unfold ps in Hin. apply in_map_iff in Hin.
    destruct Hin as (kv & Hkv & Hmd). exists kv.
    split; [exact Hmd|]. rewrite Hkv. apply Ht. exact HP. }
  destruct (np_mean ps) as [m|] eqn:Em.
  - destruct (@np_mean_finite ps m Hn Em) as (qs & Hqs & ->).
    assert (Hlen : (1 <= length qs)%nat).
    { rewrite <- (length_map Fin), <- Hqs. exact Hn. }
    unfold try_default.
    destruct (fgt (Fin (q_sum qs / of_nat (length qs))) (Fin 80)) eqn:G.
    + split; [split; discriminate|]. split; [discriminate|].
      split.
      * intros _. unfold fgt in G. simpl in G. apply Qltb_lt in G.
        apply (Hex (fun q => 80 < q)%Q (fun a => fgt a (Fin 80)) qs Hqs).
        { intros q Hq. unfold fgt. simpl. apply Qltb_lt. exact Hq. }
        apply mean_above; assumption.
      * split; [discriminate|].
        intros (kv & Hkv & HN). exfalso.
        assert (Hin : In NaN ps).
        { unfold ps. rewrite <- HN.
          apply (in_map (fun kv => quote_percentile (snd kv))). exact Hkv. }
        rewrite Hqs in Hin. apply in_map_iff in Hin.
        destruct Hin as (q & Hq & _). discriminate.
    + destruct (flt (Fin (q_sum qs / of_nat (length qs))) (Fin 20)) eqn:L.
      * split; [split; discriminate|]. split; [discriminate|].
        split; [discriminate|]. split.
        { intros _. simpl in L. apply Qltb_lt in L.
          apply (Hex (fun q => q < 20)%Q (fun a => flt a (Fin 20)) qs Hqs).
          { intros q Hq. simpl. apply Qltb_lt. exact Hq. }
          apply mean_below; assumption. }
        intros (kv & Hkv & HN). exfalso.
        assert (Hin : In NaN ps).
        { unfold ps. rewrite <- HN.
          apply (in_map (fun kv => quote_percentile (snd kv))). exact Hkv. }
        rewrite Hqs in Hin. apply in_map_iff in Hin.
        destruct Hin as (q & Hq & _). discriminate.
      * split; [split; discriminate|]. split; [discriminate|].
        split; [discriminate|]. split; [discriminate|].
        intros _. reflexivity.
  - unfold try_default. simpl.
    split; [split; discriminate|]. split; [discriminate|].
    split; [discriminate|]. split; [discriminate|].
    intros _. reflexivity.
Qed.

(** ** The texts of the correlation analysis *)









(** ** The clamp of the correlation, on doubles *)

(** X23: whenever [_calculate_correlation] returns, for any two lists of
    doubles (NaN and infinities included) and any [pow], the value is 1, or
    -1, or a double strictly between them: the clamp
    [max(-1.0, min(1.0, c))] turns a NaN into 1.0, and the early returns
    are 0.0. *)
Theorem correlation_result_is_clamped
        (pow : float -> float -> result float) (x y : list float)
        (r : float) :
  Binary64.Analysis._calculate_correlation pow x y = Ok r ->
  r = 1%float \/ r = (-1)%float \/
  (PrimFloat.ltb (-1) r = true /\ PrimFloat.ltb r 1 = true).
Proof.
  intro H. unfold Binary64.Analysis._calculate_correlation in H.
  assert (Hzero : PrimFloat.ltb (-1) 0 = true /\ PrimFloat.ltb 0 1 = true)
    by (split; reflexivity).
  destruct (negb (length x =? length y)%nat);
    [injection H as <-; right; right; exact Hzero|].
  destruct (length x <? 2)%nat;
    [injection H as <-; right; right; exact Hzero|].
  repeat match type of H with
         | bind ?m _ = Ok _ =>
             destruct m; cbn [bind] in H; [|discriminate H]
         end.
  match type of H with
  | (if ?b then _ else _) = _ =>
      destruct b; [injection H as <-; right; right; exact Hzero|]
  end.
  repeat match type of H with
         | bind ?m _ = Ok _ =>
             destruct m; cbn [bind] in H; [|discriminate H]
         end.
  injection H as <-.
  unfold Binary64.Analysis.py_max, Binary64.Analysis.py_min.
  match goal with
  | |- context [PrimFloat.ltb ?c 1] => destruct (PrimFloat.ltb c 1) eqn:E1
  end.
  - match goal with
    | |- context [PrimFloat.ltb (-1) ?c] =>
        destruct (PrimFloat.ltb (-1) c) eqn:E2
    end.
    + right. right. split; assumption.
    + right. left. reflexivity.
  - left. reflexivity.
Qed.

(** ** The further properties at concrete inputs *)

Lemma calculate_percentile_monotone_witness :
  (1 <= window small_service)%nat /\
  (1 <= length ten_days)%nat /\
  (3 <= 7)%Q /\
  exists p q,
    Service._calculate_percentile small_service ten_days 3 = Fin p /\
    Service._calculate_percentile small_service ten_days 7 = Fin q /\
    (0 <= p)%Q /\ (p <= q)%Q /\ (q <= 100)%Q /\ (p == 0)%Q.
Proof.
  assert (H1 : (1 <= window small_service)%nat) by (simpl; lia).
  assert (H2 : (1 <= length ten_days)%nat) by (simpl; lia).
  assert (H3 : (3 <= 7)%Q) by (unfold Qle; simpl; lia).
  split; [exact H1|]. split; [exact H2|]. split; [exact H3|].
  destruct (@calculate_percentile_monotone small_service ten_days 3 7
              H1 H2 H3) as (p & q & Hp & Hq & H0 & Hpq & H100 & Hlow & _).
  exists p, q. split; [exact Hp|]. split; [exact Hq|]. split; [exact H0|].
  split; [exact Hpq|]. split; [exact H100|].
  apply Hlow. intros x Hx. simpl in Hx.
  repeat (destruct Hx as [<-|Hx]; [unfold Qle; simpl; lia|]). contradiction.
Defined.


Lemma service_never_returns_witness :
  insufficient small_service (short_for "000002.SZ" "000002.SZ" "1y") /\
  (min_data_points small_service <= length (daily (rising 12)))%nat /\
  (1 <= length (daily (rising 12)))%nat /\
  Service.get_stock_percentile small_service sqrt_approx
                               (short_for "000002.SZ") "000002.SZ" "1y"
  = Raise (ValueError (Service.insufficient_stock "000002.SZ")) /\
  Service.get_stock_percentile small_service sqrt_approx
                               (short_for "000002.SZ") "600519.SH" "1y"
  = Raise (TypeError "unsupported type: <class 'str'>") /\
  Service.get_bond_percentile small_service sqrt_approx
                              (short_for "000002.SZ") "019654.SH" "1y"
  = Raise (TypeError "unsupported type: <class 'str'>").
Proof.
  assert (H1 : insufficient small_service
                            (short_for "000002.SZ" "000002.SZ" "1y"))
    by (simpl; lia).
  assert (H2 : (min_data_points small_service
                <= length (daily (rising 12)))%nat) by (simpl; lia).
  assert (H3 : (1 <= length (daily (rising 12)))%nat) by (simpl; lia).
  split; [exact H1|]. split; [exact H2|]. split; [exact H3|].
  split.
  { destruct (service_never_returns
                small_service sqrt_approx (short_for "000002.SZ")
                "000002.SZ" "1y") as (_ & _ & Hbad & _).
    exact (proj1 (Hbad H1)). }
  split.
  { destruct (service_never_returns
                small_service sqrt_approx (short_for "000002.SZ")
                "600519.SH" "1y") as (_ & _ & _ & Hgood).
    destruct (Hgood (daily (rising 12)) eq_refl H2) as (Hrows & _).
    exact (proj1 (Hrows H3)). }
  destruct (service_never_returns
              small_service sqrt_approx (short_for "000002.SZ")
              "019654.SH" "1y") as (_ & _ & _ & Hgood).
  destruct (Hgood (daily (rising 12)) eq_refl H2) as (Hrows & _).
  exact (proj2 (Hrows H3)).
Defined.

Lemma parse_symbols_join_witness :
  Forall clean_symbol ["000001.SZ"; "贵州茅台"; "000001.SZ"]%string /\
  parse_symbols "000001.SZ,贵州茅台,000001.SZ"
  = ["000001.SZ"; "贵州茅台"; "000001.SZ"]%string.
Proof.
  assert (H : Forall clean_symbol
                     ["000001.SZ"; "贵州茅台"; "000001.SZ"]%string).
  { repeat constructor; vm_compute; intuition discriminate. }
  split; [exact H|].
  exact (parse_symbols_join H).
Defined.

Lemma percentile_routes_never_succeed_witness :
  (py_len "中" < 3)%nat /\
  (3 <= py_len "000002.SZ")%nat /\
  insufficient small_service (short_for "000002.SZ" "000002.SZ" "1y") /\
  ~ insufficient small_service (short_for "000002.SZ" "600519.SH" "1y") /\
  Stocks.get_stock_percentile small_service sqrt_approx
                              (short_for "000002.SZ") "中" "1y"
  = Raise (HTTPException 500 "获取股票百分位失败") /\
  Bonds.get_bond_percentile small_service sqrt_approx
                            (short_for "000002.SZ") "000002.SZ" "1y"
  = Raise (HTTPException 400 (Service.insufficient_bond "000002.SZ")) /\
  Stocks.get_stock_percentile small_service sqrt_approx
                              (short_for "000002.SZ") "600519.SH" "1y"
  = Raise (HTTPException 500 "获取股票百分位失败").
Proof.
  assert (H1 : (py_len "中" < 3)%nat) by (simpl; lia).
  assert (H2 : (3 <= py_len "000002.SZ")%nat) by (simpl; lia).
  assert (H2' : (3 <= py_len "600519.SH")%nat) by (simpl; lia).
  assert (H3 : insufficient small_service
                            (short_for "000002.SZ" "000002.SZ" "1y"))
    by (simpl; lia).
  assert (H4 : ~ insufficient small_service
                              (short_for "000002.SZ" "600519.SH" "1y"))
    by (simpl; lia).
  split; [exact H1|]. split; [exact H2|]. split; [exact H3|].
  split; [exact H4|].
  split.
  { destruct (percentile_routes_never_succeed
                small_service sqrt_approx (short_for "000002.SZ")
                "中" "1y") as (Hshort & _).
    exact (proj1 (Hshort H1)). }
  split.
  { destruct (percentile_routes_never_succeed
                small_service sqrt_approx (short_for "000002.SZ")
                "000002.SZ" "1y") as (_ & Hlong & _).
    destruct (Hlong H2) as (Hbad & _). exact (proj2 (Hbad H3)). }
  destruct (percentile_routes_never_succeed
              small_service sqrt_approx (short_for "000002.SZ")
              "600519.SH" "1y") as (_ & Hlong & _).
  destruct (Hlong H2') as (_ & Hgood). exact (proj1 (Hgood H4)).
Defined.

Lemma batch_request_rejected_witness :
  parse_symbols " , ,, " = [] /\
  (10 < length (parse_symbols "1,2,3,4,5,6,7,8,9,10,11"))%nat /\
  Stocks.get_batch_stock_percentiles small_service sqrt_approx
                                     (always (daily (rising 12))) " , ,, " "1y"
  = Raise (HTTPException 400 "请提供有效的股票代码") /\
  Bonds.get_batch_bond_percentiles small_service sqrt_approx
                                   (always (daily (rising 12)))
                                   "1,2,3,4,5,6,7,8,9,10,11" "1y"
  = Raise (HTTPException 400 "单次最多查询10只债券").
Proof.
  assert (H1 : parse_symbols " , ,, " = []) by reflexivity.
  assert (H2 : (10 < length (parse_symbols "1,2,3,4,5,6,7,8,9,10,11"))%nat)
    by (simpl; lia).
  split; [exact H1|]. split; [exact H2|].
  split.
  - destruct (batch_request_rejected
                small_service sqrt_approx (always (daily (rising 12)))
                (always (daily (rising 12))) " , ,, " "1y")
      as (Hempty & _).
    exact (proj1 (Hempty H1)).
  - destruct (batch_request_rejected
                small_service sqrt_approx (always (daily (rising 12)))
                (always (daily (rising 12)))
                "1,2,3,4,5,6,7,8,9,10,11" "1y")
      as (_ & _ & Hmany & _).
    exact (Hmany H2).
Defined.

Lemma trend_route_body_is_two_way_witness :
  stub_service "000002.SZ" "600519.SH" (trend_period 30)
  = Ok (stub_result "600519.SH" "30d") /\
  (7 <= length (historical_percentiles (stub_result "600519.SH" "30d")))%nat /\
  exists resp,
    route_trend (stub_service "000002.SZ") Stocks._generate_recommendation
                "获取股票趋势失败" "600519.SH" 30 = Ok resp /\
    recent_percentiles (snd (data resp)) = repeat (Fin 100) 7 /\
    trend (snd (data resp)) = Down /\
    trend_strength (snd (data resp)) = round (Fin (Qabs (100 - 100))) 2.
Proof.
  assert (H1 : stub_service "000002.SZ" "600519.SH" (trend_period 30)
               = Ok (stub_result "600519.SH" "30d")) by reflexivity.
  assert (H2 : (7 <= length (historical_percentiles
                               (stub_result "600519.SH" "30d")))%nat)
    by (simpl; lia).
  split; [exact H1|]. split; [exact H2|].
  destruct (trend_route_body_is_two_way
              (stub_service "000002.SZ") Stocks._generate_recommendation
              "获取股票趋势失败" "600519.SH" 30) as (_ & Hbody & _).
  destruct (Hbody _ H1) as (_ & Henough).
  destruct (Henough H2) as (resp & Hresp & _ & Hrec & _ & _ & Hends).
  destruct (Hends 100 100 eq_refl eq_refl) as (_ & Hdown & Hst).
  exists resp. split; [exact Hresp|]. split; [exact Hrec|].
  split; [apply Hdown; reflexivity | exact Hst].
Defined.


Lemma correlation_route_answers_500_witness :
  ("stock"%string = "stock"%string \/ "stock"%string = "bond"%string) /\
  Analysis.analyze_correlation small_service sqrt_approx
                               (always (daily (rising 15))) unavailable
                               "600519.SH" "000001.SZ" "stock" "stock" 30
  = Raise (HTTPException 500 "相关性分析失败").
Proof.
  assert (H : "stock"%string = "stock"%string
              \/ "stock"%string = "bond"%string) by (left; reflexivity).
  split; [exact H|].
  exact (@correlation_route_answers_500
           small_service sqrt_approx (always (daily (rising 15))) unavailable
           "600519.SH" "000001.SZ" "stock" "stock" 30 H).
Defined.

Lemma compare_route_never_succeeds_witness :
  (length ["000001.SZ"]%string < 2)%nat /\
  (2 <= length ["000001.SZ"; "600519.SH"]%string <= 10)%nat /\
  Analysis.compare_assets small_service sqrt_approx
                          (always (daily (rising 12))) unavailable
                          ["000001.SZ"]%string "stock"
  = Raise (HTTPException 400 "至少需要2个资产进行比较") /\
  Analysis.compare_assets small_service sqrt_approx
                          (always (daily (rising 12))) unavailable
                          ["000001.SZ"; "600519.SH"]%string "stock"
  = Raise (HTTPException 500 "资产比较失败").
Proof.
  assert (H1 : (length ["000001.SZ"]%string < 2)%nat) by (simpl; lia).
  assert (H2 : (2 <= length ["000001.SZ"; "600519.SH"]%string <= 10)%nat)
    by (simpl; lia).
  split; [exact H1|]. split; [exact H2|].
  split.
  - destruct (compare_route_never_succeeds
                small_service sqrt_approx (always (daily (rising 12)))
                unavailable ["000001.SZ"]%string "stock") as (Hfew & _).
    exact (Hfew H1).
  - destruct (compare_route_never_succeeds
                small_service sqrt_approx (always (daily (rising 12)))
                unavailable ["000001.SZ"; "600519.SH"]%string "stock")
      as (_ & _ & Hsome & _).
    exact (proj2 (proj2 (Hsome H2))).
Defined.

Lemma market_summary_never_fails_witness :
  (forall s, In s (firstn 5 COMMON_STOCKS) ->
             fails (Service.get_stock_percentile small_service sqrt_approx
                                                 unavailable s "1y") = true) /\
  exists resp,
    Market.get_market_summary small_service sqrt_approx
                              unavailable (always (daily (rising 12)))
    = Ok resp /\
    side_items (stock_market (data resp)) = [] /\
    side_average (stock_market (data resp)) = round (Fin 50) 2 /\
    side_sentiment (stock_market (data resp)) = "正常"%string.
Proof.
  assert (H : forall s, In s (firstn 5 COMMON_STOCKS) ->
                        fails (Service.get_stock_percentile
                                 small_service sqrt_approx
                                 unavailable s "1y") = true)
    by (intros s _; reflexivity).
  split; [exact H|].
  destruct (market_summary_never_fails
              small_service sqrt_approx unavailable
              (always (daily (rising 12))))
    as (resp & Hresp & _ & Hstock & _).
  exists resp. split; [exact Hresp|]. exact (Hstock H).
Defined.

Lemma market_sentiment_consistent_witness :
  Market._get_percentile_sentiment (Fin 90) = "高位"%string /\
  Market._get_percentile_sentiment (Fin 85) = "高位"%string /\
  Market._generate_market_sentiment (Fin 90) (Fin 85)
  = "市场整体处于高位，注意风险"%string.
Proof.
  assert (H1 : Market._get_percentile_sentiment (Fin 90) = "高位"%string)
    by reflexivity.
  assert (H2 : Market._get_percentile_sentiment (Fin 85) = "高位"%string)
    by reflexivity.
  split; [exact H1|]. split; [exact H2|].
  destruct (market_sentiment_consistent (Fin 90) (Fin 85))
    as (_ & Hhigh & _).
  apply Hhigh. split; [exact H1 | exact H2].
Defined.

Lemma market_overview_lists_every_index_with_rows_witness :
  (1 <= window small_service)%nat /\
  exists ov,
    MarketService.get_market_overview
      small_service
      (fun sym _ => if String.eqb sym "^IXIC" then None else Some ten_days)
    = Ok ov /\
    map fst (market_data ov)
    = ["^GSPC"; "^DJI"; "000300.SS"; "000001.SS"]%string /\
    Forall (fun kv => is_percentage (quote_percentile (snd kv)))
           (market_data ov).
Proof.
  assert (H1 : (1 <= window small_service)%nat) by (simpl; lia).
  split; [exact H1|].
  destruct (market_overview_lists_every_index_with_rows
              small_service
              (fun sym _ => if String.eqb sym "^IXIC" then None
                            else Some ten_days))
    as (ov & Hov & Hkeys & _ & Hp).
  exists ov. split; [exact Hov|]. split; [exact Hkeys|]. exact (Hp H1).
Defined.

Lemma market_summary_needs_an_extreme_index_witness :
  MarketService._generate_market_summary
    [("^GSPC"%string, {| quote_price := Fin 10; quote_percentile := Fin 95 |});
     ("^DJI"%string, {| quote_price := Fin 20; quote_percentile := Fin 75 |})]
  = "市场处于高位，注意风险"%string /\
  exists kv,
    In kv [("^GSPC"%string,
            {| quote_price := Fin 10; quote_percentile := Fin 95 |});
           ("^DJI"%string,
            {| quote_price := Fin 20; quote_percentile := Fin 75 |})] /\
    fgt (quote_percentile (snd kv)) (Fin 80) = true.
Proof.
  assert (H : MarketService._generate_market_summary
                [("^GSPC"%string,
                  {| quote_price := Fin 10; quote_percentile := Fin 95 |});
                 ("^DJI"%string,
                  {| quote_price := Fin 20; quote_percentile := Fin 75 |})]
              = "市场处于高位，注意风险"%string) by reflexivity.
  split; [exact H|].
  destruct (market_summary_needs_an_extreme_index
              [("^GSPC"%string,
                {| quote_price := Fin 10; quote_percentile := Fin 95 |});
               ("^DJI"%string,
                {| quote_price := Fin 20; quote_percentile := Fin 75 |})])
    as (_ & _ & Hhigh & _).
  exact (Hhigh H).
Defined.


Lemma correlation_result_is_clamped_witness :
  exists r,
    Binary64.Analysis._calculate_correlation
      pow_stand_in [1; 2; 3; 4]%float [2; 4; 6; 9]%float = Ok r /\
    (r = 1%float \/ r = (-1)%float \/
     (PrimFloat.ltb (-1) r = true /\ PrimFloat.ltb r 1 = true)).
Proof.
  destruct (Binary64.Analysis._calculate_correlation
              pow_stand_in [1; 2; 3; 4]%float [2; 4; 6; 9]%float)
    as [r|e] eqn:E; [|discriminate E].
  exists r. split; [reflexivity|].
  exact (correlation_result_is_clamped pow_stand_in _ _ E).
Defined.
